(** * duckdb_ex: the NIF marshalling layer of [c_src/duckdb_ex.c]

    A shallow embedding of the C source that sits between the DuckDB C API
    and the Erlang runtime: Erlang terms are a tagged inductive type, the
    engine is an interface answering the calls the source makes, and the
    NIFs are state-passing functions over the resources they mutate.

    Layout: Part I gives the definitions (terms, libc helpers, engine
    interface, appender and prepared-statement NIFs, row materializer,
    vector extractor); Part II gives the lemmas and theorems. *)

From Stdlib Require Import ZArith List String Ascii Bool Lia SpecFloat.
Import ListNotations.
Local Open Scope string_scope.
Local Open Scope list_scope.
Local Open Scope Z_scope.

(* ================================================================== *)
(** * Part I. Definitions *)
(* ================================================================== *)

(** ** Erlang terms as the NIF API builds them *)

Inductive resource_type : Type :=
| database_resource_type
| connection_resource_type
| result_resource_type
| prepared_statement_resource_type
| data_chunk_resource_type
| appender_resource_type
| config_resource_type.

Set Warnings "-register-all".

(** [TBadarg] is the exception value of [enif_make_badarg]; a NIF that
    returns it raises [badarg] in the caller. *)
Inductive term : Type :=
| TAtom (name : string)
| TInt (z : Z)
| TDouble (d : spec_float)
| TBinary (bytes : string)
| TList (elems : list term)
| TTuple (elems : list term)
| TMap (pairs : list (term * term))
| TResource (ty : resource_type) (id : nat)
| TBadarg.

Definition atom_ok : term := TAtom "ok".
Definition atom_error : term := TAtom "error".
Definition atom_nil : term := TAtom "nil".

Definition enif_make_atom (name : string) : term := TAtom name.
Definition enif_make_badarg : term := TBadarg.
Definition enif_make_binary (bytes : string) : term := TBinary bytes.
Definition enif_make_tuple2 (a b : term) : term := TTuple [a; b].
Definition enif_make_tuple3 (a b c : term) : term := TTuple [a; b; c].
Definition enif_make_tuple_from_array (l : list term) : term := TTuple l.
Definition enif_make_list_from_array (l : list term) : term := TList l.
Definition enif_make_new_map : term := TMap [].

(** Integer constructors.  Each takes a C integer of some width; the
    callers below always pass a value already inside that width, so the
    term carries the value itself. *)
Definition enif_make_int (v : Z) : term := TInt v.
Definition enif_make_uint (v : Z) : term := TInt v.
Definition enif_make_long (v : Z) : term := TInt v.
Definition enif_make_int64 (v : Z) : term := TInt v.
Definition enif_make_uint64 (v : Z) : term := TInt v.

(** ** Doubles

    A C [double] is an IEEE-754 binary64 value, a [float] a binary32 one;
    both are carried as [spec_float]. *)

Definition prec64 : Z := 53.
Definition emax64 : Z := 1024.

Definition isnan (d : spec_float) : bool :=
  match d with S754_nan => true | _ => false end.

Definition isinf (d : spec_float) : bool :=
  match d with S754_infinity _ => true | _ => false end.

(** [val > 0] on a double. *)
Definition double_gt_zero (d : spec_float) : bool :=
  match d with
  | S754_infinity s => negb s
  | S754_finite s _ _ => negb s
  | _ => false
  end.

Definition is_finite_double (d : spec_float) : bool :=
  match d with
  | S754_zero _ | S754_finite _ _ _ => true
  | _ => false
  end.

(** [enif_make_double]: the runtime has no float term for NaN or an
    infinity; for those the call turns into [enif_make_badarg]. *)
Definition enif_make_double (d : spec_float) : term :=
  if is_finite_double d then TDouble d else enif_make_badarg.

(** [(double)raw] for a 64-bit integer: round to nearest even. *)
Definition double_of_int (z : Z) : spec_float :=
  binary_normalize prec64 emax64 z 0 false.

Definition double_mul : spec_float -> spec_float -> spec_float :=
  SFmul prec64 emax64.
Definition double_div : spec_float -> spec_float -> spec_float :=
  SFdiv prec64 emax64.

(** ** Fixed-width C integers *)

Definition two_p (w : Z) : Z := 2 ^ w.

(** Reinterpret [z] as an unsigned / signed [w]-bit integer. *)
Definition to_unsigned (w : Z) (z : Z) : Z := z mod two_p w.
Definition to_signed (w : Z) (z : Z) : Z :=
  (z + two_p (w - 1)) mod two_p w - two_p (w - 1).

Definition INT_MIN : Z := -2147483648.
Definition INT_MAX : Z := 2147483647.
Definition LLONG_MIN : Z := -9223372036854775808.
Definition LLONG_MAX : Z := 9223372036854775807.
Definition ULLONG_MAX : Z := 18446744073709551615.

(** ** libc: the pieces of [snprintf] and [strtoll] the source relies on *)

Definition digit_char (d : Z) : ascii :=
  ascii_of_nat (Z.to_nat (if d <? 10 then 48 + d else 87 + d)).

(** Digits of [n >= 0] in [base], most significant first, pushed in
    front of [acc]. *)
Fixpoint digits_fuel (base : Z) (fuel : nat) (n : Z) (acc : string) : string :=
  match fuel with
  | O => acc
  | S fuel' =>
      let acc' := String (digit_char (n mod base)) acc in
      if n <? base then acc' else digits_fuel base fuel' (n / base) acc'
  end.

Definition digits_of (base : Z) (n : Z) : string :=
  digits_fuel base (S (Z.to_nat (Z.log2 n))) n "".

(** [%llu], [%u] *)
Definition fmt_unsigned (n : Z) : string := digits_of 10 n.

(** [%lld], [%d] *)
Definition fmt_signed (z : Z) : string :=
  if z <? 0 then String "-" (digits_of 10 (- z)) else digits_of 10 z.

Fixpoint zeros (n : nat) (acc : string) : string :=
  match n with
  | O => acc
  | S n' => String "0" (zeros n' acc)
  end.

Definition pad_zero (width : nat) (s : string) : string :=
  zeros (width - String.length s) s.

(** [%0<width>llx] *)
Definition fmt_hex_pad (width : nat) (n : Z) : string :=
  pad_zero width (digits_of 16 n).

(** [%0<width>d]: the sign counts towards the width. *)
Definition fmt_signed_pad (width : nat) (z : Z) : string :=
  if z <? 0 then String "-" (pad_zero (width - 1) (digits_of 10 (- z)))
  else pad_zero width (digits_of 10 z).

Definition is_space (c : ascii) : bool :=
  let n := nat_of_ascii c in
  (Nat.eqb n 32 || (Nat.leb 9 n && Nat.leb n 13))%bool.

Fixpoint skip_spaces (s : string) : string :=
  match s with
  | String c s' => if is_space c then skip_spaces s' else s
  | EmptyString => s
  end.

Definition decimal_digit (c : ascii) : option Z :=
  let n := Z.of_nat (nat_of_ascii c) in
  if (48 <=? n) && (n <=? 57) then Some (n - 48) else None.

(** The digit loop of [strtol]: accumulates while digits last and
    returns what follows them. *)
Fixpoint parse_digits (s : string) (acc : Z) : Z * string :=
  match s with
  | String c s' =>
      match decimal_digit c with
      | Some d => parse_digits s' (acc * 10 + d)
      | None => (acc, s)
      end
  | EmptyString => (acc, s)
  end.

Definition starts_with_digit (s : string) : bool :=
  match s with
  | String c _ => match decimal_digit c with Some _ => true | None => false end
  | EmptyString => false
  end.

Definition clamp (lo hi z : Z) : Z :=
  if z <? lo then lo else if hi <? z then hi else z.

(** [strtoll(str, &endptr, 10)]: optional white space, optional sign,
    digits; the value saturates at [LLONG_MIN]/[LLONG_MAX]; with no
    digits the result is 0 and [endptr] is [str]. *)
Definition strtoll (str : string) : Z * string :=
  let s := skip_spaces str in
  let '(neg, body) :=
    match s with
    | String "-" s' => (true, s')
    | String "+" s' => (false, s')
    | _ => (false, s)
    end in
  if starts_with_digit body then
    let '(v, rest) := parse_digits body 0 in
    (clamp LLONG_MIN LLONG_MAX (if neg then - v else v), rest)
  else (0, str).

(** [strtol]: [long] is [long long] on the LP64 targets of the NIF. *)
Definition strtol : string -> Z * string := strtoll.

(** [strtoull]: saturates at [ULLONG_MAX]; a leading minus negates the
    result in the unsigned type. *)
Definition strtoull (str : string) : Z * string :=
  let s := skip_spaces str in
  let '(neg, body) :=
    match s with
    | String "-" s' => (true, s')
    | String "+" s' => (false, s')
    | _ => (false, s)
    end in
  if starts_with_digit body then
    let '(v, rest) := parse_digits body 0 in
    if ULLONG_MAX <? v then (ULLONG_MAX, rest)
    else ((if neg then to_unsigned 64 (- v) else v), rest)
  else (0, str).

Definition strtoul : string -> Z * string := strtoull.

(** A byte buffer handed to the engine as a C string ends at its first
    NUL. *)
Fixpoint c_string (bytes : string) : string :=
  match bytes with
  | String c s' =>
      if Ascii.eqb c zero then EmptyString else String c (c_string s')
  | EmptyString => EmptyString
  end.

(** ** Helper functions of the source *)

Definition make_error (error_msg : string) : term :=
  enif_make_tuple2 atom_error (enif_make_binary error_msg).

Definition make_ok (t : term) : term := enif_make_tuple2 atom_ok t.

(* ------------------------------------------------------------------ *)
(** ** The engine as the NIFs see it

    State-changing entry points of the DuckDB C API are the constructors
    of [engine_call]; an [engine] answers each call from the calls made
    before it.  The world a NIF runs in holds the resources the runtime
    has handed out and the calls made so far, most recent first. *)

Inductive duckdb_state : Type := DuckDBSuccess | DuckDBError.

(** A [duckdb_appender] is a pointer: [None] is [NULL]. *)
Definition duckdb_appender : Type := option nat.

(** A prepared statement with the parameter count [duckdb_nparams]
    reports for it. *)
Record duckdb_prepared_statement : Type := {
  stmt_handle : nat;
  duckdb_nparams : nat
}.

Inductive engine_call : Type :=
| duckdb_appender_destroy (a : duckdb_appender)
| duckdb_appender_close (a : duckdb_appender)
| duckdb_appender_flush (a : duckdb_appender)
| duckdb_appender_end_row (a : duckdb_appender)
| duckdb_append_int8 (a : duckdb_appender) (value : Z)
| duckdb_bind_null (s : nat) (param_idx : Z)
| duckdb_bind_boolean (s : nat) (param_idx : Z) (b : bool)
| duckdb_bind_int64 (s : nat) (param_idx : Z) (v : Z)
| duckdb_bind_double (s : nat) (param_idx : Z) (d : spec_float)
| duckdb_bind_varchar (s : nat) (param_idx : Z) (str : string)
| duckdb_execute_prepared (s : nat).

Record engine : Type := {
  respond : list engine_call -> engine_call -> duckdb_state;
  duckdb_appender_error : list engine_call -> duckdb_appender -> option string;
  duckdb_result_error : list engine_call -> option string;
  (* whether the runtime's allocator hands out a buffer of that many
     bytes at that point of the run *)
  allocator : list engine_call -> Z -> bool
}.

Record AppenderResource : Type := { appender : duckdb_appender }.
Record PreparedStatementResource : Type := { stmt : duckdb_prepared_statement }.

Record world : Type := {
  appender_resources : nat -> option AppenderResource;
  prepared_statement_resources : nat -> option PreparedStatementResource;
  next_result : nat;
  engine_log : list engine_call
}.

(** A NIF body: a computation over the world. *)
Definition nif (A : Type) : Type := world -> A * world.

Definition ret {A : Type} (a : A) : nif A := fun w => (a, w).

Definition bind {A B : Type} (m : nif A) (k : A -> nif B) : nif B :=
  fun w => let (a, w') := m w in k a w'.

Notation "x <- m ;; k" := (bind m (fun x => k))
  (at level 61, m at next level, right associativity).

(** Hand a call to the engine and record it. *)
Definition engine_invoke (E : engine) (c : engine_call) : nif duckdb_state :=
  fun w =>
    (respond E (engine_log w) c,
     {| appender_resources := appender_resources w;
        prepared_statement_resources := prepared_statement_resources w;
        next_result := next_result w;
        engine_log := c :: engine_log w |}).

Definition appender_error_msg (E : engine) (a : duckdb_appender)
  : nif (option string) :=
  fun w => (duckdb_appender_error E (engine_log w) a, w).

Definition result_error_msg (E : engine) : nif (option string) :=
  fun w => (duckdb_result_error E (engine_log w), w).

(** [enif_alloc(size)]: [false] is a [NULL] return. *)
Definition enif_alloc (E : engine) (size : Z) : nif bool :=
  fun w => (allocator E (engine_log w) size, w).

(** [appender_res->appender = a] on the resource [id]. *)
Definition set_appender (id : nat) (a : duckdb_appender) : nif unit :=
  fun w =>
    (tt,
     {| appender_resources :=
          fun i => if Nat.eqb i id then Some {| appender := a |}
                   else appender_resources w i;
        prepared_statement_resources := prepared_statement_resources w;
        next_result := next_result w;
        engine_log := engine_log w |}).

(** [enif_alloc_resource(result_resource_type, ...)] followed by
    [enif_make_resource]. *)
Definition alloc_result : nif term :=
  fun w =>
    (TResource result_resource_type (next_result w),
     {| appender_resources := appender_resources w;
        prepared_statement_resources := prepared_statement_resources w;
        next_result := S (next_result w);
        engine_log := engine_log w |}).

(** [enif_get_resource] for the two resource types used below. *)
Definition get_appender_resource (t : term) (w : world)
  : option (nat * AppenderResource) :=
  match t with
  | TResource appender_resource_type id =>
      match appender_resources w id with
      | Some r => Some (id, r)
      | None => None
      end
  | _ => None
  end.

Definition get_prepared_statement_resource (t : term) (w : world)
  : option PreparedStatementResource :=
  match t with
  | TResource prepared_statement_resource_type id =>
      prepared_statement_resources w id
  | _ => None
  end.

(** [enif_get_int]: succeeds on an integer that fits a C [int]. *)
Definition enif_get_int (t : term) : option Z :=
  match t with
  | TInt z => if (INT_MIN <=? z) && (z <=? INT_MAX) then Some z else None
  | _ => None
  end.

(** [enif_get_long]: succeeds on an integer that fits a 64-bit [long]. *)
Definition enif_get_long (t : term) : option Z :=
  match t with
  | TInt z => if (LLONG_MIN <=? z) && (z <=? LLONG_MAX) then Some z else None
  | _ => None
  end.

Definition enif_get_double (t : term) : option spec_float :=
  match t with
  | TDouble d => Some d
  | _ => None
  end.

Definition enif_inspect_binary (t : term) : option string :=
  match t with
  | TBinary b => Some b
  | _ => None
  end.

Definition enif_is_list (t : term) : bool :=
  match t with
  | TList _ => true
  | _ => false
  end.

Definition enif_get_list_length (t : term) : option nat :=
  match t with
  | TList l => Some (List.length l)
  | _ => None
  end.

Fixpoint latin1_chars (l : list term) : option string :=
  match l with
  | [] => Some EmptyString
  | TInt z :: l' =>
      if (0 <=? z) && (z <=? 255) then
        match latin1_chars l' with
        | Some s => Some (String (ascii_of_nat (Z.to_nat z)) s)
        | None => None
        end
      else None
  | _ :: _ => None
  end.

(** [enif_get_string(env, t, buf, size, ERL_NIF_LATIN1)]: the number of
    bytes written with the terminating NUL, [0] when [t] is no latin-1
    character list, [- size] when the buffer is too small. *)
Definition enif_get_string (t : term) (size : Z) : Z * string :=
  match t with
  | TList l =>
      match latin1_chars l with
      | Some s =>
          let n := Z.of_nat (String.length s) + 1 in
          if n <=? size then (n, s) else (- size, EmptyString)
      | None => (0, EmptyString)
      end
  | _ => (0, EmptyString)
  end.

(** [enif_compare(a, b) == 0] against an atom. *)
Definition is_atom (name : string) (t : term) : bool :=
  match t with
  | TAtom n => String.eqb n name
  | _ => false
  end.

(* ------------------------------------------------------------------ *)
(** ** Appender NIFs *)

Definition appender_resource_destructor (E : engine) (id : nat) : nif unit :=
  fun w =>
    match appender_resources w id with
    | Some res =>
        match appender res with
        | Some _ =>
            (_ <- engine_invoke E (duckdb_appender_destroy (appender res)) ;;
             ret tt) w
        | None => (tt, w)
        end
    | None => (tt, w)
    end.

Definition appender_close_nif (E : engine) (argv : list term) : nif term :=
  fun w =>
    match argv with
    | [a0] =>
        match get_appender_resource a0 w with
        | None => (enif_make_badarg, w)
        | Some (_, appender_res) =>
            (state <- engine_invoke E (duckdb_appender_close (appender appender_res)) ;;
             match state with
             | DuckDBError =>
                 error_msg <- appender_error_msg E (appender appender_res) ;;
                 ret (make_error
                        (match error_msg with
                         | Some m => m
                         | None => "Unknown appender close error"
                         end))
             | DuckDBSuccess => ret atom_ok
             end) w
        end
    | _ => (enif_make_badarg, w)
    end.

Definition appender_destroy_nif (E : engine) (argv : list term) : nif term :=
  fun w =>
    match argv with
    | [a0] =>
        match get_appender_resource a0 w with
        | None => (enif_make_badarg, w)
        | Some (id, appender_res) =>
            (state <- engine_invoke E (duckdb_appender_destroy (appender appender_res)) ;;
             match state with
             | DuckDBError => ret (make_error "Failed to destroy appender")
             | DuckDBSuccess =>
                 (* Mark as destroyed *)
                 _ <- set_appender id None ;;
                 ret atom_ok
             end) w
        end
    | _ => (enif_make_badarg, w)
    end.

Definition appender_end_row_nif (E : engine) (argv : list term) : nif term :=
  fun w =>
    match argv with
    | [a0] =>
        match get_appender_resource a0 w with
        | None => (enif_make_badarg, w)
        | Some (_, appender_res) =>
            (state <- engine_invoke E (duckdb_appender_end_row (appender appender_res)) ;;
             match state with
             | DuckDBError =>
                 error_msg <- appender_error_msg E (appender appender_res) ;;
                 ret (make_error
                        (match error_msg with
                         | Some m => m
                         | None => "Unknown appender end row error"
                         end))
             | DuckDBSuccess => ret atom_ok
             end) w
        end
    | _ => (enif_make_badarg, w)
    end.

Definition appender_append_int8_nif (E : engine) (argv : list term) : nif term :=
  fun w =>
    match argv with
    | [a0; a1] =>
        match get_appender_resource a0 w with
        | None => (enif_make_badarg, w)
        | Some (_, appender_res) =>
            match enif_get_int a1 with
            | None => (enif_make_badarg, w)
            | Some value =>
                if (value <? -128) || (value >? 127) then
                  (make_error "Value out of range for int8", w)
                else
                  (state <- engine_invoke E
                              (duckdb_append_int8 (appender appender_res)
                                                  (to_signed 8 value)) ;;
                   match state with
                   | DuckDBError =>
                       error_msg <- appender_error_msg E (appender appender_res) ;;
                       ret (make_error
                              (match error_msg with
                               | Some m => m
                               | None => "Unknown appender append error"
                               end))
                   | DuckDBSuccess => ret atom_ok
                   end) w
            end
        end
    | _ => (enif_make_badarg, w)
    end.

(* ------------------------------------------------------------------ *)
(** ** Prepared statements *)

(** Bind one parameter according to the shape of the Erlang term; a
    term of no supported shape is refused without an engine call, and
    so is a binary for whose copy no buffer can be allocated. *)
Definition bind_parameter (E : engine) (s : duckdb_prepared_statement)
  (param_idx : Z) (param : term) : nif duckdb_state :=
  let h := stmt_handle s in
  if is_atom "nil" param then engine_invoke E (duckdb_bind_null h param_idx)
  else if is_atom "true" param then
    engine_invoke E (duckdb_bind_boolean h param_idx true)
  else if is_atom "false" param then
    engine_invoke E (duckdb_bind_boolean h param_idx false)
  else
    match enif_get_long param with
    | Some long_val =>
        engine_invoke E (duckdb_bind_int64 h param_idx (to_signed 64 long_val))
    | None =>
        match enif_get_double param with
        | Some double_val =>
            engine_invoke E (duckdb_bind_double h param_idx double_val)
        | None =>
            match enif_inspect_binary param with
            | Some bin =>
                str <- enif_alloc E (Z.of_nat (String.length bin) + 1) ;;
                if negb str then ret DuckDBError
                else
                  engine_invoke E
                    (duckdb_bind_varchar h param_idx (c_string bin))
            | None =>
                let '(n, str_buffer) := enif_get_string param 1024 in
                if 0 <? n then
                  engine_invoke E
                    (duckdb_bind_varchar h param_idx (c_string str_buffer))
                else ret DuckDBError
            end
        end
    end.

(** The binding loop: [n] parameters still to bind, the last bound one
    having index [i]; [Some t] is an early return of [t]. *)
Fixpoint bind_parameters (E : engine) (s : duckdb_prepared_statement)
  (n : nat) (i : Z) (list : list term) : nif (option term) :=
  match n with
  | O => ret None
  | S n' =>
      match list with
      | [] => ret (Some (make_error "Failed to get parameter from list"))
      | head :: tail =>
          bind_state <- bind_parameter E s (i + 1) head ;;
          match bind_state with
          | DuckDBError =>
              ret (Some (make_error
                           (String.append "Failed to bind parameter "
                                          (fmt_unsigned (i + 1)))))
          | DuckDBSuccess => bind_parameters E s n' (i + 1) tail
          end
      end
  end.

Definition prepared_statement_execute_nif (E : engine) (argv : list term)
  : nif term :=
  fun w =>
    match argv with
    | [a0; a1] =>
        match get_prepared_statement_resource a0 w with
        | None => (enif_make_badarg, w)
        | Some stmt_res =>
            if negb (enif_is_list a1) then (enif_make_badarg, w)
            else
              let param_count := duckdb_nparams (stmt stmt_res) in
              match enif_get_list_length a1 with
              | None => (enif_make_badarg, w)
              | Some list_length =>
                  if negb (Nat.eqb list_length param_count) then
                    (make_error
                       (String.append "Parameter count mismatch: expected "
                          (String.append (fmt_unsigned (Z.of_nat param_count))
                             (String.append ", got "
                                (fmt_unsigned (Z.of_nat list_length))))), w)
                  else
                    (early <- bind_parameters E (stmt stmt_res) param_count 0
                                (match a1 with TList l => l | _ => [] end) ;;
                     match early with
                     | Some t => ret t
                     | None =>
                         res <- alloc_result ;;
                         state <- engine_invoke E
                                    (duckdb_execute_prepared
                                       (stmt_handle (stmt stmt_res))) ;;
                         match state with
                         | DuckDBError =>
                             error_msg <- result_error_msg E ;;
                             ret (make_error
                                    (match error_msg with
                                     | Some m => m
                                     | None => "Failed to execute prepared statement"
                                     end))
                         | DuckDBSuccess => ret (make_ok res)
                         end
                     end) w
              end
        end
    | _ => (enif_make_badarg, w)
    end.

(* ------------------------------------------------------------------ *)
(** ** Engine types *)

(** The type identifiers the source switches on; [DUCKDB_TYPE_INVALID]
    and [DUCKDB_TYPE_unlisted] stand for every identifier it leaves to
    its [default] branches. *)
Inductive duckdb_type : Type :=
| DUCKDB_TYPE_INVALID
| DUCKDB_TYPE_BOOLEAN
| DUCKDB_TYPE_TINYINT
| DUCKDB_TYPE_SMALLINT
| DUCKDB_TYPE_INTEGER
| DUCKDB_TYPE_BIGINT
| DUCKDB_TYPE_UTINYINT
| DUCKDB_TYPE_USMALLINT
| DUCKDB_TYPE_UINTEGER
| DUCKDB_TYPE_UBIGINT
| DUCKDB_TYPE_FLOAT
| DUCKDB_TYPE_DOUBLE
| DUCKDB_TYPE_TIMESTAMP
| DUCKDB_TYPE_DATE
| DUCKDB_TYPE_TIME
| DUCKDB_TYPE_INTERVAL
| DUCKDB_TYPE_HUGEINT
| DUCKDB_TYPE_UHUGEINT
| DUCKDB_TYPE_VARCHAR
| DUCKDB_TYPE_BLOB
| DUCKDB_TYPE_DECIMAL
| DUCKDB_TYPE_TIMESTAMP_S
| DUCKDB_TYPE_TIMESTAMP_MS
| DUCKDB_TYPE_TIMESTAMP_NS
| DUCKDB_TYPE_ENUM
| DUCKDB_TYPE_LIST
| DUCKDB_TYPE_STRUCT
| DUCKDB_TYPE_MAP
| DUCKDB_TYPE_ARRAY
| DUCKDB_TYPE_UUID
| DUCKDB_TYPE_UNION
| DUCKDB_TYPE_BIT
| DUCKDB_TYPE_TIME_TZ
| DUCKDB_TYPE_TIMESTAMP_TZ
| DUCKDB_TYPE_unlisted (id : Z).

Definition is_uuid_type (t : duckdb_type) : bool :=
  match t with DUCKDB_TYPE_UUID => true | _ => false end.

(** Calendar and clock structures of the engine. *)
Record duckdb_date_struct : Type := { year : Z; month : Z; day : Z }.
Record duckdb_time_struct : Type := { hour : Z; min : Z; sec : Z; micros : Z }.

(** What the source calls and this file does not define: the engine's
    calendar routines and decimal conversion, the integer value of a
    type identifier in the engine's header, and libc's floating-point
    parsing and [%.10g] printing. *)
Record externals : Type := {
  duckdb_from_date : Z -> duckdb_date_struct;
  duckdb_from_time : Z -> duckdb_time_struct;
  duckdb_from_timestamp : Z -> duckdb_date_struct * duckdb_time_struct;
  duckdb_from_time_tz : Z -> duckdb_time_struct * Z;
  duckdb_decimal_to_double : Z -> Z -> Z * Z -> spec_float;
  type_number : duckdb_type -> Z;
  strtof : string -> spec_float;
  strtod : string -> spec_float;
  fmt_g10 : spec_float -> string;
  (* whether [enif_alloc] of that many bytes returns a buffer, where
     the source tests what it returns; the answer is taken to depend
     on the size asked for only *)
  enif_alloc_succeeds : Z -> bool;
  (* what a cell comes to where C leaves the behaviour undefined *)
  undefined_value : term
}.

Definition sizeof_ERL_NIF_TERM : Z := 8.

(** [(double)val] for a [float]: exact. *)
Definition double_of_float (f : spec_float) : spec_float :=
  match f with
  | S754_finite s m e =>
      binary_normalize prec64 emax64 (cond_Zopp s (Zpos m)) e s
  | _ => f
  end.

(* ------------------------------------------------------------------ *)
(** ** Row materializer: the per-cell result API *)

(** A materialized result through its accessors; arguments are column
    then row, as in the C API.  A [NULL] string is [None]. *)
Record duckdb_result : Type := {
  duckdb_row_count : nat;
  duckdb_column_count : nat;
  duckdb_column_type : nat -> duckdb_type;
  duckdb_value_is_null : nat -> nat -> bool;
  duckdb_value_varchar : nat -> nat -> option string;
  duckdb_value_blob : nat -> nat -> option string
}.

Definition hugeint_to_elixir_integer_via_varchar
  (result : duckdb_result) (col row : nat) : term :=
  match duckdb_value_varchar result col row with
  | None => atom_nil
  | Some str =>
      let '(val, endptr) := strtoll str in
      if (String.eqb endptr "" && negb (val =? LLONG_MAX)
          && negb (val =? LLONG_MIN))%bool
      then enif_make_int64 val
      else enif_make_binary str
  end.

(** [str != NULL && strlen(str) > 0 && strcmp(str, "NULL") != 0] *)
Definition usable_varchar (str : option string) : option string :=
  match str with
  | Some s =>
      if (Nat.ltb 0 (String.length s) && negb (String.eqb s "NULL"))%bool
      then Some s else None
  | None => None
  end.

Definition varchar_or_nil (str : option string) : term :=
  match usable_varchar str with
  | Some s => enif_make_binary s
  | None => atom_nil
  end.

Definition varchar_or_placeholder (is_null : bool) (str : option string)
  (placeholder : string) : term :=
  if is_null then atom_nil
  else match usable_varchar str with
       | Some s => enif_make_binary s
       | None => enif_make_binary placeholder
       end.

Definition float_term (val out : spec_float) : term :=
  if isnan val then enif_make_atom "nan"
  else if isinf val then
    if double_gt_zero val then enif_make_atom "infinity"
    else enif_make_atom "negative_infinity"
  else enif_make_double out.

(** One cell of the normal branch of [result_rows_nif]. *)
Definition result_rows_cell (X : externals) (res : duckdb_result)
  (c r : nat) : term :=
  let type := duckdb_column_type res c in
  let is_null := duckdb_value_is_null res c r in
  let str := duckdb_value_varchar res c r in
  if is_null then atom_nil
  else if is_uuid_type type then varchar_or_nil str
  else
    match type with
    | DUCKDB_TYPE_BOOLEAN =>
        match str with
        | Some s =>
            if (String.eqb s "true" || String.eqb s "1")%bool
            then enif_make_atom "true" else enif_make_atom "false"
        | None => atom_nil
        end
    | DUCKDB_TYPE_TINYINT =>
        match str with
        | Some s => enif_make_int (to_signed 8 (fst (strtol s)))
        | None => atom_nil
        end
    | DUCKDB_TYPE_SMALLINT =>
        match str with
        | Some s => enif_make_int (to_signed 16 (fst (strtol s)))
        | None => atom_nil
        end
    | DUCKDB_TYPE_INTEGER =>
        match str with
        | Some s => enif_make_int (to_signed 32 (fst (strtol s)))
        | None => atom_nil
        end
    | DUCKDB_TYPE_BIGINT =>
        match str with
        | Some s => enif_make_long (fst (strtoll s))
        | None => atom_nil
        end
    | DUCKDB_TYPE_UTINYINT =>
        match str with
        | Some s => enif_make_uint (to_unsigned 8 (fst (strtoul s)))
        | None => atom_nil
        end
    | DUCKDB_TYPE_USMALLINT =>
        match str with
        | Some s => enif_make_uint (to_unsigned 16 (fst (strtoul s)))
        | None => atom_nil
        end
    | DUCKDB_TYPE_UINTEGER =>
        match str with
        | Some s => enif_make_uint (to_unsigned 32 (fst (strtoul s)))
        | None => atom_nil
        end
    | DUCKDB_TYPE_UBIGINT =>
        match str with
        | Some s => enif_make_uint64 (fst (strtoull s))
        | None => atom_nil
        end
    | DUCKDB_TYPE_DECIMAL => varchar_or_nil str
    | DUCKDB_TYPE_TIMESTAMP
    | DUCKDB_TYPE_TIMESTAMP_S
    | DUCKDB_TYPE_TIMESTAMP_MS
    | DUCKDB_TYPE_TIMESTAMP_NS
    | DUCKDB_TYPE_TIMESTAMP_TZ =>
        varchar_or_placeholder is_null str "<timestamp_extraction_failed>"
    | DUCKDB_TYPE_HUGEINT => hugeint_to_elixir_integer_via_varchar res c r
    | DUCKDB_TYPE_FLOAT =>
        match str with
        | Some s =>
            let val := strtof X s in float_term val (double_of_float val)
        | None => atom_nil
        end
    | DUCKDB_TYPE_DOUBLE =>
        match str with
        | Some s => let val := strtod X s in float_term val val
        | None => atom_nil
        end
    | DUCKDB_TYPE_DATE => varchar_or_nil str
    | DUCKDB_TYPE_TIME => varchar_or_nil str
    | DUCKDB_TYPE_INTERVAL => varchar_or_nil str
    | DUCKDB_TYPE_BLOB =>
        match duckdb_value_blob res c r with
        | Some b =>
            if Nat.ltb 0 (String.length b) then enif_make_binary b
            else enif_make_binary ""
        | None => enif_make_binary ""
        end
    | DUCKDB_TYPE_VARCHAR =>
        match str with
        | Some s => enif_make_binary s
        | None => atom_nil
        end
    | DUCKDB_TYPE_TIME_TZ => varchar_or_nil str
    | DUCKDB_TYPE_BIT => varchar_or_nil str
    | DUCKDB_TYPE_UHUGEINT => varchar_or_nil str
    | DUCKDB_TYPE_ENUM =>
        match usable_varchar str with
        | Some s => enif_make_binary s
        | None =>
            if is_null then atom_nil
            else enif_make_binary "<regular_api_enum_limitation>"
        end
    | DUCKDB_TYPE_UUID =>
        if is_null then atom_nil
        else enif_make_binary "<regular_api_uuid_limitation>"
    | DUCKDB_TYPE_LIST =>
        varchar_or_placeholder is_null str "<unsupported_list_type>"
    | DUCKDB_TYPE_STRUCT =>
        varchar_or_placeholder is_null str "<unsupported_struct_type>"
    | DUCKDB_TYPE_MAP =>
        varchar_or_placeholder is_null str "<unsupported_map_type>"
    | DUCKDB_TYPE_ARRAY =>
        varchar_or_placeholder is_null str "<unsupported_array_type>"
    | DUCKDB_TYPE_UNION => varchar_or_nil str
    | _ => varchar_or_nil str
    end.

(** The scan for a UUID column that precedes the row loop. *)
Definition has_uuid (res : duckdb_result) : bool :=
  existsb (fun c => is_uuid_type (duckdb_column_type res c))
          (seq 0 (duckdb_column_count res)).

Definition result_rows_row (X : externals) (res : duckdb_result)
  (r : nat) : term :=
  let column_count := duckdb_column_count res in
  enif_make_tuple_from_array
    (if (has_uuid res && Nat.ltb 1 column_count)%bool
     then map (fun _ => atom_nil) (seq 0 column_count)
     else map (fun c => result_rows_cell X res c r) (seq 0 column_count)).

Definition result_rows (X : externals) (res : duckdb_result) : term :=
  enif_make_list_from_array
    (map (result_rows_row X res) (seq 0 (duckdb_row_count res))).

(** The NIF entry point; [results] are the result resources alive. *)
Definition result_rows_nif (X : externals)
  (results : nat -> option duckdb_result) (argv : list term) : term :=
  match argv with
  | [TResource result_resource_type id] =>
      match results id with
      | Some res => result_rows X res
      | None => enif_make_badarg
      end
  | _ => enif_make_badarg
  end.

(* ------------------------------------------------------------------ *)
(** ** Term equality and map construction *)

Definition spec_float_eqb (a b : spec_float) : bool :=
  match a, b with
  | S754_zero s1, S754_zero s2 => Bool.eqb s1 s2
  | S754_infinity s1, S754_infinity s2 => Bool.eqb s1 s2
  | S754_nan, S754_nan => true
  | S754_finite s1 m1 e1, S754_finite s2 m2 e2 =>
      (Bool.eqb s1 s2 && Pos.eqb m1 m2 && Z.eqb e1 e2)%bool
  | _, _ => false
  end.

Definition resource_type_eqb (a b : resource_type) : bool :=
  match a, b with
  | database_resource_type, database_resource_type
  | connection_resource_type, connection_resource_type
  | result_resource_type, result_resource_type
  | prepared_statement_resource_type, prepared_statement_resource_type
  | data_chunk_resource_type, data_chunk_resource_type
  | appender_resource_type, appender_resource_type
  | config_resource_type, config_resource_type => true
  | _, _ => false
  end.

(** Exact equality of terms, the one map keys are compared with.  A
    map has no order: two maps are equal when they hold as many entries
    and every entry of the one is an entry of the other, wherever it
    stands in the list that carries it here. *)
Fixpoint term_eqb (a b : term) {struct a} : bool :=
  match a, b with
  | TAtom x, TAtom y => String.eqb x y
  | TInt x, TInt y => Z.eqb x y
  | TDouble x, TDouble y => spec_float_eqb x y
  | TBinary x, TBinary y => String.eqb x y
  | TList l1, TList l2 =>
      (fix go (l1 l2 : list term) {struct l1} : bool :=
         match l1, l2 with
         | [], [] => true
         | x :: xs, y :: ys => (term_eqb x y && go xs ys)%bool
         | _, _ => false
         end) l1 l2
  | TTuple l1, TTuple l2 =>
      (fix go (l1 l2 : list term) {struct l1} : bool :=
         match l1, l2 with
         | [], [] => true
         | x :: xs, y :: ys => (term_eqb x y && go xs ys)%bool
         | _, _ => false
         end) l1 l2
  | TMap p1, TMap p2 =>
      (Nat.eqb (List.length p1) (List.length p2)
       && (fix go (p : list (term * term)) {struct p} : bool :=
             match p with
             | [] => true
             | (k1, v1) :: xs =>
                 (existsb (fun kv => term_eqb k1 (fst kv)
                                     && term_eqb v1 (snd kv)) p2
                  && go xs)%bool
             end) p1)%bool
  | TResource t1 i1, TResource t2 i2 =>
      (resource_type_eqb t1 t2 && Nat.eqb i1 i2)%bool
  | TBadarg, TBadarg => true
  | _, _ => false
  end.

Definition term_mem (k : term) (l : list term) : bool :=
  existsb (term_eqb k) l.

Fixpoint has_duplicate_key (keys : list term) : bool :=
  match keys with
  | [] => false
  | k :: rest => (term_mem k rest || has_duplicate_key rest)%bool
  end.

(** [enif_make_map_from_arrays]: the map of the given pairs, or failure
    ([None], a zero return) when two of the keys are equal. *)
Definition enif_make_map_from_arrays (keys values : list term) : option term :=
  if has_duplicate_key keys then None else Some (TMap (combine keys values)).

(** Keys no two of which are equal terms. *)
Definition pairwise_distinct (keys : list term) : Prop :=
  forall i j a b,
    i <> j -> nth_error keys i = Some a -> nth_error keys j = Some b ->
    term_eqb a b = false.

(** The value stored under [k] in a map term. *)
Fixpoint map_get (k : term) (pairs : list (term * term)) : option term :=
  match pairs with
  | [] => None
  | (k', v) :: rest => if term_eqb k k' then Some v else map_get k rest
  end.

(* ------------------------------------------------------------------ *)
(** ** Vectors of a data chunk *)

(** A logical type with the parameters its accessors report.
    [LT_plain] is a type with no parameters; the name of a struct field
    is [None] where [duckdb_struct_type_child_name] returns [NULL]. *)
Inductive duckdb_logical_type : Type :=
| LT_plain (id : duckdb_type)
| LT_decimal (width scale : Z) (internal_type : duckdb_type)
| LT_enum (internal_type : duckdb_type) (dictionary : list string)
| LT_list (child_type : duckdb_logical_type)
| LT_array (child_type : duckdb_logical_type) (array_size : nat)
| LT_struct (children : list (option string * duckdb_logical_type))
| LT_map (key_type value_type : duckdb_logical_type).

Definition duckdb_get_type_id (t : duckdb_logical_type) : duckdb_type :=
  match t with
  | LT_plain id => id
  | LT_decimal _ _ _ => DUCKDB_TYPE_DECIMAL
  | LT_enum _ _ => DUCKDB_TYPE_ENUM
  | LT_list _ => DUCKDB_TYPE_LIST
  | LT_array _ _ => DUCKDB_TYPE_ARRAY
  | LT_struct _ => DUCKDB_TYPE_STRUCT
  | LT_map _ _ => DUCKDB_TYPE_MAP
  end.

(** A vector: the raw data buffer ([None] is a [NULL] pointer) as
    bytes, the validity mask as 64-bit words ([None]: every row valid),
    the string heap long strings point into, and the child vectors. *)
Inductive duckdb_vector : Type :=
| Vector (data : option (list Z)) (validity : option (list Z))
         (heap : list Z) (children : list duckdb_vector).

Definition null_vector : duckdb_vector := Vector None None [] [].

Definition duckdb_vector_get_data (v : duckdb_vector) : option (list Z) :=
  match v with Vector d _ _ _ => d end.
Definition duckdb_vector_get_validity (v : duckdb_vector) : option (list Z) :=
  match v with Vector _ m _ _ => m end.
Definition vector_heap (v : duckdb_vector) : list Z :=
  match v with Vector _ _ h _ => h end.
Definition vector_children (v : duckdb_vector) : list duckdb_vector :=
  match v with Vector _ _ _ c => c end.

(** [duckdb_list_vector_get_child], [duckdb_array_vector_get_child] *)
Definition duckdb_list_vector_get_child (v : duckdb_vector)
  : option duckdb_vector := nth_error (vector_children v) 0.

(** [duckdb_struct_vector_get_child]; a missing child is a [NULL]
    vector, whose accessors return [NULL]. *)
Definition duckdb_struct_vector_get_child (v : duckdb_vector) (i : nat)
  : duckdb_vector := nth i (vector_children v) null_vector.

Definition duckdb_validity_row_is_valid (validity : list Z) (row : nat) : bool :=
  Z.testbit (nth (row / 64) validity 0) (Z.of_nat (row mod 64)).

(** *** Reading the data buffer

    Little-endian loads; a byte outside the buffer reads as 0. *)

Definition byte_at (d : list Z) (off : nat) : Z := (nth off d 0) mod 256.

Fixpoint load_le (d : list Z) (off n : nat) : Z :=
  match n with
  | O => 0
  | S n' => byte_at d off + 256 * load_le d (S off) n'
  end.

Definition read_unsigned (size : nat) (d : list Z) (idx : nat) : Z :=
  load_le d (idx * size) size.

Definition read_signed (size : nat) (d : list Z) (idx : nat) : Z :=
  to_signed (8 * Z.of_nat size) (read_unsigned size d idx).

(** [duckdb_hugeint { uint64_t lower; int64_t upper; }] *)
Record duckdb_hugeint : Type := { lower : Z; upper : Z }.

Definition read_hugeint (d : list Z) (idx : nat) : duckdb_hugeint :=
  {| lower := load_le d (idx * 16) 8;
     upper := to_signed 64 (load_le d (idx * 16 + 8) 8) |}.

(** [duckdb_uhugeint { uint64_t lower; uint64_t upper; }] *)
Definition read_uhugeint (d : list Z) (idx : nat) : duckdb_hugeint :=
  {| lower := load_le d (idx * 16) 8;
     upper := load_le d (idx * 16 + 8) 8 |}.

(** The mathematical value of a hugeint. *)
Definition hugeint_value (h : duckdb_hugeint) : Z :=
  upper h * two_p 64 + lower h.

(** [duckdb_list_entry { uint64_t offset; uint64_t length; }] *)
Definition read_list_entry (d : list Z) (idx : nat) : nat * nat :=
  (Z.to_nat (load_le d (idx * 16) 8), Z.to_nat (load_le d (idx * 16 + 8) 8)).

Definition float_of_bits (b : Z) : spec_float :=
  let s := Z.testbit b 31 in
  let e := Z.land (Z.shiftr b 23) 255 in
  let m := Z.land b 8388607 in
  if e =? 255 then (if m =? 0 then S754_infinity s else S754_nan)
  else if e =? 0 then
    match m with Zpos p => S754_finite s p (-149) | _ => S754_zero s end
  else
    match m + 8388608 with
    | Zpos p => S754_finite s p (e - 150)
    | _ => S754_zero s
    end.

Definition double_of_bits (b : Z) : spec_float :=
  let s := Z.testbit b 63 in
  let e := Z.land (Z.shiftr b 52) 2047 in
  let m := Z.land b 4503599627370495 in
  if e =? 2047 then (if m =? 0 then S754_infinity s else S754_nan)
  else if e =? 0 then
    match m with Zpos p => S754_finite s p (-1074) | _ => S754_zero s end
  else
    match m + 4503599627370496 with
    | Zpos p => S754_finite s p (e - 1075)
    | _ => S754_zero s
    end.

Definition read_float (d : list Z) (idx : nat) : spec_float :=
  float_of_bits (read_unsigned 4 d idx).
Definition read_double (d : list Z) (idx : nat) : spec_float :=
  double_of_bits (read_unsigned 8 d idx).

Fixpoint bytes_from (d : list Z) (off n : nat) : string :=
  match n with
  | O => EmptyString
  | S n' => String (ascii_of_nat (Z.to_nat (byte_at d off)))
                   (bytes_from d (S off) n')
  end.

(** [duckdb_string_t]: a 32-bit length, then the bytes themselves when
    there are at most 12 of them, else a 4-byte prefix and a pointer,
    here an offset into the heap. *)
Definition duckdb_string_t_length (d : list Z) (idx : nat) : nat :=
  Z.to_nat (load_le d (idx * 16) 4).

Definition duckdb_string_t_data (d heap : list Z) (idx : nat) : string :=
  let len := duckdb_string_t_length d idx in
  if Nat.leb len 12 then bytes_from d (idx * 16 + 4) len
  else bytes_from heap (Z.to_nat (load_le d (idx * 16 + 8) 8)) len.

(* ------------------------------------------------------------------ *)
(** ** The vector extractor *)

Infix "+++" := String.append (at level 60, right associativity).

Definition hugeint_case (d : list Z) (row_idx : nat) : term :=
  let value := read_hugeint d row_idx in
  if ((upper value =? 0) && (lower value <=? 9223372036854775807))%bool then
    enif_make_int64 (to_signed 64 (lower value))
  else if ((upper value =? -1) && (lower value >=? 9223372036854775808))%bool then
    enif_make_int64 (to_signed 64 (lower value))
  else
    enif_make_binary
      ("hugeint:" +++ fmt_signed (upper value) +++ ":"
       +++ fmt_unsigned (lower value)).

Definition uhugeint_case (d : list Z) (row_idx : nat) : term :=
  let value := read_uhugeint d row_idx in
  if upper value =? 0 then enif_make_binary (fmt_unsigned (lower value))
  else
    enif_make_binary
      (fmt_unsigned (upper value) +++ fmt_hex_pad 16 (lower value)).

(** The loop [divisor *= 10.0], [scale] times from [1.0]. *)
Definition decimal_divisor (scale : Z) : spec_float :=
  Nat.iter (Z.to_nat scale) (fun divisor => double_mul divisor (double_of_int 10))
           (double_of_int 1).

Definition decimal_case (X : externals) (d : list Z)
  (width scale : Z) (internal_type : duckdb_type) (row_idx : nat) : term :=
  let finish (raw_value : Z) : term :=
    if scale =? 0 then enif_make_long raw_value
    else enif_make_double
           (double_div (double_of_int raw_value) (decimal_divisor scale)) in
  match internal_type with
  | DUCKDB_TYPE_SMALLINT => finish (read_signed 2 d row_idx)
  | DUCKDB_TYPE_INTEGER => finish (read_signed 4 d row_idx)
  | DUCKDB_TYPE_BIGINT => finish (read_signed 8 d row_idx)
  | DUCKDB_TYPE_HUGEINT =>
      let h := read_hugeint d row_idx in
      let decimal_double :=
        duckdb_decimal_to_double X width scale (lower h, upper h) in
      enif_make_binary (fmt_g10 X decimal_double)
  | _ =>
      enif_make_binary
        ("unsupported_decimal_internal_type_"
         +++ fmt_signed (type_number X internal_type))
  end.

Definition uuid_string (uuid : duckdb_hugeint) : string :=
  fmt_hex_pad 8 (Z.land (Z.shiftr (upper uuid) 32) 4294967295) +++ "-"
  +++ fmt_hex_pad 4 (Z.land (Z.shiftr (upper uuid) 16) 65535) +++ "-"
  +++ fmt_hex_pad 4 (Z.land (upper uuid) 65535) +++ "-"
  +++ fmt_hex_pad 4 (Z.land (Z.shiftr (lower uuid) 48) 65535) +++ "-"
  +++ fmt_hex_pad 12 (Z.land (lower uuid) 281474976710655).

Definition uuid_case (d : list Z) (row_idx : nat) : term :=
  enif_make_binary (uuid_string (read_hugeint d row_idx)).

Definition enum_case (d : list Z) (internal_type : duckdb_type)
  (dictionary : list string) (row_idx : nat) : term :=
  let dict_size := Z.of_nat (List.length dictionary) in
  let lookup (enum_index : Z) : term :=
    if enum_index <? dict_size then
      match nth_error dictionary (Z.to_nat enum_index) with
      | Some enum_string => enif_make_binary enum_string
      | None => enif_make_atom "invalid_enum_value"
      end
    else enif_make_atom "invalid_enum_value" in
  match internal_type with
  | DUCKDB_TYPE_UTINYINT => lookup (read_unsigned 1 d row_idx)
  | DUCKDB_TYPE_USMALLINT => lookup (read_unsigned 2 d row_idx)
  | DUCKDB_TYPE_UINTEGER => lookup (read_unsigned 4 d row_idx)
  | _ => enif_make_atom "unsupported_enum_internal_type"
  end.

Definition date_string (ds : duckdb_date_struct) : string :=
  fmt_signed_pad 4 (year ds) +++ "-" +++ fmt_signed_pad 2 (month ds) +++ "-"
  +++ fmt_signed_pad 2 (day ds).

Definition time_string (ts : duckdb_time_struct) : string :=
  fmt_signed_pad 2 (hour ts) +++ ":" +++ fmt_signed_pad 2 (min ts) +++ ":"
  +++ fmt_signed_pad 2 (sec ts) +++ "." +++ fmt_signed_pad 6 (micros ts).

(** The cases of the switch for a type without parameters.  The
    identifiers of the parameterised types come with their own
    descriptors ([LT_decimal], [LT_list], ...) and are dispatched before
    this function is reached. *)
Definition extract_plain (X : externals) (d heap : list Z)
  (type_id : duckdb_type) (row_idx : nat) : term :=
  match type_id with
  | DUCKDB_TYPE_BOOLEAN =>
      if read_unsigned 1 d row_idx =? 0 then enif_make_atom "false"
      else enif_make_atom "true"
  | DUCKDB_TYPE_TINYINT => enif_make_int (read_signed 1 d row_idx)
  | DUCKDB_TYPE_SMALLINT => enif_make_int (read_signed 2 d row_idx)
  | DUCKDB_TYPE_INTEGER => enif_make_int (read_signed 4 d row_idx)
  | DUCKDB_TYPE_BIGINT => enif_make_long (read_signed 8 d row_idx)
  | DUCKDB_TYPE_UTINYINT => enif_make_uint (read_unsigned 1 d row_idx)
  | DUCKDB_TYPE_USMALLINT => enif_make_uint (read_unsigned 2 d row_idx)
  | DUCKDB_TYPE_UINTEGER => enif_make_uint (read_unsigned 4 d row_idx)
  | DUCKDB_TYPE_UBIGINT => enif_make_uint64 (read_unsigned 8 d row_idx)
  | DUCKDB_TYPE_HUGEINT => hugeint_case d row_idx
  | DUCKDB_TYPE_FLOAT =>
      enif_make_double (double_of_float (read_float d row_idx))
  | DUCKDB_TYPE_DOUBLE => enif_make_double (read_double d row_idx)
  | DUCKDB_TYPE_DATE =>
      enif_make_binary
        (date_string (duckdb_from_date X (read_signed 4 d row_idx)))
  | DUCKDB_TYPE_TIME =>
      enif_make_binary
        (time_string (duckdb_from_time X (read_signed 8 d row_idx)))
  | DUCKDB_TYPE_TIMESTAMP =>
      let ts_struct := duckdb_from_timestamp X (read_signed 8 d row_idx) in
      enif_make_binary
        (date_string (fst ts_struct) +++ " " +++ time_string (snd ts_struct))
  | DUCKDB_TYPE_TIMESTAMP_S
  | DUCKDB_TYPE_TIMESTAMP_MS
  | DUCKDB_TYPE_TIMESTAMP_NS =>
      enif_make_binary (fmt_signed (read_signed 8 d row_idx))
  | DUCKDB_TYPE_TIMESTAMP_TZ => enif_make_atom "unsupported_timestamp_tz_type"
  | DUCKDB_TYPE_TIME_TZ =>
      let decomposed := duckdb_from_time_tz X (read_unsigned 8 d row_idx) in
      enif_make_tuple2 (enif_make_long (micros (fst decomposed)))
                       (enif_make_int (snd decomposed))
  | DUCKDB_TYPE_UUID => uuid_case d row_idx
  | DUCKDB_TYPE_BIT
  | DUCKDB_TYPE_BLOB
  | DUCKDB_TYPE_VARCHAR => enif_make_binary (duckdb_string_t_data d heap row_idx)
  | DUCKDB_TYPE_UHUGEINT => uhugeint_case d row_idx
  | DUCKDB_TYPE_INTERVAL =>
      enif_make_tuple3
        (enif_make_int (to_signed 32 (load_le d (row_idx * 16) 4)))
        (enif_make_int (to_signed 32 (load_le d (row_idx * 16 + 4) 4)))
        (enif_make_long (to_signed 64 (load_le d (row_idx * 16 + 8) 8)))
  | DUCKDB_TYPE_UNION =>
      enif_make_atom
        ("unsupported_union_type_" +++ fmt_signed (type_number X type_id))
  | _ =>
      enif_make_atom ("unsupported_type_" +++ fmt_signed (type_number X type_id))
  end.

Definition is_complex_type (type_id : duckdb_type) : bool :=
  match type_id with
  | DUCKDB_TYPE_STRUCT | DUCKDB_TYPE_LIST | DUCKDB_TYPE_ARRAY
  | DUCKDB_TYPE_MAP => true
  | _ => false
  end.

Definition data_bytes (vector : duckdb_vector) : list Z :=
  match duckdb_vector_get_data vector with
  | Some d => d
  | None => []
  end.

(** The guards in front of the switch: a [NULL] data pointer of a
    primitive vector, then the validity bit of the row. *)
Definition cell_is_nil (vector : duckdb_vector) (type_id : duckdb_type)
  (row_idx : nat) : bool :=
  match duckdb_vector_get_data vector with
  | None => if is_complex_type type_id then false else true
  | Some _ => false
  end
  ||
  match duckdb_vector_get_validity vector with
  | Some validity => negb (duckdb_validity_row_is_valid validity row_idx)
  | None => false
  end.

(** Extracts the value at [row_idx] of [vector].  The buffers the
    source tests are allocated as the allocator of the externals says;
    those it does not test are taken to be allocated.  The list entry
    of a LIST or MAP cell is read through the data pointer, which the
    guards do not test for these types: through a [NULL] pointer that
    read is undefined. *)
Fixpoint extract_vector_value (X : externals) (vector : duckdb_vector)
  (logical_type : duckdb_logical_type) (row_idx : nat)
  {struct logical_type} : term :=
  if cell_is_nil vector (duckdb_get_type_id logical_type) row_idx then atom_nil
  else
    let d := data_bytes vector in
    match logical_type with
    | LT_plain type_id => extract_plain X d (vector_heap vector) type_id row_idx
    | LT_decimal width scale internal_type =>
        decimal_case X d width scale internal_type row_idx
    | LT_enum internal_type dictionary =>
        enum_case d internal_type dictionary row_idx
    | LT_array child_type array_size =>
        if Nat.eqb array_size 0 then enif_make_list_from_array []
        else
          match duckdb_list_vector_get_child vector with
          | None => enif_make_list_from_array []
          | Some child_vector =>
              if negb (enif_alloc_succeeds X
                         (sizeof_ERL_NIF_TERM * Z.of_nat array_size))
              then atom_nil
              else
                enif_make_list_from_array
                  (map (fun i => extract_vector_value X child_vector child_type
                                    (row_idx * array_size + i))
                       (seq 0 array_size))
          end
    | LT_list child_type =>
        match duckdb_vector_get_data vector with
        | None => undefined_value X
        | Some list_data =>
            let '(offset, length) := read_list_entry list_data row_idx in
            if Nat.eqb length 0 then enif_make_list_from_array []
            else
              match duckdb_list_vector_get_child vector with
              | None => enif_make_list_from_array []
              | Some child_vector =>
                  if negb (enif_alloc_succeeds X
                             (sizeof_ERL_NIF_TERM * Z.of_nat length))
                  then atom_nil
                  else
                    enif_make_list_from_array
                      (map (fun i => extract_vector_value X child_vector
                                        child_type (offset + i))
                           (seq 0 length))
              end
        end
    | LT_struct children =>
        match children with
        | [] => enif_make_new_map
        | _ =>
            let size := sizeof_ERL_NIF_TERM * Z.of_nat (List.length children) in
            if negb (enif_alloc_succeeds X size)
               || negb (enif_alloc_succeeds X size)
            then atom_nil
            else
              (* the loop over the fields, [None] when it meets a field
                 without a name *)
              let entries :=
                (fix go (cs : list (option string * duckdb_logical_type))
                   (i : nat) {struct cs} : option (list (term * term)) :=
                   match cs with
                   | [] => Some []
                   | (None, _) :: _ => None
                   | (Some child_name, child_type) :: cs' =>
                       let key := enif_make_binary child_name in
                       let value :=
                         extract_vector_value X
                           (duckdb_struct_vector_get_child vector i)
                           child_type row_idx in
                       match go cs' (S i) with
                       | Some rest => Some ((key, value) :: rest)
                       | None => None
                       end
                   end) children O in
              match entries with
              | None => atom_nil
              | Some entries =>
                  match enif_make_map_from_arrays (map fst entries)
                          (map snd entries) with
                  | Some result_map => result_map
                  | None => enif_make_atom "struct_conversion_failed"
                  end
              end
        end
    | LT_map key_type value_type =>
        let child_vector :=
          match duckdb_list_vector_get_child vector with
          | Some c => c
          | None => null_vector
          end in
        match duckdb_vector_get_data vector with
        | None => undefined_value X
        | Some list_data =>
            let '(offset, length) := read_list_entry list_data row_idx in
            let key_vector := duckdb_struct_vector_get_child child_vector 0 in
            let value_vector := duckdb_struct_vector_get_child child_vector 1 in
            let keys :=
              map (fun i => extract_vector_value X key_vector key_type
                              (offset + i))
                  (seq 0 length) in
            let values :=
              map (fun i => extract_vector_value X value_vector value_type
                              (offset + i))
                  (seq 0 length) in
            match enif_make_map_from_arrays keys values with
            | Some result_map => result_map
            | None => enif_make_atom "map_conversion_failed"
            end
        end
    end.

(** Whether the extraction of the cell at [row_idx] stays within what C
    defines, along the same path as [extract_vector_value]: it does not
    where the list entry of a LIST or MAP cell is read through a [NULL]
    data pointer, for the cell itself or for a cell extracted on the
    way. *)
Fixpoint extract_vector_defined (X : externals) (vector : duckdb_vector)
  (logical_type : duckdb_logical_type) (row_idx : nat)
  {struct logical_type} : bool :=
  if cell_is_nil vector (duckdb_get_type_id logical_type) row_idx then true
  else
    match logical_type with
    | LT_plain _ | LT_decimal _ _ _ | LT_enum _ _ => true
    | LT_array child_type array_size =>
        if Nat.eqb array_size 0 then true
        else
          match duckdb_list_vector_get_child vector with
          | None => true
          | Some child_vector =>
              if negb (enif_alloc_succeeds X
                         (sizeof_ERL_NIF_TERM * Z.of_nat array_size))
              then true
              else
                forallb (fun i => extract_vector_defined X child_vector
                                    child_type (row_idx * array_size + i))
                        (seq 0 array_size)
          end
    | LT_list child_type =>
        match duckdb_vector_get_data vector with
        | None => false
        | Some list_data =>
            let '(offset, length) := read_list_entry list_data row_idx in
            if Nat.eqb length 0 then true
            else
              match duckdb_list_vector_get_child vector with
              | None => true
              | Some child_vector =>
                  if negb (enif_alloc_succeeds X
                             (sizeof_ERL_NIF_TERM * Z.of_nat length))
                  then true
                  else
                    forallb (fun i => extract_vector_defined X child_vector
                                        child_type (offset + i))
                            (seq 0 length)
              end
        end
    | LT_struct children =>
        match children with
        | [] => true
        | _ =>
            let size := sizeof_ERL_NIF_TERM * Z.of_nat (List.length children) in
            if negb (enif_alloc_succeeds X size)
               || negb (enif_alloc_succeeds X size)
            then true
            else
              (fix go (cs : list (option string * duckdb_logical_type))
                 (i : nat) {struct cs} : bool :=
                 match cs with
                 | [] => true
                 | (None, _) :: _ => true
                 | (Some _, child_type) :: cs' =>
                     extract_vector_defined X
                       (duckdb_struct_vector_get_child vector i)
                       child_type row_idx
                     && go cs' (S i)
                 end) children O
        end
    | LT_map key_type value_type =>
        let child_vector :=
          match duckdb_list_vector_get_child vector with
          | Some c => c
          | None => null_vector
          end in
        match duckdb_vector_get_data vector with
        | None => false
        | Some list_data =>
            let '(offset, length) := read_list_entry list_data row_idx in
            let key_vector := duckdb_struct_vector_get_child child_vector 0 in
            let value_vector := duckdb_struct_vector_get_child child_vector 1 in
            forallb (fun i =>
                       extract_vector_defined X key_vector key_type (offset + i)
                       && extract_vector_defined X value_vector value_type
                            (offset + i))
                    (seq 0 length)
        end
    end.

Definition is_badarg (t : term) : bool :=
  match t with
  | TBadarg => true
  | _ => false
  end.

(** Whether [enif_make_badarg] is reached while the cell at [row_idx]
    is extracted, along the same path as [extract_vector_value]: in a
    scalar case it is what the case returns; in a nested case it is
    reached when it is for one of the cells extracted on the way,
    whether or not the value of that cell is kept.  The environment
    then holds the exception, and the NIF call raises it whatever it
    goes on to return.  It means something for a cell whose extraction
    is defined only. *)
Fixpoint extract_vector_raises (X : externals) (vector : duckdb_vector)
  (logical_type : duckdb_logical_type) (row_idx : nat)
  {struct logical_type} : bool :=
  if cell_is_nil vector (duckdb_get_type_id logical_type) row_idx then false
  else
    let d := data_bytes vector in
    match logical_type with
    | LT_plain type_id =>
        is_badarg (extract_plain X d (vector_heap vector) type_id row_idx)
    | LT_decimal width scale internal_type =>
        is_badarg (decimal_case X d width scale internal_type row_idx)
    | LT_enum _ _ => false
    | LT_array child_type array_size =>
        if Nat.eqb array_size 0 then false
        else
          match duckdb_list_vector_get_child vector with
          | None => false
          | Some child_vector =>
              if negb (enif_alloc_succeeds X
                         (sizeof_ERL_NIF_TERM * Z.of_nat array_size))
              then false
              else
                existsb (fun i => extract_vector_raises X child_vector
                                    child_type (row_idx * array_size + i))
                        (seq 0 array_size)
          end
    | LT_list child_type =>
        match duckdb_vector_get_data vector with
        | None => false
        | Some list_data =>
            let '(offset, length) := read_list_entry list_data row_idx in
            if Nat.eqb length 0 then false
            else
              match duckdb_list_vector_get_child vector with
              | None => false
              | Some child_vector =>
                  if negb (enif_alloc_succeeds X
                             (sizeof_ERL_NIF_TERM * Z.of_nat length))
                  then false
                  else
                    existsb (fun i => extract_vector_raises X child_vector
                                        child_type (offset + i))
                            (seq 0 length)
              end
        end
    | LT_struct children =>
        match children with
        | [] => false
        | _ =>
            let size := sizeof_ERL_NIF_TERM * Z.of_nat (List.length children) in
            if negb (enif_alloc_succeeds X size)
               || negb (enif_alloc_succeeds X size)
            then false
            else
              (fix go (cs : list (option string * duckdb_logical_type))
                 (i : nat) {struct cs} : bool :=
                 match cs with
                 | [] => false
                 | (None, _) :: _ => false
                 | (Some _, child_type) :: cs' =>
                     extract_vector_raises X
                       (duckdb_struct_vector_get_child vector i)
                       child_type row_idx
                     || go cs' (S i)
                 end) children O
        end
    | LT_map key_type value_type =>
        let child_vector :=
          match duckdb_list_vector_get_child vector with
          | Some c => c
          | None => null_vector
          end in
        match duckdb_vector_get_data vector with
        | None => false
        | Some list_data =>
            let '(offset, length) := read_list_entry list_data row_idx in
            let key_vector := duckdb_struct_vector_get_child child_vector 0 in
            let value_vector := duckdb_struct_vector_get_child child_vector 1 in
            existsb (fun i =>
                       extract_vector_raises X key_vector key_type (offset + i)
                       || extract_vector_raises X value_vector value_type
                            (offset + i))
                    (seq 0 length)
        end
    end.

(** A data chunk: its row count and its columns, each a vector with its
    logical type. *)
Record duckdb_data_chunk : Type := {
  duckdb_data_chunk_get_size : nat;
  chunk_columns : list (duckdb_vector * duckdb_logical_type)
}.

(** Whether the extraction of some cell of the chunk reaches
    [enif_make_badarg]. *)
Definition chunk_raises (X : externals) (chunk : duckdb_data_chunk) : bool :=
  existsb (fun r =>
             existsb (fun col => extract_vector_raises X (fst col) (snd col) r)
                     (chunk_columns chunk))
          (seq 0 (duckdb_data_chunk_get_size chunk)).

(** Whether the extraction of every cell of the chunk is defined. *)
Definition chunk_defined (X : externals) (chunk : duckdb_data_chunk) : bool :=
  forallb (fun r =>
             forallb (fun col => extract_vector_defined X (fst col) (snd col) r)
                     (chunk_columns chunk))
          (seq 0 (duckdb_data_chunk_get_size chunk)).

(** The body of the chunk NIF with what the call comes to: once
    [enif_make_badarg] has been reached for a cell, the call raises
    [badarg] whatever list the body returns. *)
Definition data_chunk_get_data (X : externals) (chunk : duckdb_data_chunk)
  : term :=
  let row_count := duckdb_data_chunk_get_size chunk in
  if Nat.eqb row_count 0 then enif_make_list_from_array []
  else
    let result :=
      enif_make_list_from_array
        (map (fun r =>
                enif_make_tuple_from_array
                  (map (fun col => extract_vector_value X (fst col) (snd col) r)
                       (chunk_columns chunk)))
             (seq 0 row_count)) in
    if chunk_raises X chunk then enif_make_badarg else result.


(* ------------------------------------------------------------------ *)
(** ** Concrete instances to run the definitions on *)

(** An engine that accepts every call made on a live handle and, as
    DuckDB does, answers [DuckDBError] to an appender call on an empty
    handle. *)
Definition reference_engine : engine :=
  {| respond := fun _ c =>
       match c with
       | duckdb_appender_destroy None
       | duckdb_appender_close None
       | duckdb_appender_flush None
       | duckdb_appender_end_row None
       | duckdb_append_int8 None _ => DuckDBError
       | _ => DuckDBSuccess
       end;
     duckdb_appender_error := fun _ _ => None;
     duckdb_result_error := fun _ => None;
     allocator := fun _ _ => true |}.

(** The same engine beside an allocator that has no memory left. *)
Definition out_of_memory_engine : engine :=
  {| respond := respond reference_engine;
     duckdb_appender_error := duckdb_appender_error reference_engine;
     duckdb_result_error := duckdb_result_error reference_engine;
     allocator := fun _ _ => false |}.

(** A world with one appender (resource 0, live handle 7) and one
    prepared statement (resource 1) declaring two parameters. *)
Definition sample_world : world :=
  {| appender_resources :=
       fun i => if Nat.eqb i 0 then Some {| appender := Some 7%nat |} else None;
     prepared_statement_resources :=
       fun i => if Nat.eqb i 1
                then Some {| stmt := {| stmt_handle := 3; duckdb_nparams := 2 |} |}
                else None;
     next_result := 0;
     engine_log := [] |}.

Definition sample_appender : term := TResource appender_resource_type 0.
Definition sample_statement : term :=
  TResource prepared_statement_resource_type 1.

(** The world after one [destroy()] of the sample appender. *)
Definition world_destroyed_once : world :=
  snd (appender_destroy_nif reference_engine [sample_appender] sample_world).

(** ** Vocabulary of the statements *)

(** The world after the engine has been handed [c]. *)
Definition log_call (c : engine_call) (w : world) : world :=
  {| appender_resources := appender_resources w;
     prepared_statement_resources := prepared_statement_resources w;
     next_result := next_result w;
     engine_log := c :: engine_log w |}.

Definition is_bind_call (c : engine_call) : bool :=
  match c with
  | duckdb_bind_null _ _
  | duckdb_bind_boolean _ _ _
  | duckdb_bind_int64 _ _ _
  | duckdb_bind_double _ _ _
  | duckdb_bind_varchar _ _ _ => true
  | _ => false
  end.

(** The message of the parameter-count check. *)
Definition parameter_count_mismatch (expected got : nat) : string :=
  "Parameter count mismatch: expected " +++ fmt_unsigned (Z.of_nat expected)
  +++ ", got " +++ fmt_unsigned (Z.of_nat got).

(** ** Sample externals

    An instance of [externals] to run the extractors on concrete cells:
    the engine's clock and calendar decomposition, the numbering of the
    type identifiers in the engine's header, and a cut-down libc that
    reads the special spellings and plain integers and prints integral
    doubles. *)

Definition sample_from_time (us : Z) : duckdb_time_struct :=
  {| hour := us / 3600000000;
     min := (us / 60000000) mod 60;
     sec := (us / 1000000) mod 60;
     micros := us mod 1000000 |}.

Definition sample_from_date (days : Z) : duckdb_date_struct :=
  let z := days + 719468 in
  let era := z / 146097 in
  let doe := z - era * 146097 in
  let yoe := (doe - doe / 1460 + doe / 36524 - doe / 146096) / 365 in
  let doy := doe - (365 * yoe + yoe / 4 - yoe / 100) in
  let mp := (5 * doy + 2) / 153 in
  let m := if mp <? 10 then mp + 3 else mp - 9 in
  {| year := yoe + era * 400 + (if m <=? 2 then 1 else 0);
     month := m;
     day := doy - (153 * mp + 2) / 5 + 1 |}.

Definition sample_type_number (t : duckdb_type) : Z :=
  match t with
  | DUCKDB_TYPE_INVALID => 0
  | DUCKDB_TYPE_BOOLEAN => 1
  | DUCKDB_TYPE_TINYINT => 2
  | DUCKDB_TYPE_SMALLINT => 3
  | DUCKDB_TYPE_INTEGER => 4
  | DUCKDB_TYPE_BIGINT => 5
  | DUCKDB_TYPE_UTINYINT => 6
  | DUCKDB_TYPE_USMALLINT => 7
  | DUCKDB_TYPE_UINTEGER => 8
  | DUCKDB_TYPE_UBIGINT => 9
  | DUCKDB_TYPE_FLOAT => 10
  | DUCKDB_TYPE_DOUBLE => 11
  | DUCKDB_TYPE_TIMESTAMP => 12
  | DUCKDB_TYPE_DATE => 13
  | DUCKDB_TYPE_TIME => 14
  | DUCKDB_TYPE_INTERVAL => 15
  | DUCKDB_TYPE_HUGEINT => 16
  | DUCKDB_TYPE_UHUGEINT => 32
  | DUCKDB_TYPE_VARCHAR => 17
  | DUCKDB_TYPE_BLOB => 18
  | DUCKDB_TYPE_DECIMAL => 19
  | DUCKDB_TYPE_TIMESTAMP_S => 20
  | DUCKDB_TYPE_TIMESTAMP_MS => 21
  | DUCKDB_TYPE_TIMESTAMP_NS => 22
  | DUCKDB_TYPE_ENUM => 23
  | DUCKDB_TYPE_LIST => 24
  | DUCKDB_TYPE_STRUCT => 25
  | DUCKDB_TYPE_MAP => 26
  | DUCKDB_TYPE_ARRAY => 33
  | DUCKDB_TYPE_UUID => 27
  | DUCKDB_TYPE_UNION => 28
  | DUCKDB_TYPE_BIT => 29
  | DUCKDB_TYPE_TIME_TZ => 30
  | DUCKDB_TYPE_TIMESTAMP_TZ => 31
  | DUCKDB_TYPE_unlisted id => id
  end.

Definition sample_strtod (s : string) : spec_float :=
  if String.eqb s "nan" then S754_nan
  else if (String.eqb s "inf" || String.eqb s "infinity")%bool
       then S754_infinity false
  else if (String.eqb s "-inf" || String.eqb s "-infinity")%bool
       then S754_infinity true
  else double_of_int (fst (strtoll s)).

Definition sample_fmt_g10 (d : spec_float) : string :=
  match d with
  | S754_nan => "nan"
  | S754_infinity s => if s then "-inf" else "inf"
  | S754_zero s => if s then "-0" else "0"
  | S754_finite s m e =>
      if 0 <=? e then fmt_signed (cond_Zopp s (Zpos m * 2 ^ e))
      else if Z.land (Zpos m) (2 ^ (- e) - 1) =? 0
           then fmt_signed (cond_Zopp s (Zpos m / 2 ^ (- e)))
           else "?"
  end.

Definition sample_externals : externals :=
  {| duckdb_from_date := sample_from_date;
     duckdb_from_time := sample_from_time;
     duckdb_from_timestamp := fun us =>
       (sample_from_date (us / 86400000000),
        sample_from_time (us mod 86400000000));
     duckdb_from_time_tz := fun bits =>
       (sample_from_time (Z.shiftr bits 24), 57599 - Z.land bits 16777215);
     duckdb_decimal_to_double := fun _ scale v =>
       double_div (double_of_int (snd v * two_p 64 + fst v))
                  (double_of_int (10 ^ scale));
     type_number := sample_type_number;
     strtof := sample_strtod;
     strtod := sample_strtod;
     fmt_g10 := sample_fmt_g10;
     enif_alloc_succeeds := fun _ => true;
     undefined_value := TAtom "undefined" |}.

(** The same routines beside an allocator that has no memory left. *)
Definition out_of_memory_externals : externals :=
  {| duckdb_from_date := duckdb_from_date sample_externals;
     duckdb_from_time := duckdb_from_time sample_externals;
     duckdb_from_timestamp := duckdb_from_timestamp sample_externals;
     duckdb_from_time_tz := duckdb_from_time_tz sample_externals;
     duckdb_decimal_to_double := duckdb_decimal_to_double sample_externals;
     type_number := type_number sample_externals;
     strtof := strtof sample_externals;
     strtod := strtod sample_externals;
     fmt_g10 := fmt_g10 sample_externals;
     enif_alloc_succeeds := fun _ => false;
     undefined_value := undefined_value sample_externals |}.

(** Little-endian bytes of [z], [n] of them: how a value sits in a data
    buffer. *)
Fixpoint le_bytes (n : nat) (z : Z) : list Z :=
  match n with
  | O => []
  | S n' => z mod 256 :: le_bytes n' (z / 256)
  end.

(** A result of three columns (integer, uuid, varchar) and one row, no
    cell null. *)
Definition sample_mixed_result : duckdb_result :=
  {| duckdb_row_count := 1;
     duckdb_column_count := 3;
     duckdb_column_type := fun c =>
       match c with
       | O => DUCKDB_TYPE_INTEGER
       | S O => DUCKDB_TYPE_UUID
       | _ => DUCKDB_TYPE_VARCHAR
       end;
     duckdb_value_is_null := fun _ _ => false;
     duckdb_value_varchar := fun c _ =>
       match c with
       | O => Some "42"
       | S O => Some "123e4567-e89b-12d3-a456-426614174000"
       | _ => Some "x"
       end;
     duckdb_value_blob := fun _ _ => None |}.

(** A result whose only column is a uuid: a value, then a NULL. *)
Definition sample_uuid_result : duckdb_result :=
  {| duckdb_row_count := 2;
     duckdb_column_count := 1;
     duckdb_column_type := fun _ => DUCKDB_TYPE_UUID;
     duckdb_value_is_null := fun _ r => Nat.eqb r 1;
     duckdb_value_varchar := fun _ r =>
       if Nat.eqb r 0 then Some "123e4567-e89b-12d3-a456-426614174000"
       else None;
     duckdb_value_blob := fun _ _ => None |}.

(** The stored index of an enum cell, for the storage types the engine
    gives enums. *)
Definition enum_index (internal_type : duckdb_type) (d : list Z)
  (row_idx : nat) : option Z :=
  match internal_type with
  | DUCKDB_TYPE_UTINYINT => Some (read_unsigned 1 d row_idx)
  | DUCKDB_TYPE_USMALLINT => Some (read_unsigned 2 d row_idx)
  | DUCKDB_TYPE_UINTEGER => Some (read_unsigned 4 d row_idx)
  | _ => None
  end.

(** An enum vector over the dictionary [sad; ok; happy] holding the
    indexes 1 and 7. *)
Definition sample_enum_vector : duckdb_vector :=
  Vector (Some [1; 7]) None [] [].
Definition sample_enum_type : duckdb_logical_type :=
  LT_enum DUCKDB_TYPE_UTINYINT ["sad"; "ok"; "happy"].

(** The caller-side reading of a decimal-digit string, at arbitrary
    precision. *)
Definition integer_of_decimal (s : string) : Z :=
  match s with
  | String "-" s' => - fst (parse_digits s' 0)
  | _ => fst (parse_digits s 0)
  end.

Fixpoint all_decimal_digits (s : string) : bool :=
  match s with
  | EmptyString => true
  | String c s' =>
      match decimal_digit c with
      | Some _ => all_decimal_digits s'
      | None => false
      end
  end.

(** A decimal-digit string: an optional minus sign, then digits only, at
    least one. *)
Definition is_decimal_string (s : string) : bool :=
  match s with
  | String "-" s' => (starts_with_digit s' && all_decimal_digits s')%bool
  | _ => (starts_with_digit s && all_decimal_digits s)%bool
  end.

Definition split_sign (s : string) : bool * string :=
  match s with
  | String "-" b => (true, b)
  | _ => (false, s)
  end.

(** Reading back the text [hugeint:<upper>:<lower>] of the vector path:
    the two 64-bit words in decimal, the high one signed. *)
Definition hugeint_of_words_text (s : string) : option Z :=
  match s with
  | String "h" (String "u" (String "g" (String "e" (String "i" (String "n"
      (String "t" (String ":" body))))))) =>
      let '(neg, digits) := split_sign body in
      let '(hi, rest) := parse_digits digits 0 in
      match rest with
      | String ":" lo_text =>
          let '(lo, rest') := parse_digits lo_text 0 in
          match rest' with
          | EmptyString => Some ((if neg then - hi else hi) * two_p 64 + lo)
          | _ => None
          end
      | _ => None
      end
  | _ => None
  end.

(** A result with one hugeint column whose rows render as the given
    texts. *)
Definition hugeint_result (texts : list string) : duckdb_result :=
  {| duckdb_row_count := List.length texts;
     duckdb_column_count := 1;
     duckdb_column_type := fun _ => DUCKDB_TYPE_HUGEINT;
     duckdb_value_is_null := fun _ _ => false;
     duckdb_value_varchar := fun _ r => nth_error texts r;
     duckdb_value_blob := fun _ _ => None |}.

(** A vector of hugeints: 16 bytes each, low word first. *)
Definition hugeint_vector (values : list Z) : duckdb_vector :=
  Vector (Some (flat_map (fun v => le_bytes 16 (v mod two_p 128)) values))
         None [] [].

(** Vectors of 32-bit floats and of 64-bit doubles, given by their bit
    patterns. *)
Definition float_vector (bits : list Z) : duckdb_vector :=
  Vector (Some (flat_map (le_bytes 4) bits)) None [] [].
Definition double_vector (bits : list Z) : duckdb_vector :=
  Vector (Some (flat_map (le_bytes 8) bits)) None [] [].

(** Bit patterns of the special values: quiet NaN and the infinities. *)
Definition float_nan_bits : Z := 2143289344.
Definition float_pinf_bits : Z := 2139095040.
Definition float_ninf_bits : Z := 4286578688.
Definition double_nan_bits : Z := 9221120237041090560.
Definition double_pinf_bits : Z := 9218868437227405312.
Definition double_ninf_bits : Z := 18442240474082181120.

(** A result with one column of the given type whose rows render as the
    given texts. *)
Definition text_result (type : duckdb_type) (texts : list string)
  : duckdb_result :=
  {| duckdb_row_count := List.length texts;
     duckdb_column_count := 1;
     duckdb_column_type := fun _ => type;
     duckdb_value_is_null := fun _ _ => false;
     duckdb_value_varchar := fun _ r => nth_error texts r;
     duckdb_value_blob := fun _ _ => None |}.

(** The raw fixed-point integer of a decimal cell stored at 16, 32 or
    64 bits. *)
Definition decimal_raw_value (internal_type : duckdb_type) (d : list Z)
  (row_idx : nat) : option Z :=
  match internal_type with
  | DUCKDB_TYPE_SMALLINT => Some (read_signed 2 d row_idx)
  | DUCKDB_TYPE_INTEGER => Some (read_signed 4 d row_idx)
  | DUCKDB_TYPE_BIGINT => Some (read_signed 8 d row_idx)
  | _ => None
  end.

(** A vector of 32-bit integers. *)
Definition int32_vector (values : list Z) : duckdb_vector :=
  Vector (Some (flat_map (fun v => le_bytes 4 (v mod two_p 32)) values))
         None [] [].

(** The keys and the values of a map cell, as the MAP case extracts
    them: entry by entry from the two children of the pair struct. *)
Definition map_cell_keys (X : externals) (vector : duckdb_vector)
  (key_type : duckdb_logical_type) (row_idx : nat) : list term :=
  let child_vector :=
    match duckdb_list_vector_get_child vector with
    | Some c => c
    | None => null_vector
    end in
  let '(offset, length) := read_list_entry (data_bytes vector) row_idx in
  map (fun i => extract_vector_value X
                  (duckdb_struct_vector_get_child child_vector 0)
                  key_type (offset + i))
      (seq 0 length).

Definition map_cell_values (X : externals) (vector : duckdb_vector)
  (value_type : duckdb_logical_type) (row_idx : nat) : list term :=
  let child_vector :=
    match duckdb_list_vector_get_child vector with
    | Some c => c
    | None => null_vector
    end in
  let '(offset, length) := read_list_entry (data_bytes vector) row_idx in
  map (fun i => extract_vector_value X
                  (duckdb_struct_vector_get_child child_vector 1)
                  value_type (offset + i))
      (seq 0 length).

(** A map vector of one row with integer keys and values: the list
    entry (offset 0, length), then the pair struct with its key and
    value children. *)
Definition int_map_vector (keys values : list Z) : duckdb_vector :=
  Vector (Some (le_bytes 8 0 ++ le_bytes 8 (Z.of_nat (List.length keys))))
         None []
         [Vector None None []
                 [int32_vector keys; int32_vector values]].

Definition int_map_type : duckdb_logical_type :=
  LT_map (LT_plain DUCKDB_TYPE_INTEGER) (LT_plain DUCKDB_TYPE_INTEGER).

(** ** UUID text *)

Definition hex_digit_value (c : ascii) : option Z :=
  let n := Z.of_nat (nat_of_ascii c) in
  if (48 <=? n) && (n <=? 57) then Some (n - 48)
  else if (97 <=? n) && (n <=? 102) then Some (n - 87)
  else if (65 <=? n) && (n <=? 70) then Some (n - 55)
  else None.

(** Exactly [n] hexadecimal digits, most significant first. *)
Fixpoint parse_hex (n : nat) (s : string) (acc : Z) : option (Z * string) :=
  match n with
  | O => Some (acc, s)
  | S n' =>
      match s with
      | String c s' =>
          match hex_digit_value c with
          | Some d => parse_hex n' s' (acc * 16 + d)
          | None => None
          end
      | EmptyString => None
      end
  end.

Definition expect_dash (s : string) : option string :=
  match s with
  | String "-" s' => Some s'
  | _ => None
  end.

(** Modelled from the spec: the engine's own UUID parser is not part of
    this repository.  Following section 4.2, it reads the canonical
    8-4-4-4-12 grouping of hexadecimal digits into a 128-bit value, the
    first group giving the upper 32 bits of the high 64-bit word and the
    digits following in order down to the low 48 bits of the low word. *)
Definition parse_uuid (s : string) : option duckdb_hugeint :=
  match parse_hex 8 s 0 with
  | Some (g1, s1) =>
      match expect_dash s1 with
      | Some s1' =>
          match parse_hex 4 s1' 0 with
          | Some (g2, s2) =>
              match expect_dash s2 with
              | Some s2' =>
                  match parse_hex 4 s2' 0 with
                  | Some (g3, s3) =>
                      match expect_dash s3 with
                      | Some s3' =>
                          match parse_hex 4 s3' 0 with
                          | Some (g4, s4) =>
                              match expect_dash s4 with
                              | Some s4' =>
                                  match parse_hex 12 s4' 0 with
                                  | Some (g5, EmptyString) =>
                                      Some
                                        {| lower := g4 * two_p 48 + g5;
                                           upper :=
                                             to_signed 64
                                               (g1 * two_p 32 + g2 * two_p 16
                                                + g3) |}
                                  | _ => None
                                  end
                              | None => None
                              end
                          | None => None
                          end
                      | None => None
                      end
                  | None => None
                  end
              | None => None
              end
          | None => None
          end
      | None => None
      end
  | None => None
  end.

(** [n] hexadecimal digits of [v], the low digit last, in front of
    [acc]. *)
Fixpoint hex_fixed (n : nat) (v : Z) (acc : string) : string :=
  match n with
  | O => acc
  | S n' => hex_fixed n' (v / 16) (String (digit_char (v mod 16)) acc)
  end.

(** A hugeint as the two words a vector stores: [upper] signed,
    [lower] unsigned. *)
Definition hugeint_in_range (x : duckdb_hugeint) : Prop :=
  0 <= lower x < two_p 64 /\ - two_p 63 <= upper x < two_p 63.

(** A vector of UUIDs given as (upper, lower) words. *)
Definition uuid_vector (values : list duckdb_hugeint) : duckdb_vector :=
  Vector
    (Some (flat_map (fun x => le_bytes 8 (lower x)
                              ++ le_bytes 8 (upper x mod two_p 64)) values))
    None [] [].

(** ** Induction over terms

    The principle that reaches the terms nested in lists, tuples and
    maps. *)

Section TermInduction.
Variable P : term -> Prop.
Hypothesis H_atom : forall name, P (TAtom name).
Hypothesis H_int : forall z, P (TInt z).
Hypothesis H_double : forall d, P (TDouble d).
Hypothesis H_binary : forall b, P (TBinary b).
Hypothesis H_list : forall l, Forall P l -> P (TList l).
Hypothesis H_tuple : forall l, Forall P l -> P (TTuple l).
Hypothesis H_map :
  forall pairs, Forall (fun kv => P (fst kv) /\ P (snd kv)) pairs ->
                P (TMap pairs).
Hypothesis H_resource : forall ty id, P (TResource ty id).
Hypothesis H_badarg : P TBadarg.

Fixpoint term_nested_ind (t : term) : P t :=
  match t with
  | TAtom name => H_atom name
  | TInt z => H_int z
  | TDouble d => H_double d
  | TBinary b => H_binary b
  | TList l =>
      H_list l
        ((fix go (l : list term) : Forall P l :=
            match l with
            | [] => Forall_nil P
            | x :: xs => Forall_cons x (term_nested_ind x) (go xs)
            end) l)
  | TTuple l =>
      H_tuple l
        ((fix go (l : list term) : Forall P l :=
            match l with
            | [] => Forall_nil P
            | x :: xs => Forall_cons x (term_nested_ind x) (go xs)
            end) l)
  | TMap pairs =>
      H_map pairs
        ((fix go (ps : list (term * term))
            : Forall (fun kv => P (fst kv) /\ P (snd kv)) ps :=
            match ps with
            | [] => Forall_nil _
            | (k, v) :: xs =>
                Forall_cons (k, v)
                  (conj (term_nested_ind k) (term_nested_ind v)) (go xs)
            end) pairs)
  | TResource ty id => H_resource ty id
  | TBadarg => H_badarg
  end.
End TermInduction.

(** ** Vocabulary for nested cells and chunks *)

(** The values of a struct cell, as the STRUCT case extracts them: the
    i-th field from the i-th child vector, at the row of the struct. *)
Fixpoint struct_cell_values (X : externals) (vector : duckdb_vector)
  (children : list (option string * duckdb_logical_type)) (i : nat)
  (row_idx : nat) : list term :=
  match children with
  | [] => []
  | (_, child_type) :: cs' =>
      extract_vector_value X (duckdb_struct_vector_get_child vector i)
        child_type row_idx
      :: struct_cell_values X vector cs' (S i) row_idx
  end.

(** The entries of a struct cell, as the loop of the STRUCT case
    collects them: [None] when it meets a field without a name. *)
Fixpoint struct_cell_entries (X : externals) (vector : duckdb_vector)
  (children : list (option string * duckdb_logical_type)) (i : nat)
  (row_idx : nat) : option (list (term * term)) :=
  match children with
  | [] => Some []
  | (None, _) :: _ => None
  | (Some child_name, child_type) :: cs' =>
      match struct_cell_entries X vector cs' (S i) row_idx with
      | Some rest =>
          Some ((enif_make_binary child_name,
                 extract_vector_value X
                   (duckdb_struct_vector_get_child vector i)
                   child_type row_idx) :: rest)
      | None => None
      end
  end.

(** A vector of doubles from their bit patterns. *)
Definition double_bits_vector (bits : list Z) : duckdb_vector :=
  Vector (Some (flat_map (le_bytes 8) bits)) None [] [].

(** The range of each integer column type: the C type the source reads
    or casts its values to. *)
Definition int_column_range (t : duckdb_type) : option (Z * Z) :=
  match t with
  | DUCKDB_TYPE_TINYINT => Some (-128, 127)
  | DUCKDB_TYPE_SMALLINT => Some (-32768, 32767)
  | DUCKDB_TYPE_INTEGER => Some (INT_MIN, INT_MAX)
  | DUCKDB_TYPE_BIGINT => Some (LLONG_MIN, LLONG_MAX)
  | DUCKDB_TYPE_UTINYINT => Some (0, 255)
  | DUCKDB_TYPE_USMALLINT => Some (0, 65535)
  | DUCKDB_TYPE_UINTEGER => Some (0, 4294967295)
  | DUCKDB_TYPE_UBIGINT => Some (0, ULLONG_MAX)
  | _ => None
  end.

(** The three timestamp types kept as raw tick counts. *)
Definition is_tick_timestamp (t : duckdb_type) : bool :=
  match t with
  | DUCKDB_TYPE_TIMESTAMP_S | DUCKDB_TYPE_TIMESTAMP_MS
  | DUCKDB_TYPE_TIMESTAMP_NS => true
  | _ => false
  end.

(** The mathematical value of an unsigned hugeint. *)
Definition uhugeint_value (h : duckdb_hugeint) : Z :=
  upper h * two_p 64 + lower h.

(** A vector of unsigned hugeints: 16 bytes each, low word first. *)
Definition uhugeint_vector (values : list Z) : duckdb_vector :=
  Vector (Some (flat_map (le_bytes 16) values)) None [] [].

(** ** Vocabulary for parameter binding *)

(** The engine call [bind_parameter] has for a parameter, if it has
    one. *)
Definition bind_call (s : duckdb_prepared_statement) (param_idx : Z)
  (param : term) : option engine_call :=
  let h := stmt_handle s in
  if is_atom "nil" param then Some (duckdb_bind_null h param_idx)
  else if is_atom "true" param then Some (duckdb_bind_boolean h param_idx true)
  else if is_atom "false" param then Some (duckdb_bind_boolean h param_idx false)
  else
    match enif_get_long param with
    | Some long_val => Some (duckdb_bind_int64 h param_idx (to_signed 64 long_val))
    | None =>
        match enif_get_double param with
        | Some double_val => Some (duckdb_bind_double h param_idx double_val)
        | None =>
            match enif_inspect_binary param with
            | Some bin => Some (duckdb_bind_varchar h param_idx (c_string bin))
            | None =>
                if 0 <? fst (enif_get_string param 1024) then
                  Some (duckdb_bind_varchar h param_idx
                          (c_string (snd (enif_get_string param 1024))))
                else None
            end
        end
    end.

(** Whether every parameter of a list binds: [bind_parameter], run on
    the parameters in turn from index [i + 1], each in the world the
    one before it left, answers [DuckDBSuccess] every time. *)
Fixpoint every_binding_succeeds (E : engine) (s : duckdb_prepared_statement)
  (i : Z) (params : list term) (w : world) : bool :=
  match params with
  | [] => true
  | param :: rest =>
      match fst (bind_parameter E s (i + 1) param w) with
      | DuckDBSuccess =>
          every_binding_succeeds E s (i + 1) rest
            (snd (bind_parameter E s (i + 1) param w))
      | DuckDBError => false
      end
  end.

(** The world once [bind_parameter] has run on each parameter in turn. *)
Fixpoint world_after_bindings (E : engine) (s : duckdb_prepared_statement)
  (i : Z) (params : list term) (w : world) : world :=
  match params with
  | [] => w
  | param :: rest =>
      world_after_bindings E s (i + 1) rest
        (snd (bind_parameter E s (i + 1) param w))
  end.

(** Whether [bind_parameter] gets the buffer it asks for: only a binary
    is copied, into a buffer of its size and one byte more. *)
Definition bind_buffer (E : engine) (param : term) (w : world) : bool :=
  match param with
  | TBinary bin => allocator E (engine_log w) (Z.of_nat (String.length bin) + 1)
  | _ => true
  end.

(** A byte string without a NUL byte. *)
Fixpoint no_nul (s : string) : bool :=
  match s with
  | EmptyString => true
  | String c s' => (negb (Ascii.eqb c zero) && no_nul s')%bool
  end.

(* ------------------------------------------------------------------ *)
(** ** Type Tag Mapper and column descriptors *)

Definition duckdb_type_to_atom (type : duckdb_type) : term :=
  match type with
  | DUCKDB_TYPE_BOOLEAN => TAtom "boolean"
  | DUCKDB_TYPE_TINYINT => TAtom "tinyint"
  | DUCKDB_TYPE_SMALLINT => TAtom "smallint"
  | DUCKDB_TYPE_INTEGER => TAtom "integer"
  | DUCKDB_TYPE_BIGINT => TAtom "bigint"
  | DUCKDB_TYPE_UTINYINT => TAtom "utinyint"
  | DUCKDB_TYPE_USMALLINT => TAtom "usmallint"
  | DUCKDB_TYPE_UINTEGER => TAtom "uinteger"
  | DUCKDB_TYPE_UBIGINT => TAtom "ubigint"
  | DUCKDB_TYPE_FLOAT => TAtom "float"
  | DUCKDB_TYPE_DOUBLE => TAtom "double"
  | DUCKDB_TYPE_VARCHAR => TAtom "varchar"
  | DUCKDB_TYPE_BLOB => TAtom "blob"
  | DUCKDB_TYPE_DATE => TAtom "date"
  | DUCKDB_TYPE_TIME => TAtom "time"
  | DUCKDB_TYPE_TIMESTAMP => TAtom "timestamp"
  | DUCKDB_TYPE_INTERVAL => TAtom "interval"
  | DUCKDB_TYPE_HUGEINT => TAtom "hugeint"
  | DUCKDB_TYPE_UHUGEINT => TAtom "uhugeint"
  | DUCKDB_TYPE_LIST => TAtom "list"
  | DUCKDB_TYPE_ARRAY => TAtom "array"
  | DUCKDB_TYPE_STRUCT => TAtom "struct"
  | DUCKDB_TYPE_MAP => TAtom "map"
  | DUCKDB_TYPE_UNION => TAtom "union"
  | DUCKDB_TYPE_DECIMAL => TAtom "decimal"
  | DUCKDB_TYPE_ENUM => TAtom "enum"
  | DUCKDB_TYPE_UUID => TAtom "uuid"
  | DUCKDB_TYPE_BIT => TAtom "bit"
  | DUCKDB_TYPE_TIME_TZ => TAtom "time_tz"
  | DUCKDB_TYPE_TIMESTAMP_S => TAtom "timestamp_s"
  | DUCKDB_TYPE_TIMESTAMP_MS => TAtom "timestamp_ms"
  | DUCKDB_TYPE_TIMESTAMP_NS => TAtom "timestamp_ns"
  | DUCKDB_TYPE_TIMESTAMP_TZ => TAtom "timestamp_tz"
  | _ => TAtom "unknown"
  end.

(** The types with a tag of their own. *)
Definition has_own_tag (type : duckdb_type) : bool :=
  match type with
  | DUCKDB_TYPE_INVALID | DUCKDB_TYPE_unlisted _ => false
  | _ => true
  end.

(** One column descriptor: the map of [name] and [type].  The two keys
    differ, and the source does not test the outcome of the map
    construction. *)
Definition column_descriptor (name : string) (type : duckdb_type) : term :=
  match enif_make_map_from_arrays
          [enif_make_atom "name"; enif_make_atom "type"]
          [enif_make_binary name; duckdb_type_to_atom type] with
  | Some m => m
  | None => TMap []
  end.

(** [result_columns_nif] on a result; [duckdb_column_name] gives the
    column names. *)
Definition result_columns (duckdb_column_name : nat -> string)
  (res : duckdb_result) : term :=
  enif_make_list_from_array
    (map (fun i => column_descriptor (duckdb_column_name i)
                     (duckdb_column_type res i))
         (seq 0 (duckdb_column_count res))).

Definition result_columns_nif
  (results : nat -> option (duckdb_result * (nat -> string)))
  (argv : list term) : term :=
  match argv with
  | [TResource result_resource_type id] =>
      match results id with
      | Some (res, names) => result_columns names res
      | None => enif_make_badarg
      end
  | _ => enif_make_badarg
  end.

Definition result_row_count_nif (results : nat -> option duckdb_result)
  (argv : list term) : term :=
  match argv with
  | [TResource result_resource_type id] =>
      match results id with
      | Some res => enif_make_uint64 (Z.of_nat (duckdb_row_count res))
      | None => enif_make_badarg
      end
  | _ => enif_make_badarg
  end.

Definition result_column_count_nif (results : nat -> option duckdb_result)
  (argv : list term) : term :=
  match argv with
  | [TResource result_resource_type id] =>
      match results id with
      | Some res => enif_make_uint64 (Z.of_nat (duckdb_column_count res))
      | None => enif_make_badarg
      end
  | _ => enif_make_badarg
  end.

(* ------------------------------------------------------------------ *)
(** ** Chunk retrieval

    The chunks of a result are a list: [duckdb_result_chunk_count] is
    its length and [duckdb_result_get_chunk] its lookup, [NULL] past
    the end.  The state is the store of chunk resources handed out. *)





(* ------------------------------------------------------------------ *)
(** ** Sessions: databases, configurations, connections and the other
    appender entry points

    The remaining state-changing entry points of the engine that the
    NIFs below reach are the constructors of [api_call]; an
    [api_engine] answers each call from the calls made before it, and
    also says what the engine writes through the out-pointers of
    [duckdb_open] and [duckdb_query].  The result a
    [duckdb_destroy_result] call names is the one of the result
    resource with that id, or with [None] the result local to the
    calling NIF. *)

Inductive api_call : Type :=
| duckdb_open (path : option string)
| duckdb_close (db : nat)
| duckdb_set_config (config : option nat) (name value : string)
| duckdb_query (conn : option nat) (sql : string)
| duckdb_destroy_result (result : option nat)
| duckdb_append_bool (a : duckdb_appender) (value : bool)
| duckdb_append_int16 (a : duckdb_appender) (value : Z)
| duckdb_append_int32 (a : duckdb_appender) (value : Z)
| duckdb_append_int64 (a : duckdb_appender) (value : Z)
| duckdb_append_uint8 (a : duckdb_appender) (value : Z)
| duckdb_append_uint16 (a : duckdb_appender) (value : Z)
| duckdb_append_uint32 (a : duckdb_appender) (value : Z)
| duckdb_append_uint64 (a : duckdb_appender) (value : Z)
| duckdb_append_float (a : duckdb_appender) (value : spec_float)
| duckdb_append_double (a : duckdb_appender) (value : spec_float)
| duckdb_append_varchar (a : duckdb_appender) (value : string)
| duckdb_append_blob (a : duckdb_appender) (data : string)
| duckdb_append_null (a : duckdb_appender).

Record api_engine : Type := {
  api_respond : list api_call -> api_call -> duckdb_state;
  api_database : list api_call -> option nat;
  api_result : list api_call -> duckdb_result;
  api_result_error : list api_call -> option string;
  api_appender_error : list api_call -> duckdb_appender -> option string;
  (* whether the runtime's allocator hands out a buffer of that many
     bytes at that point of the run *)
  api_allocator : list api_call -> Z -> bool
}.

(** The resources of a session: the appenders of [base], the database,
    configuration and connection handles by resource id ([None] inside
    is a [NULL] handle), the results, and the calls made so far, most
    recent first. *)
Record session : Type := {
  base : world;
  database_resources : nat -> option (option nat);
  config_resources : nat -> option (option nat);
  connection_resources : nat -> option (option nat);
  result_resources : nat -> option duckdb_result;
  next_resource : nat;
  api_log : list api_call
}.

Definition log_api (c : api_call) (ss : session) : session :=
  {| base := base ss;
     database_resources := database_resources ss;
     config_resources := config_resources ss;
     connection_resources := connection_resources ss;
     result_resources := result_resources ss;
     next_resource := next_resource ss;
     api_log := c :: api_log ss |}.

Definition api_invoke (E : api_engine) (c : api_call) (ss : session)
  : duckdb_state * session :=
  (api_respond E (api_log ss) c, log_api c ss).

(** [enif_make_resource] of a new database resource holding [db]. *)
Definition add_database (db : option nat) (ss : session) : term * session :=
  (TResource database_resource_type (next_resource ss),
   {| base := base ss;
      database_resources :=
        fun i => if Nat.eqb i (next_resource ss) then Some db
                 else database_resources ss i;
      config_resources := config_resources ss;
      connection_resources := connection_resources ss;
      result_resources := result_resources ss;
      next_resource := S (next_resource ss);
      api_log := api_log ss |}).

(** [enif_make_resource] of a new result resource holding [res]. *)
Definition add_result (res : duckdb_result) (ss : session) : term * session :=
  (TResource result_resource_type (next_resource ss),
   {| base := base ss;
      database_resources := database_resources ss;
      config_resources := config_resources ss;
      connection_resources := connection_resources ss;
      result_resources :=
        fun i => if Nat.eqb i (next_resource ss) then Some res
                 else result_resources ss i;
      next_resource := S (next_resource ss);
      api_log := api_log ss |}).

Definition get_config_resource (t : term) (ss : session) : option (option nat) :=
  match t with
  | TResource config_resource_type id => config_resources ss id
  | _ => None
  end.

Definition get_connection_resource (t : term) (ss : session)
  : option (option nat) :=
  match t with
  | TResource connection_resource_type id => connection_resources ss id
  | _ => None
  end.

Fixpoint string_prefix (n : nat) (s : string) : string :=
  match n, s with
  | S n', String c s' => String c (string_prefix n' s')
  | _, _ => EmptyString
  end.

(** [enif_get_string] with the buffer it leaves behind: a text too long
    for the buffer is cut to [size - 1] characters, NUL-terminated, and
    the return value is [- size]. *)
Definition enif_get_string_buf (t : term) (size : Z) : Z * string :=
  match t with
  | TList l =>
      match latin1_chars l with
      | Some s =>
          let n := Z.of_nat (String.length s) + 1 in
          if n <=? size then (n, s)
          else (- size, string_prefix (Z.to_nat (size - 1)) s)
      | None => (0, EmptyString)
      end
  | _ => (0, EmptyString)
  end.

(** [enif_get_uint], [enif_get_uint64] *)
Definition enif_get_uint (t : term) : option Z :=
  match t with
  | TInt z => if (0 <=? z) && (z <=? 4294967295) then Some z else None
  | _ => None
  end.

Definition enif_get_uint64 (t : term) : option Z :=
  match t with
  | TInt z => if (0 <=? z) && (z <=? ULLONG_MAX) then Some z else None
  | _ => None
  end.

Definition enif_get_int64 : term -> option Z := enif_get_long.

(** [(float)value]: round to binary32. *)
Definition float_of_double (d : spec_float) : spec_float :=
  match d with
  | S754_finite s m e => binary_normalize 24 128 (cond_Zopp s (Zpos m)) e s
  | _ => d
  end.

(** *** Database, configuration, query *)

Definition database_open_nif (E : api_engine) (argv : list term)
  (ss : session) : term * session :=
  match argv with
  | [a0] =>
      let open (db_path : option string) : term * session :=
        let '(state, ss1) := api_invoke E (duckdb_open db_path) ss in
        let db := api_database E (api_log ss1) in
        match state with
        | DuckDBError =>
            (* enif_release_resource: the destructor closes a handle
               the engine left behind *)
            (make_error "Failed to open database",
             match db with
             | Some h => log_api (duckdb_close h) ss1
             | None => ss1
             end)
        | DuckDBSuccess =>
            let '(result, ss2) := add_database db ss1 in
            (make_ok result, ss2)
        end in
      if is_atom "nil" a0 then open None
      else
        match enif_inspect_binary a0 with
        | Some path_bin =>
            if 4096 <=? Z.of_nat (String.length path_bin) then
              (make_error "Path too long", ss)
            else open (Some (c_string path_bin))
        | None =>
            let '(n, path) := enif_get_string a0 4096 in
            if n <=? 0 then (enif_make_badarg, ss)
            else open (Some (c_string path))
        end
  | _ => (enif_make_badarg, ss)
  end.

Definition config_set_nif (E : api_engine) (argv : list term)
  (ss : session) : term * session :=
  match argv with
  | [a0; a1; a2] =>
      match get_config_resource a0 ss with
      | None => (enif_make_badarg, ss)
      | Some config =>
          let with_name (name : string) : term * session :=
            let with_value (value : string) : term * session :=
              let '(state, ss1) :=
                api_invoke E (duckdb_set_config config name value) ss in
              match state with
              | DuckDBError =>
                  (make_error "Failed to set configuration option", ss1)
              | DuckDBSuccess => (atom_ok, ss1)
              end in
            match enif_inspect_binary a2 with
            | Some value_bin =>
                if 1024 <=? Z.of_nat (String.length value_bin) then
                  (make_error "Configuration value too long", ss)
                else with_value (c_string value_bin)
            | None =>
                let '(n, value) := enif_get_string a2 1024 in
                if n <=? 0 then (enif_make_badarg, ss)
                else with_value (c_string value)
            end in
          match enif_inspect_binary a1 with
          | Some name_bin =>
              if 256 <=? Z.of_nat (String.length name_bin) then
                (make_error "Configuration name too long", ss)
              else with_name (c_string name_bin)
          | None =>
              let '(n, name) := enif_get_string a1 256 in
              if n <=? 0 then (enif_make_badarg, ss)
              else with_name (c_string name)
          end
      end
  | _ => (enif_make_badarg, ss)
  end.

(** The query itself, once the statement text is at hand: the part
    of [connection_query_nif] from the allocation of the result
    resource on. *)
Definition connection_query_run (E : api_engine) (conn : option nat)
  (sql : string) (ss : session) : term * session :=
  let '(state, ss1) := api_invoke E (duckdb_query conn sql) ss in
  match state with
  | DuckDBError =>
      let error_msg := api_result_error E (api_log ss1) in
      (* duckdb_destroy_result, then the destructor of the released
         resource destroys the result again *)
      (make_error (match error_msg with
                   | Some m => m
                   | None => "Query failed"
                   end),
       log_api (duckdb_destroy_result (Some (next_resource ss1)))
         (log_api (duckdb_destroy_result (Some (next_resource ss1))) ss1))
  | DuckDBSuccess =>
      let '(result, ss2) := add_result (api_result E (api_log ss1)) ss1 in
      (make_ok result, ss2)
  end.

Definition connection_query_nif (E : api_engine) (argv : list term)
  (ss : session) : term * session :=
  match argv with
  | [a0; a1] =>
      match get_connection_resource a0 ss with
      | None => (enif_make_badarg, ss)
      | Some conn =>
          match enif_inspect_binary a1 with
          | Some sql_bin =>
              (* sql = enif_alloc(sql_bin.size + 1) *)
              if negb (api_allocator E (api_log ss)
                         (Z.of_nat (String.length sql_bin) + 1))
              then
                (make_error "Failed to allocate memory for SQL string", ss)
              else connection_query_run E conn (c_string sql_bin) ss
          | None =>
              let '(n, sql_buffer) := enif_get_string a1 8192 in
              if n <=? 0 then (enif_make_badarg, ss)
              else connection_query_run E conn (c_string sql_buffer) ss
          end
      end
  | _ => (enif_make_badarg, ss)
  end.

(** *** Transactions *)

(** [enif_make_string(env, s, ERL_NIF_LATIN1)]: the list of the
    character codes of [s]. *)
Fixpoint string_codes (s : string) : list term :=
  match s with
  | EmptyString => []
  | String c s' => TInt (Z.of_nat (nat_of_ascii c)) :: string_codes s'
  end.

Definition enif_make_string (s : string) : term := TList (string_codes s).

(** The bodies of [connection_begin_transaction_nif],
    [connection_commit_nif] and [connection_rollback_nif] differ only
    in the statement they run.  The result is [None] where the source
    hands [enif_make_string] a [NULL] message, which C leaves
    undefined. *)
Definition transaction_statement_nif (sql : string) (E : api_engine)
  (argv : list term) (ss : session) : option (term * session) :=
  match argv with
  | [a0] =>
      match get_connection_resource a0 ss with
      | None => Some (enif_make_badarg, ss)
      | Some conn =>
          let '(state, ss1) := api_invoke E (duckdb_query conn sql) ss in
          match state with
          | DuckDBError =>
              match api_result_error E (api_log ss1) with
              | Some error_msg =>
                  let error_term := enif_make_string error_msg in
                  Some (enif_make_tuple2 atom_error error_term,
                        log_api (duckdb_destroy_result None) ss1)
              | None => None
              end
          | DuckDBSuccess =>
              Some (atom_ok, log_api (duckdb_destroy_result None) ss1)
          end
      end
  | _ => Some (enif_make_badarg, ss)
  end.

Definition connection_begin_transaction_nif
  : api_engine -> list term -> session -> option (term * session) :=
  transaction_statement_nif "BEGIN TRANSACTION".

Definition connection_commit_nif
  : api_engine -> list term -> session -> option (term * session) :=
  transaction_statement_nif "COMMIT".

Definition connection_rollback_nif
  : api_engine -> list term -> session -> option (term * session) :=
  transaction_statement_nif "ROLLBACK".

Inductive transaction_step : Type := Begin | Commit | Rollback.

Definition transaction_nif (k : transaction_step)
  : api_engine -> list term -> session -> option (term * session) :=
  match k with
  | Begin => connection_begin_transaction_nif
  | Commit => connection_commit_nif
  | Rollback => connection_rollback_nif
  end.

Definition transaction_sql (k : transaction_step) : string :=
  match k with
  | Begin => "BEGIN TRANSACTION"
  | Commit => "COMMIT"
  | Rollback => "ROLLBACK"
  end.

(** *** Appending values *)

(** The common tail of the append NIFs: the engine call and the mapping
    of its failure to an error tuple. *)
Definition finish_append (E : api_engine) (a : duckdb_appender)
  (c : api_call) (ss : session) : term * session :=
  let '(state, ss1) := api_invoke E c ss in
  match state with
  | DuckDBError =>
      (make_error (match api_appender_error E (api_log ss1) a with
                   | Some m => m
                   | None => "Unknown appender append error"
                   end), ss1)
  | DuckDBSuccess => (atom_ok, ss1)
  end.

Definition appender_append_bool_nif (E : api_engine) (argv : list term)
  (ss : session) : term * session :=
  match argv with
  | [a0; a1] =>
      match get_appender_resource a0 (base ss) with
      | None => (enif_make_badarg, ss)
      | Some (_, appender_res) =>
          if is_atom "true" a1 then
            finish_append E (appender appender_res)
              (duckdb_append_bool (appender appender_res) true) ss
          else if is_atom "false" a1 then
            finish_append E (appender appender_res)
              (duckdb_append_bool (appender appender_res) false) ss
          else (enif_make_badarg, ss)
      end
  | _ => (enif_make_badarg, ss)
  end.

Definition appender_append_int16_nif (E : api_engine) (argv : list term)
  (ss : session) : term * session :=
  match argv with
  | [a0; a1] =>
      match get_appender_resource a0 (base ss) with
      | None => (enif_make_badarg, ss)
      | Some (_, appender_res) =>
          match enif_get_int a1 with
          | None => (enif_make_badarg, ss)
          | Some value =>
              if (value <? -32768) || (value >? 32767) then
                (make_error "Value out of range for int16", ss)
              else
                finish_append E (appender appender_res)
                  (duckdb_append_int16 (appender appender_res)
                                       (to_signed 16 value)) ss
          end
      end
  | _ => (enif_make_badarg, ss)
  end.

Definition appender_append_int32_nif (E : api_engine) (argv : list term)
  (ss : session) : term * session :=
  match argv with
  | [a0; a1] =>
      match get_appender_resource a0 (base ss) with
      | None => (enif_make_badarg, ss)
      | Some (_, appender_res) =>
          match enif_get_int a1 with
          | None => (enif_make_badarg, ss)
          | Some value =>
              finish_append E (appender appender_res)
                (duckdb_append_int32 (appender appender_res)
                                     (to_signed 32 value)) ss
          end
      end
  | _ => (enif_make_badarg, ss)
  end.

Definition appender_append_int64_nif (E : api_engine) (argv : list term)
  (ss : session) : term * session :=
  match argv with
  | [a0; a1] =>
      match get_appender_resource a0 (base ss) with
      | None => (enif_make_badarg, ss)
      | Some (_, appender_res) =>
          match enif_get_int64 a1 with
          | None => (enif_make_badarg, ss)
          | Some value =>
              finish_append E (appender appender_res)
                (duckdb_append_int64 (appender appender_res)
                                     (to_signed 64 value)) ss
          end
      end
  | _ => (enif_make_badarg, ss)
  end.

Definition appender_append_uint8_nif (E : api_engine) (argv : list term)
  (ss : session) : term * session :=
  match argv with
  | [a0; a1] =>
      match get_appender_resource a0 (base ss) with
      | None => (enif_make_badarg, ss)
      | Some (_, appender_res) =>
          match enif_get_uint a1 with
          | None => (enif_make_badarg, ss)
          | Some value =>
              if value >? 255 then
                (make_error "Value out of range for uint8", ss)
              else
                finish_append E (appender appender_res)
                  (duckdb_append_uint8 (appender appender_res)
                                       (to_unsigned 8 value)) ss
          end
      end
  | _ => (enif_make_badarg, ss)
  end.

Definition appender_append_uint16_nif (E : api_engine) (argv : list term)
  (ss : session) : term * session :=
  match argv with
  | [a0; a1] =>
      match get_appender_resource a0 (base ss) with
      | None => (enif_make_badarg, ss)
      | Some (_, appender_res) =>
          match enif_get_uint a1 with
          | None => (enif_make_badarg, ss)
          | Some value =>
              if value >? 65535 then
                (make_error "Value out of range for uint16", ss)
              else
                finish_append E (appender appender_res)
                  (duckdb_append_uint16 (appender appender_res)
                                        (to_unsigned 16 value)) ss
          end
      end
  | _ => (enif_make_badarg, ss)
  end.

Definition appender_append_uint32_nif (E : api_engine) (argv : list term)
  (ss : session) : term * session :=
  match argv with
  | [a0; a1] =>
      match get_appender_resource a0 (base ss) with
      | None => (enif_make_badarg, ss)
      | Some (_, appender_res) =>
          match enif_get_uint64 a1 with
          | None => (enif_make_badarg, ss)
          | Some value =>
              if value >? 4294967295 then
                (make_error "Value out of range for uint32", ss)
              else
                finish_append E (appender appender_res)
                  (duckdb_append_uint32 (appender appender_res)
                                        (to_unsigned 32 value)) ss
          end
      end
  | _ => (enif_make_badarg, ss)
  end.

Definition appender_append_uint64_nif (E : api_engine) (argv : list term)
  (ss : session) : term * session :=
  match argv with
  | [a0; a1] =>
      match get_appender_resource a0 (base ss) with
      | None => (enif_make_badarg, ss)
      | Some (_, appender_res) =>
          match enif_get_uint64 a1 with
          | None => (enif_make_badarg, ss)
          | Some value =>
              finish_append E (appender appender_res)
                (duckdb_append_uint64 (appender appender_res)
                                      (to_unsigned 64 value)) ss
          end
      end
  | _ => (enif_make_badarg, ss)
  end.

Definition appender_append_float_nif (E : api_engine) (argv : list term)
  (ss : session) : term * session :=
  match argv with
  | [a0; a1] =>
      match get_appender_resource a0 (base ss) with
      | None => (enif_make_badarg, ss)
      | Some (_, appender_res) =>
          match enif_get_double a1 with
          | None => (enif_make_badarg, ss)
          | Some value =>
              finish_append E (appender appender_res)
                (duckdb_append_float (appender appender_res)
                                     (float_of_double value)) ss
          end
      end
  | _ => (enif_make_badarg, ss)
  end.

Definition appender_append_double_nif (E : api_engine) (argv : list term)
  (ss : session) : term * session :=
  match argv with
  | [a0; a1] =>
      match get_appender_resource a0 (base ss) with
      | None => (enif_make_badarg, ss)
      | Some (_, appender_res) =>
          match enif_get_double a1 with
          | None => (enif_make_badarg, ss)
          | Some value =>
              finish_append E (appender appender_res)
                (duckdb_append_double (appender appender_res) value) ss
          end
      end
  | _ => (enif_make_badarg, ss)
  end.

Definition appender_append_varchar_nif (E : api_engine) (argv : list term)
  (ss : session) : term * session :=
  match argv with
  | [a0; a1] =>
      match get_appender_resource a0 (base ss) with
      | None => (enif_make_badarg, ss)
      | Some (_, appender_res) =>
          let '(n, value) := enif_get_string_buf a1 8192 in
          if n =? 0 then
            match enif_inspect_binary a1 with
            | Some value_bin =>
                if 8192 <=? Z.of_nat (String.length value_bin) then
                  (enif_make_badarg, ss)
                else
                  finish_append E (appender appender_res)
                    (duckdb_append_varchar (appender appender_res)
                                           (c_string value_bin)) ss
            | None => (enif_make_badarg, ss)
            end
          else
            finish_append E (appender appender_res)
              (duckdb_append_varchar (appender appender_res)
                                     (c_string value)) ss
      end
  | _ => (enif_make_badarg, ss)
  end.

Definition appender_append_blob_nif (E : api_engine) (argv : list term)
  (ss : session) : term * session :=
  match argv with
  | [a0; a1] =>
      match get_appender_resource a0 (base ss) with
      | None => (enif_make_badarg, ss)
      | Some (_, appender_res) =>
          match enif_inspect_binary a1 with
          | None => (enif_make_badarg, ss)
          | Some blob =>
              finish_append E (appender appender_res)
                (duckdb_append_blob (appender appender_res) blob) ss
          end
      end
  | _ => (enif_make_badarg, ss)
  end.

Definition appender_append_null_nif (E : api_engine) (argv : list term)
  (ss : session) : term * session :=
  match argv with
  | [a0] =>
      match get_appender_resource a0 (base ss) with
      | None => (enif_make_badarg, ss)
      | Some (_, appender_res) =>
          finish_append E (appender appender_res)
            (duckdb_append_null (appender appender_res)) ss
      end
  | _ => (enif_make_badarg, ss)
  end.

(** *** The integer append NIFs as a family *)

Inductive int_append : Type :=
| Int16 | Int32 | Int64 | UInt8 | UInt16 | UInt32 | UInt64.

Definition int_append_nif (k : int_append)
  : api_engine -> list term -> session -> term * session :=
  match k with
  | Int16 => appender_append_int16_nif
  | Int32 => appender_append_int32_nif
  | Int64 => appender_append_int64_nif
  | UInt8 => appender_append_uint8_nif
  | UInt16 => appender_append_uint16_nif
  | UInt32 => appender_append_uint32_nif
  | UInt64 => appender_append_uint64_nif
  end.

Definition int_append_call (k : int_append)
  : duckdb_appender -> Z -> api_call :=
  match k with
  | Int16 => duckdb_append_int16
  | Int32 => duckdb_append_int32
  | Int64 => duckdb_append_int64
  | UInt8 => duckdb_append_uint8
  | UInt16 => duckdb_append_uint16
  | UInt32 => duckdb_append_uint32
  | UInt64 => duckdb_append_uint64
  end.

(** The range of the column type an append NIF targets. *)
Definition int_append_range (k : int_append) : Z * Z :=
  match k with
  | Int16 => (-32768, 32767)
  | Int32 => (INT_MIN, INT_MAX)
  | Int64 => (LLONG_MIN, LLONG_MAX)
  | UInt8 => (0, 255)
  | UInt16 => (0, 65535)
  | UInt32 => (0, 4294967295)
  | UInt64 => (0, ULLONG_MAX)
  end.

(** The range of the C type its [enif_get_*] call reads into. *)
Definition int_append_read_range (k : int_append) : Z * Z :=
  match k with
  | Int16 | Int32 => (INT_MIN, INT_MAX)
  | Int64 => (LLONG_MIN, LLONG_MAX)
  | UInt8 | UInt16 => (0, 4294967295)
  | UInt32 | UInt64 => (0, ULLONG_MAX)
  end.

Definition int_append_error (k : int_append) : string :=
  match k with
  | Int16 => "Value out of range for int16"
  | UInt8 => "Value out of range for uint8"
  | UInt16 => "Value out of range for uint16"
  | UInt32 => "Value out of range for uint32"
  | Int32 | Int64 | UInt64 => ""
  end.

(** *** The append NIFs of this section as one family *)

Inductive append_entry : Type :=
| AppendBool
| AppendInt (k : int_append)
| AppendFloat
| AppendDouble
| AppendVarchar
| AppendBlob
| AppendNull.

Definition append_entry_nif (e : append_entry)
  : api_engine -> list term -> session -> term * session :=
  match e with
  | AppendBool => appender_append_bool_nif
  | AppendInt k => int_append_nif k
  | AppendFloat => appender_append_float_nif
  | AppendDouble => appender_append_double_nif
  | AppendVarchar => appender_append_varchar_nif
  | AppendBlob => appender_append_blob_nif
  | AppendNull => appender_append_null_nif
  end.

(** The appender an engine call writes to, if it is an append. *)
Definition api_call_appender (c : api_call) : option duckdb_appender :=
  match c with
  | duckdb_append_bool a _ | duckdb_append_int16 a _
  | duckdb_append_int32 a _ | duckdb_append_int64 a _
  | duckdb_append_uint8 a _ | duckdb_append_uint16 a _
  | duckdb_append_uint32 a _ | duckdb_append_uint64 a _
  | duckdb_append_float a _ | duckdb_append_double a _
  | duckdb_append_varchar a _ | duckdb_append_blob a _
  | duckdb_append_null a => Some a
  | _ => None
  end.

(** What an append NIF returns once the engine has answered [c]. *)
Definition append_outcome (E : api_engine) (a : duckdb_appender)
  (c : api_call) (ss : session) : term :=
  match api_respond E (api_log ss) c with
  | DuckDBSuccess => atom_ok
  | DuckDBError =>
      make_error (match api_appender_error E (c :: api_log ss) a with
                  | Some m => m
                  | None => "Unknown appender append error"
                  end)
  end.

(** The ways a path argument is accepted: [nil] is no path (an
    in-memory database), a binary or a latin-1 charlist shorter than
    the buffer is the text up to its first NUL. *)
Inductive path_argument : term -> option string -> Prop :=
| path_nil : path_argument atom_nil None
| path_binary (b : string) :
    Z.of_nat (String.length b) < 4096 ->
    path_argument (TBinary b) (Some (c_string b))
| path_charlist (l : list term) (s : string) :
    latin1_chars l = Some s ->
    Z.of_nat (String.length s) < 4096 ->
    path_argument (TList l) (Some (c_string s)).

(** A text of [n] copies of one character. *)
Fixpoint replicate_char (n : nat) (c : ascii) : string :=
  match n with
  | O => EmptyString
  | S n' => String c (replicate_char n' c)
  end.

(** A session over the sample world, with one configuration (resource
    0) and one connection (resource 1, handle 5), and an engine that
    accepts every call. *)
Definition sample_session : session :=
  {| base := sample_world;
     database_resources := fun _ => None;
     config_resources := fun i => if Nat.eqb i 0 then Some (Some 2%nat) else None;
     connection_resources :=
       fun i => if Nat.eqb i 1 then Some (Some 5%nat) else None;
     result_resources := fun _ => None;
     next_resource := 2;
     api_log := [] |}.

Definition accepting_engine : api_engine :=
  {| api_respond := fun _ _ => DuckDBSuccess;
     api_database := fun _ => Some 11%nat;
     api_result := fun _ => sample_uuid_result;
     api_result_error := fun _ => None;
     api_appender_error := fun _ _ => None;
     api_allocator := fun _ _ => true |}.

(** An engine that refuses every call, with a message. *)
Definition refusing_engine : api_engine :=
  {| api_respond := fun _ _ => DuckDBError;
     api_database := fun _ => None;
     api_result := fun _ => sample_uuid_result;
     api_result_error := fun _ => Some "Parser Error: syntax error";
     api_appender_error := fun _ _ => Some "appender is closed";
     api_allocator := fun _ _ => true |}.

(** An engine beside an allocator that has no memory left. *)
Definition out_of_memory_api_engine : api_engine :=
  {| api_respond := fun _ _ => DuckDBSuccess;
     api_database := fun _ => Some 11%nat;
     api_result := fun _ => sample_uuid_result;
     api_result_error := fun _ => None;
     api_appender_error := fun _ _ => None;
     api_allocator := fun _ _ => false |}.

(* ================================================================== *)
(** * Part II. Lemmas and theorems *)
(* ================================================================== *)

(** ** Appender *)

Lemma to_signed_8_id (z : Z) : -128 <= z <= 127 -> to_signed 8 z = z.
Proof.
  intros H. unfold to_signed, two_p. simpl Z.pow.
  rewrite Z.mod_small by (change (2 ^ 7) with 128; change (2 ^ 8) with 256; lia).
  lia.
Qed.

Lemma enif_get_int_spec (z : Z) :
  enif_get_int (TInt z) =
  if (INT_MIN <=? z) && (z <=? INT_MAX) then Some z else None.
Proof. reflexivity. Qed.

(** C7 (as stated) fails: an integer beyond the C [int] range is outside
    [-128, 127], yet the call raises [badarg] instead of returning the
    range error. *)
Lemma append_int8_beyond_int_is_badarg :
  appender_append_int8_nif reference_engine
    [sample_appender; TInt 2147483648] sample_world
  = (enif_make_badarg, sample_world)
  /\ enif_make_badarg <> make_error "Value out of range for int8".
Proof. split; [reflexivity | discriminate]. Qed.

Lemma engine_invoke_eq (E : engine) (c : engine_call) (w : world) :
  engine_invoke E c w = (respond E (engine_log w) c, log_call c w).
Proof. reflexivity. Qed.

(** The in-range path of the int8 append, unfolded. *)
Lemma append_int8_in_range
  (E : engine) (w : world) (id : nat) (res : AppenderResource) (z : Z) :
  appender_resources w id = Some res ->
  -128 <= z <= 127 ->
  appender_append_int8_nif E [TResource appender_resource_type id; TInt z] w
  = (match respond E (engine_log w) (duckdb_append_int8 (appender res) z) with
     | DuckDBSuccess => atom_ok
     | DuckDBError =>
         make_error
           (match duckdb_appender_error E
                    (duckdb_append_int8 (appender res) z :: engine_log w)
                    (appender res) with
            | Some m => m
            | None => "Unknown appender append error"
            end)
     end,
     log_call (duckdb_append_int8 (appender res) z) w).
Proof.
  intros Hres Hz. unfold appender_append_int8_nif, get_appender_resource.
  rewrite Hres, enif_get_int_spec.
  replace ((INT_MIN <=? z) && (z <=? INT_MAX)) with true
    by (symmetry; apply andb_true_iff; unfold INT_MIN, INT_MAX;
        split; apply Z.leb_le; lia).
  replace ((z <? -128) || (z >? 127)) with false
    by (symmetry; apply orb_false_iff; split;
        [apply Z.ltb_ge | rewrite Z.gtb_ltb; apply Z.ltb_ge]; lia).
  rewrite to_signed_8_id by assumption.
  unfold bind. rewrite engine_invoke_eq.
  destruct (respond E (engine_log w) (duckdb_append_int8 (appender res) z));
    reflexivity.
Qed.

(** C7 (amended): on an appender resource and an integer [z], the int8
    append (1) raises [badarg] when [z] does not fit a C [int], (2)
    returns the error "Value out of range for int8" when [z] fits a C
    [int] but lies outside [-128, 127], in both cases without any engine
    call and leaving the world as it was; (3) when [z] is within
    [-128, 127] it makes exactly one engine call, [duckdb_append_int8]
    with the value [z] itself, returns [ok] when the engine accepts, and a
    following [end_row] hands the engine the row holding [z]. *)
Theorem append_int8_range_check
  (E : engine) (w : world) (id : nat) (res : AppenderResource) (z : Z)
  (Hres : appender_resources w id = Some res) :
  ((z < INT_MIN \/ INT_MAX < z) ->
     appender_append_int8_nif E [TResource appender_resource_type id; TInt z] w
     = (enif_make_badarg, w))
  /\ (INT_MIN <= z <= INT_MAX -> (z < -128 \/ 127 < z) ->
     appender_append_int8_nif E [TResource appender_resource_type id; TInt z] w
     = (make_error "Value out of range for int8", w))
  /\ (-128 <= z <= 127 ->
     let r := appender_append_int8_nif E
                [TResource appender_resource_type id; TInt z] w in
     engine_log (snd r) = duckdb_append_int8 (appender res) z :: engine_log w
     /\ appender_resources (snd r) = appender_resources w
     /\ (respond E (engine_log w) (duckdb_append_int8 (appender res) z)
         = DuckDBSuccess -> fst r = atom_ok)
     /\ engine_log
          (snd (appender_end_row_nif E [TResource appender_resource_type id]
                  (snd r)))
        = duckdb_appender_end_row (appender res)
          :: duckdb_append_int8 (appender res) z :: engine_log w).
Proof.
  split; [|split].
  - intros Hz. unfold appender_append_int8_nif, get_appender_resource.
    rewrite Hres, enif_get_int_spec.
    destruct ((INT_MIN <=? z) && (z <=? INT_MAX)) eqn:Hb; [|reflexivity].
    apply andb_true_iff in Hb. destruct Hb as [H1 H2].
    apply Z.leb_le in H1, H2. lia.
  - intros Hz Hout. unfold appender_append_int8_nif, get_appender_resource.
    rewrite Hres, enif_get_int_spec.
    replace ((INT_MIN <=? z) && (z <=? INT_MAX)) with true
      by (symmetry; apply andb_true_iff; split; apply Z.leb_le; lia).
    replace ((z <? -128) || (z >? 127)) with true; [reflexivity|].
    symmetry. apply orb_true_iff.
    destruct Hout; [left; apply Z.ltb_lt; lia | right; apply Z.gtb_lt; lia].
  - intros Hz r. subst r.
    rewrite (append_int8_in_range E w id res z Hres Hz).
    cbn [fst snd]. repeat split.
    + intros ->. reflexivity.
    + unfold appender_end_row_nif, get_appender_resource.
      cbn [log_call appender_resources]. rewrite Hres.
      unfold bind. rewrite engine_invoke_eq.
      match goal with
      | |- context [respond E ?l ?c] => destruct (respond E l c)
      end; reflexivity.
Qed.

Lemma append_int8_range_check_witness :
  appender_resources sample_world 0 = Some {| appender := Some 7%nat |}
  /\ fst (appender_append_int8_nif reference_engine
            [sample_appender; TInt 100] sample_world) = atom_ok
  /\ engine_log
       (snd (appender_append_int8_nif reference_engine
               [sample_appender; TInt 100] sample_world))
     = [duckdb_append_int8 (Some 7%nat) 100].
Proof.
  split; [reflexivity|].
  destruct (append_int8_range_check reference_engine sample_world 0
              {| appender := Some 7%nat |} 100 eq_refl) as [_ [_ H]].
  destruct (H ltac:(lia)) as [Hlog [_ [Hok _]]].
  split; [apply Hok; reflexivity | exact Hlog].
Defined.

(** The empty handle reaches the engine on a second explicit destroy. *)
Lemma destroy_nif_eq
  (E : engine) (w : world) (id : nat) (res : AppenderResource) :
  appender_resources w id = Some res ->
  appender_destroy_nif E [TResource appender_resource_type id] w
  = match respond E (engine_log w) (duckdb_appender_destroy (appender res)) with
    | DuckDBSuccess =>
        (atom_ok,
         snd (set_appender id None
                (log_call (duckdb_appender_destroy (appender res)) w)))
    | DuckDBError =>
        (make_error "Failed to destroy appender",
         log_call (duckdb_appender_destroy (appender res)) w)
    end.
Proof.
  intros Hres. unfold appender_destroy_nif, get_appender_resource.
  rewrite Hres. unfold bind. rewrite engine_invoke_eq.
  destruct (respond E (engine_log w) (duckdb_appender_destroy (appender res)));
    reflexivity.
Qed.

(** C8 (as stated) fails: after one [destroy()] the handle is empty, and
    a second [destroy()] is no no-op: it calls the engine again with the
    empty handle and returns the error the engine's refusal leads to. *)
Lemma second_destroy_signals_error :
  fst (appender_destroy_nif reference_engine [sample_appender] sample_world)
  = atom_ok
  /\ appender_resources world_destroyed_once 0 = Some {| appender := None |}
  /\ fst (appender_destroy_nif reference_engine [sample_appender]
            world_destroyed_once)
     = make_error "Failed to destroy appender"
  /\ engine_log
       (snd (appender_destroy_nif reference_engine [sample_appender]
               world_destroyed_once))
     = [duckdb_appender_destroy None; duckdb_appender_destroy (Some 7%nat)]
  /\ snd (appender_destroy_nif reference_engine [sample_appender]
            world_destroyed_once) <> world_destroyed_once.
Proof.
  repeat split; try reflexivity.
  intros H. apply (f_equal engine_log) in H. discriminate H.
Qed.

(** C8 (amended): a [destroy()] that returns [ok] leaves the resource's
    engine handle empty, whether or not [close()] ran before (which
    keeps the handle).  On an empty handle the resource destructor is a
    no-op that makes no engine call; an explicit second [destroy()]
    makes no local check: it passes the empty handle to the engine once
    more, keeps the handle empty, and returns [ok] or
    [{error, "Failed to destroy appender"}] as the engine answers. *)
Theorem destroy_empties_handle
  (E : engine) (w : world) (id : nat) (res : AppenderResource)
  (Hres : appender_resources w id = Some res) :
  (fst (appender_destroy_nif E [TResource appender_resource_type id] w)
   = atom_ok ->
   appender_resources
     (snd (appender_destroy_nif E [TResource appender_resource_type id] w)) id
   = Some {| appender := None |})
  /\ appender_resources
       (snd (appender_close_nif E [TResource appender_resource_type id] w))
     = appender_resources w
  /\ (appender res = None ->
      appender_resource_destructor E id w = (tt, w)
      /\ engine_log
           (snd (appender_destroy_nif E [TResource appender_resource_type id] w))
         = duckdb_appender_destroy None :: engine_log w
      /\ appender_resources
           (snd (appender_destroy_nif E
                   [TResource appender_resource_type id] w)) id
         = Some {| appender := None |}
      /\ fst (appender_destroy_nif E [TResource appender_resource_type id] w)
         = match respond E (engine_log w) (duckdb_appender_destroy None) with
           | DuckDBSuccess => atom_ok
           | DuckDBError => make_error "Failed to destroy appender"
           end).
Proof.
  split; [|split].
  - rewrite (destroy_nif_eq E w id res Hres).
    destruct (respond E (engine_log w) (duckdb_appender_destroy (appender res))).
    + intros _. cbn. rewrite Nat.eqb_refl. reflexivity.
    + intros H. discriminate H.
  - unfold appender_close_nif, get_appender_resource. rewrite Hres.
    unfold bind. rewrite engine_invoke_eq.
    destruct (respond E (engine_log w) (duckdb_appender_close (appender res)));
      reflexivity.
  - intros Hnull. split; [|split; [|split]].
    + unfold appender_resource_destructor. rewrite Hres, Hnull. reflexivity.
    + rewrite (destroy_nif_eq E w id res Hres), Hnull.
      destruct (respond E (engine_log w) (duckdb_appender_destroy None));
        reflexivity.
    + rewrite (destroy_nif_eq E w id res Hres), Hnull.
      destruct (respond E (engine_log w) (duckdb_appender_destroy None)).
      * cbn. rewrite Nat.eqb_refl. reflexivity.
      * cbn. rewrite Hres. destruct res as [a]. cbn in Hnull. now subst a.
    + rewrite (destroy_nif_eq E w id res Hres), Hnull.
      destruct (respond E (engine_log w) (duckdb_appender_destroy None));
        reflexivity.
Qed.

Lemma destroy_empties_handle_witness :
  appender_resources sample_world 0 = Some {| appender := Some 7%nat |}
  /\ appender_resources world_destroyed_once 0 = Some {| appender := None |}.
Proof.
  split; [reflexivity|].
  destruct (destroy_empties_handle reference_engine sample_world 0
              {| appender := Some 7%nat |} eq_refl) as [H _].
  apply H. reflexivity.
Defined.

(** ** Prepared statements *)

Lemma bind_parameter_shape
  (E : engine) (s : duckdb_prepared_statement) (i : Z) (p : term) (w : world) :
  (exists c, is_bind_call c = true
             /\ bind_parameter E s i p w = engine_invoke E c w)
  \/ bind_parameter E s i p w = (DuckDBError, w).
Proof.
  unfold bind_parameter.
  destruct (is_atom "nil" p); [left; eexists; split; [|reflexivity]; reflexivity|].
  destruct (is_atom "true" p); [left; eexists; split; [|reflexivity]; reflexivity|].
  destruct (is_atom "false" p); [left; eexists; split; [|reflexivity]; reflexivity|].
  destruct (enif_get_long p); [left; eexists; split; [|reflexivity]; reflexivity|].
  destruct (enif_get_double p); [left; eexists; split; [|reflexivity]; reflexivity|].
  destruct (enif_inspect_binary p) as [bin|].
  { unfold bind, enif_alloc.
    destruct (allocator E (engine_log w) (Z.of_nat (String.length bin) + 1));
      [left; eexists; split; [|reflexivity]; reflexivity | right; reflexivity]. }
  destruct (enif_get_string p 1024) as [n buf].
  destruct (0 <? n); [left; eexists; split; [|reflexivity]; reflexivity|].
  right. reflexivity.
Qed.

(** The binding loop hands the engine bind calls only and touches
    nothing else. *)
Lemma bind_parameters_log
  (E : engine) (s : duckdb_prepared_statement) (n : nat) :
  forall (i : Z) (l : list term) (w : world),
  exists calls,
    forallb is_bind_call calls = true
    /\ engine_log (snd (bind_parameters E s n i l w)) = calls ++ engine_log w
    /\ next_result (snd (bind_parameters E s n i l w)) = next_result w.
Proof.
  induction n as [|n IH]; intros i l w.
  - exists []. repeat split.
  - cbn [bind_parameters]. destruct l as [|head tail].
    + exists []. repeat split.
    + unfold bind.
      destruct (bind_parameter_shape E s (i + 1) head w) as [[c [Hc Heq]]|Heq];
        rewrite Heq.
      * rewrite engine_invoke_eq.
        destruct (respond E (engine_log w) c).
        -- destruct (IH (i + 1) tail (log_call c w)) as [calls [Hall [Hlog Hnr]]].
           exists (calls ++ [c]). split; [|split].
           ++ rewrite forallb_app, Hall. cbn. now rewrite Hc.
           ++ rewrite Hlog. cbn. now rewrite <- app_assoc.
           ++ rewrite Hnr. reflexivity.
        -- exists [c]. cbn. rewrite Hc. repeat split.
      * exists []. repeat split.
Qed.

Lemma execute_not_bind_call (h : nat) (calls : list engine_call) :
  forallb is_bind_call calls = true ->
  ~ In (duckdb_execute_prepared h) calls.
Proof.
  intros Hall Hin. rewrite forallb_forall in Hall.
  specialize (Hall _ Hin). discriminate Hall.
Qed.

(** The statement execution once the parameter count has matched. *)
Lemma execute_nif_matched
  (E : engine) (w : world) (id : nat) (sres : PreparedStatementResource)
  (params : list term) :
  prepared_statement_resources w id = Some sres ->
  List.length params = duckdb_nparams (stmt sres) ->
  prepared_statement_execute_nif E
    [TResource prepared_statement_resource_type id; TList params] w
  = let b := bind_parameters E (stmt sres) (duckdb_nparams (stmt sres)) 0
               params w in
    match fst b with
    | Some t => (t, snd b)
    | None =>
        let w2 := log_call (duckdb_execute_prepared (stmt_handle (stmt sres)))
                    (snd (alloc_result (snd b))) in
        match respond E (engine_log (snd b))
                (duckdb_execute_prepared (stmt_handle (stmt sres))) with
        | DuckDBSuccess =>
            (make_ok (TResource result_resource_type (next_result (snd b))), w2)
        | DuckDBError =>
            (make_error
               (match duckdb_result_error E (engine_log w2) with
                | Some m => m
                | None => "Failed to execute prepared statement"
                end), w2)
        end
    end.
Proof.
  intros Hres Hlen.
  unfold prepared_statement_execute_nif, get_prepared_statement_resource.
  rewrite Hres. cbn [enif_is_list negb enif_get_list_length].
  rewrite Hlen, Nat.eqb_refl. cbn [negb]. unfold bind at 1.
  destruct (bind_parameters E (stmt sres) (duckdb_nparams (stmt sres)) 0 params w)
    as [[t|] w1]; cbn [fst snd]; [reflexivity|].
  unfold bind, alloc_result. rewrite engine_invoke_eq. cbn [engine_log].
  destruct (respond E (engine_log w1)
              (duckdb_execute_prepared (stmt_handle (stmt sres))));
    reflexivity.
Qed.

(** An early return of the binding loop is an error tuple. *)
Lemma bind_failure_shape
  (E : engine) (s : duckdb_prepared_statement) (l : list term) :
  forall (n : nat) (i : Z) (w : world),
    fst (bind_parameters E s n i l w) = None
    \/ exists m, fst (bind_parameters E s n i l w) = Some (make_error m).
Proof.
  induction l as [|head tail IH]; intros [|n] i w; cbn [bind_parameters];
    try (left; reflexivity); try (right; eexists; reflexivity).
  unfold bind.
  destruct (bind_parameter E s (i + 1) head w) as [[|] w1].
  - exact (IH n (i + 1) w1).
  - right. eexists. reflexivity.
Qed.

(** The verdict of the binding loop over a list of the declared length
    is that of the bindings themselves: it runs to its end exactly when
    every binding succeeds, and then leaves the world the bindings
    left. *)
Lemma bind_parameters_verdict
  (E : engine) (s : duckdb_prepared_statement) (l : list term) :
  forall (i : Z) (w : world),
    (fst (bind_parameters E s (List.length l) i l w) = None
     <-> every_binding_succeeds E s i l w = true)
    /\ (every_binding_succeeds E s i l w = true ->
        snd (bind_parameters E s (List.length l) i l w)
        = world_after_bindings E s i l w).
Proof.
  induction l as [|head tail IH]; intros i w.
  - cbn. split; [split; reflexivity | reflexivity].
  - cbn [List.length bind_parameters every_binding_succeeds
           world_after_bindings].
    unfold bind.
    destruct (bind_parameter E s (i + 1) head w) as [[|] w1]; cbn [fst snd].
    + exact (IH (i + 1) w1).
    + split; [split; discriminate | discriminate].
Qed.

(** C10: when the list of bind parameters and the statement's declared
    parameter count differ in length, the execution returns the
    parameter-count-mismatch error and the world is untouched: no
    parameter was bound, nothing was executed.  Whatever the call does,
    the engine calls it makes contain [duckdb_execute_prepared] only if
    the lengths agree and every parameter, bound in turn, was accepted;
    in that case the statement is executed, right after the bindings;
    and when the lengths agree but some binding fails, the call returns
    an error tuple. *)
Theorem execute_checks_parameter_count
  (E : engine) (w : world) (id : nat) (sres : PreparedStatementResource)
  (params : list term)
  (Hres : prepared_statement_resources w id = Some sres) :
  (List.length params <> duckdb_nparams (stmt sres) ->
   prepared_statement_execute_nif E
     [TResource prepared_statement_resource_type id; TList params] w
   = (make_error
        (parameter_count_mismatch (duckdb_nparams (stmt sres))
           (List.length params)), w))
  /\ (exists calls,
        engine_log
          (snd (prepared_statement_execute_nif E
                  [TResource prepared_statement_resource_type id; TList params]
                  w))
        = calls ++ engine_log w
        /\ (In (duckdb_execute_prepared (stmt_handle (stmt sres))) calls ->
            List.length params = duckdb_nparams (stmt sres)
            /\ every_binding_succeeds E (stmt sres) 0 params w = true))
  /\ (List.length params = duckdb_nparams (stmt sres) ->
      every_binding_succeeds E (stmt sres) 0 params w = true ->
      engine_log
        (snd (prepared_statement_execute_nif E
                [TResource prepared_statement_resource_type id; TList params]
                w))
      = duckdb_execute_prepared (stmt_handle (stmt sres))
        :: engine_log (world_after_bindings E (stmt sres) 0 params w))
  /\ (List.length params = duckdb_nparams (stmt sres) ->
      every_binding_succeeds E (stmt sres) 0 params w = false ->
      exists m,
        fst (prepared_statement_execute_nif E
               [TResource prepared_statement_resource_type id; TList params] w)
        = make_error m).
Proof.
  assert (Hmis : List.length params <> duckdb_nparams (stmt sres) ->
    prepared_statement_execute_nif E
      [TResource prepared_statement_resource_type id; TList params] w
    = (make_error
         (parameter_count_mismatch (duckdb_nparams (stmt sres))
            (List.length params)), w)).
  { intros Hne.
    unfold prepared_statement_execute_nif, get_prepared_statement_resource.
    rewrite Hres. cbn [enif_is_list negb enif_get_list_length].
    apply Nat.eqb_neq in Hne. rewrite Hne. reflexivity. }
  split; [exact Hmis|]. split; [|split].
  - destruct (Nat.eq_dec (List.length params) (duckdb_nparams (stmt sres)))
      as [Hlen|Hne].
    + rewrite (execute_nif_matched E w id sres params Hres Hlen).
      destruct (bind_parameters_log E (stmt sres) (duckdb_nparams (stmt sres))
                  0 params w) as [calls [Hall [Hlog _]]].
      cbv zeta.
      destruct (fst (bind_parameters E (stmt sres) (duckdb_nparams (stmt sres))
                       0 params w)) as [t|] eqn:Hb.
      * exists calls. cbn [snd]. split; [exact Hlog|].
        intros Hin. elim (execute_not_bind_call _ _ Hall Hin).
      * exists (duckdb_execute_prepared (stmt_handle (stmt sres)) :: calls).
        split.
        -- match goal with
           | |- context [respond E ?l ?c] => destruct (respond E l c)
           end; cbn; now rewrite Hlog.
        -- intros _. split; [exact Hlen|].
           rewrite <- Hlen in Hb.
           exact (proj1 (proj1 (bind_parameters_verdict E (stmt sres) params
                                  0 w)) Hb).
    + rewrite (Hmis Hne). exists []. split; [reflexivity|].
      intros Hin. destruct Hin.
  - intros Hlen Hall.
    rewrite (execute_nif_matched E w id sres params Hres Hlen).
    cbv zeta. rewrite <- Hlen.
    destruct (bind_parameters_verdict E (stmt sres) params 0 w) as [Hiff Hw].
    rewrite (proj2 Hiff Hall), (Hw Hall).
    match goal with
    | |- context [respond E ?l ?c] => destruct (respond E l c)
    end; reflexivity.
  - intros Hlen Hfail.
    rewrite (execute_nif_matched E w id sres params Hres Hlen).
    cbv zeta.
    destruct (bind_failure_shape E (stmt sres) params
                (duckdb_nparams (stmt sres)) 0 w) as [Hnone|[m Hm]].
    + rewrite <- Hlen in Hnone.
      apply (proj1 (bind_parameters_verdict E (stmt sres) params 0 w)) in Hnone.
      congruence.
    + rewrite Hm. cbn [fst]. now exists m.
Qed.

Lemma execute_checks_parameter_count_witness :
  prepared_statement_resources sample_world 1
  = Some {| stmt := {| stmt_handle := 3; duckdb_nparams := 2 |} |}
  /\ prepared_statement_execute_nif reference_engine
       [sample_statement; TList [TInt 5]] sample_world
     = (make_error "Parameter count mismatch: expected 2, got 1", sample_world)
  /\ engine_log
       (snd (prepared_statement_execute_nif reference_engine
               [sample_statement; TList [TInt 5; TBinary "x"]] sample_world))
     = [duckdb_execute_prepared 3; duckdb_bind_varchar 3 2 "x";
        duckdb_bind_int64 3 1 5]
  /\ exists m,
       fst (prepared_statement_execute_nif reference_engine
              [sample_statement; TList [TInt 5; TTuple []]] sample_world)
       = make_error m.
Proof.
  split; [reflexivity|].
  destruct (execute_checks_parameter_count reference_engine sample_world 1
              {| stmt := {| stmt_handle := 3; duckdb_nparams := 2 |} |}
              [TInt 5] eq_refl) as [Hmis _].
  destruct (execute_checks_parameter_count reference_engine sample_world 1
              {| stmt := {| stmt_handle := 3; duckdb_nparams := 2 |} |}
              [TInt 5; TBinary "x"] eq_refl) as [_ [_ [Hrun _]]].
  destruct (execute_checks_parameter_count reference_engine sample_world 1
              {| stmt := {| stmt_handle := 3; duckdb_nparams := 2 |} |}
              [TInt 5; TTuple []] eq_refl) as [_ [_ [_ Hfail]]].
  split; [|split].
  - exact (Hmis ltac:(discriminate)).
  - exact (Hrun eq_refl eq_refl).
  - exact (Hfail eq_refl eq_refl).
Defined.

(** ** Row materializer *)

Lemma map_const_seq {A : Type} (a : A) (n : nat) :
  forall s, map (fun _ : nat => a) (seq s n) = repeat a n.
Proof.
  induction n as [|n IH]; intros s; [reflexivity|].
  cbn. now rewrite IH.
Qed.

Lemma has_uuid_true (res : duckdb_result) (c : nat) :
  (c < duckdb_column_count res)%nat ->
  duckdb_column_type res c = DUCKDB_TYPE_UUID ->
  has_uuid res = true.
Proof.
  intros Hc Hty. unfold has_uuid. apply existsb_exists.
  exists c. split; [apply in_seq; lia | now rewrite Hty].
Qed.

Lemma usable_varchar_some (s : string) :
  s <> "" -> s <> "NULL" -> usable_varchar (Some s) = Some s.
Proof.
  intros Hne Hnull. unfold usable_varchar.
  destruct s as [|a s]; [congruence|]. cbn [String.length Nat.ltb Nat.leb andb].
  destruct (String.eqb_spec (String a s) "NULL"); [congruence | reflexivity].
Qed.

(** C2: when some column is UUID-typed and the result has more than one
    column, every row the row materializer returns is a tuple of nulls,
    one per column.  When the result has exactly one column and it is
    UUID-typed, rows are extracted cell by cell: a NULL cell gives null
    and a non-null cell gives the string form the engine renders for
    it. *)
Theorem result_rows_uuid_workaround (X : externals) (res : duckdb_result) :
  (forall c,
     (c < duckdb_column_count res)%nat ->
     duckdb_column_type res c = DUCKDB_TYPE_UUID ->
     (1 < duckdb_column_count res)%nat ->
     result_rows X res
     = TList (repeat (TTuple (repeat atom_nil (duckdb_column_count res)))
                     (duckdb_row_count res)))
  /\ (duckdb_column_count res = 1%nat ->
      duckdb_column_type res 0 = DUCKDB_TYPE_UUID ->
      result_rows X res
      = TList (map (result_rows_row X res) (seq 0 (duckdb_row_count res)))
      /\ forall r,
           (duckdb_value_is_null res 0 r = true ->
            result_rows_row X res r = TTuple [atom_nil])
           /\ (forall s,
                 duckdb_value_is_null res 0 r = false ->
                 duckdb_value_varchar res 0 r = Some s ->
                 s <> "" -> s <> "NULL" ->
                 result_rows_row X res r = TTuple [TBinary s])).
Proof.
  split.
  - intros c Hc Hty Hmulti. unfold result_rows, enif_make_list_from_array.
    f_equal.
    assert (Hrow : forall r, result_rows_row X res r
                   = TTuple (repeat atom_nil (duckdb_column_count res))).
    { intros r. unfold result_rows_row, enif_make_tuple_from_array.
      rewrite (has_uuid_true res c Hc Hty).
      replace (Nat.ltb 1 (duckdb_column_count res)) with true
        by (symmetry; apply Nat.ltb_lt; exact Hmulti).
      cbn [andb]. now rewrite map_const_seq. }
    rewrite (map_ext _ _ Hrow). apply map_const_seq.
  - intros Hone Hty. split; [reflexivity|].
    assert (Hrow : forall r, result_rows_row X res r
                   = TTuple [result_rows_cell X res 0 r]).
    { intros r. unfold result_rows_row, enif_make_tuple_from_array.
      rewrite Hone. cbn [Nat.ltb Nat.leb]. now rewrite andb_false_r. }
    intros r. rewrite Hrow. unfold result_rows_cell. split.
    + intros ->. reflexivity.
    + intros s Hnn Hstr Hne Hnull. rewrite Hnn, Hty, Hstr. cbn [is_uuid_type].
      unfold varchar_or_nil. now rewrite usable_varchar_some.
Qed.

Lemma result_rows_uuid_workaround_witness :
  result_rows sample_externals sample_mixed_result
  = TList [TTuple [atom_nil; atom_nil; atom_nil]]
  /\ result_rows sample_externals sample_uuid_result
     = TList [TTuple [TBinary "123e4567-e89b-12d3-a456-426614174000"];
              TTuple [atom_nil]].
Proof.
  destruct (result_rows_uuid_workaround sample_externals sample_mixed_result)
    as [Hmulti _].
  destruct (result_rows_uuid_workaround sample_externals sample_uuid_result)
    as [_ Hone].
  split.
  - exact (Hmulti 1%nat ltac:(cbn; lia) eq_refl ltac:(cbn; lia)).
  - destruct (Hone eq_refl eq_refl) as [Hrows Hcells].
    rewrite Hrows. cbn [sample_uuid_result duckdb_row_count seq map].
    destruct (Hcells 0%nat) as [_ H0]. destruct (Hcells 1%nat) as [H1 _].
    rewrite (H0 _ eq_refl eq_refl ltac:(discriminate) ltac:(discriminate)).
    rewrite (H1 eq_refl). reflexivity.
Defined.

(** ** Reading the data buffer *)

Lemma byte_at_range (d : list Z) (off : nat) : 0 <= byte_at d off < 256.
Proof. unfold byte_at. apply Z.mod_pos_bound. lia. Qed.

Lemma load_le_range (d : list Z) (n : nat) :
  forall off, 0 <= load_le d off n < 256 ^ Z.of_nat n.
Proof.
  induction n as [|n IH]; intros off.
  - cbn. lia.
  - cbn [load_le]. rewrite Nat2Z.inj_succ, Z.pow_succ_r by lia.
    pose proof (byte_at_range d off). pose proof (IH (S off)). lia.
Qed.

Lemma load_le_8_range (d : list Z) (off : nat) :
  0 <= load_le d off 8 < 18446744073709551616.
Proof. exact (load_le_range d 8 off). Qed.

Lemma to_signed_64_cases (z : Z) :
  0 <= z < 18446744073709551616 ->
  (z < 9223372036854775808 /\ to_signed 64 z = z)
  \/ (9223372036854775808 <= z /\ to_signed 64 z = z - 18446744073709551616).
Proof.
  intros Hz. unfold to_signed, two_p.
  change (2 ^ (64 - 1)) with 9223372036854775808.
  change (2 ^ 64) with 18446744073709551616.
  destruct (Z_lt_ge_dec z 9223372036854775808) as [Hlt|Hge].
  - left. split; [exact Hlt|]. rewrite Z.mod_small by lia. lia.
  - right. split; [lia|].
    replace (z + 9223372036854775808)
      with (z - 9223372036854775808 + 1 * 18446744073709551616) by lia.
    rewrite Z.mod_add by lia. rewrite Z.mod_small by lia. lia.
Qed.

Lemma read_hugeint_range (d : list Z) (idx : nat) :
  0 <= lower (read_hugeint d idx) < 18446744073709551616
  /\ -9223372036854775808 <= upper (read_hugeint d idx) < 9223372036854775808.
Proof.
  unfold read_hugeint. cbn [lower upper]. split; [apply load_le_8_range|].
  destruct (to_signed_64_cases _ (load_le_8_range d (idx * 16 + 8)))
    as [[H1 ->]|[H1 ->]];
    pose proof (load_le_8_range d (idx * 16 + 8)); lia.
Qed.

(** ** Enum cells of a vector *)

(** C9: for a non-null enum cell stored at one of the widths the engine
    gives enums, a stored index below the dictionary size extracts to
    the dictionary string at that index, and an index at or beyond the
    dictionary size extracts to the atom [invalid_enum_value]. *)
Theorem enum_index_checked
  (X : externals) (vector : duckdb_vector) (internal_type : duckdb_type)
  (dictionary : list string) (row_idx : nat) (index : Z)
  (Hcell : cell_is_nil vector DUCKDB_TYPE_ENUM row_idx = false)
  (Hidx : enum_index internal_type (data_bytes vector) row_idx = Some index) :
  (index < Z.of_nat (List.length dictionary) ->
   exists enum_string,
     nth_error dictionary (Z.to_nat index) = Some enum_string
     /\ extract_vector_value X vector (LT_enum internal_type dictionary) row_idx
        = TBinary enum_string)
  /\ (Z.of_nat (List.length dictionary) <= index ->
      extract_vector_value X vector (LT_enum internal_type dictionary) row_idx
      = TAtom "invalid_enum_value").
Proof.
  assert (Hex : extract_vector_value X vector
                  (LT_enum internal_type dictionary) row_idx
                = (if index <? Z.of_nat (List.length dictionary) then
                     match nth_error dictionary (Z.to_nat index) with
                     | Some enum_string => enif_make_binary enum_string
                     | None => enif_make_atom "invalid_enum_value"
                     end
                   else enif_make_atom "invalid_enum_value")).
  { cbn [extract_vector_value duckdb_get_type_id]. rewrite Hcell.
    unfold enum_case.
    destruct internal_type; cbn in Hidx; try discriminate Hidx;
      injection Hidx as <-; reflexivity. }
  rewrite Hex. split.
  - intros Hlt.
    assert (Hnn : 0 <= index).
    { destruct internal_type; unfold enum_index in Hidx;
        try discriminate Hidx; injection Hidx as <-;
        exact (proj1 (load_le_range _ _ _)). }
    replace (index <? Z.of_nat (List.length dictionary)) with true
      by (symmetry; apply Z.ltb_lt; exact Hlt).
    destruct (nth_error dictionary (Z.to_nat index)) as [s|] eqn:Hnth.
    + exists s. split; reflexivity.
    + apply nth_error_None in Hnth. lia.
  - intros Hge.
    replace (index <? Z.of_nat (List.length dictionary)) with false
      by (symmetry; apply Z.ltb_ge; exact Hge).
    reflexivity.
Qed.

Lemma enum_index_checked_witness :
  cell_is_nil sample_enum_vector DUCKDB_TYPE_ENUM 0 = false
  /\ extract_vector_value sample_externals sample_enum_vector
       sample_enum_type 0 = TBinary "ok"
  /\ extract_vector_value sample_externals sample_enum_vector
       sample_enum_type 1 = TAtom "invalid_enum_value".
Proof.
  split; [reflexivity|]. split.
  - destruct (enum_index_checked sample_externals sample_enum_vector
                DUCKDB_TYPE_UTINYINT ["sad"; "ok"; "happy"] 0 1
                eq_refl eq_refl) as [H _].
    destruct (H ltac:(cbn; lia)) as [s [Hs Hex]].
    cbn in Hs. injection Hs as <-. exact Hex.
  - destruct (enum_index_checked sample_externals sample_enum_vector
                DUCKDB_TYPE_UTINYINT ["sad"; "ok"; "happy"] 1 7
                eq_refl eq_refl) as [_ H].
    exact (H ltac:(cbn; lia)).
Defined.

(** ** Decimal digits: printing and reading back *)

Lemma digit_cases (d : Z) :
  0 <= d < 10 ->
  d = 0 \/ d = 1 \/ d = 2 \/ d = 3 \/ d = 4 \/ d = 5 \/ d = 6 \/ d = 7
  \/ d = 8 \/ d = 9.
Proof. lia. Qed.

Ltac each_digit H :=
  destruct (digit_cases _ H) as
    [->|[->|[->|[->|[->|[->|[->|[->|[->| ->]]]]]]]]].

Lemma decimal_digit_char (d : Z) :
  0 <= d < 10 -> decimal_digit (digit_char d) = Some d.
Proof. intros H. each_digit H; reflexivity. Qed.

Lemma two_p_nat_pos (n : nat) : 0 < 2 ^ Z.of_nat n.
Proof. apply Z.pow_pos_nonneg; lia. Qed.

Lemma digits_fuel_app (b : Z) (fuel : nat) :
  forall n a c, digits_fuel b fuel n (a +++ c) = digits_fuel b fuel n a +++ c.
Proof.
  induction fuel as [|fuel IH]; intros n a c; [reflexivity|].
  cbn [digits_fuel]. destruct (n <? b); [reflexivity|].
  exact (IH (n / b) (String (digit_char (n mod b)) a) c).
Qed.

Lemma parse_digits_fuel (fuel : nat) :
  forall n acc,
    0 <= n < 2 ^ Z.of_nat fuel ->
    parse_digits (digits_fuel 10 fuel n acc) 0 = parse_digits acc n.
Proof.
  induction fuel as [|fuel IH]; intros n acc Hn.
  - cbn in Hn. assert (n = 0) by lia. subst n. reflexivity.
  - cbn [digits_fuel].
    assert (Hmod : 0 <= n mod 10 < 10) by (apply Z.mod_pos_bound; lia).
    destruct (n <? 10) eqn:Hlt.
    + apply Z.ltb_lt in Hlt. cbn [parse_digits].
      rewrite decimal_digit_char by exact Hmod.
      rewrite Z.mod_small by lia. reflexivity.
    + apply Z.ltb_ge in Hlt.
      rewrite IH.
      * cbn [parse_digits]. rewrite decimal_digit_char by exact Hmod.
        f_equal. pose proof (Z.div_mod n 10 ltac:(lia)). lia.
      * rewrite Nat2Z.inj_succ, Z.pow_succ_r in Hn by lia.
        split; [apply Z.div_pos; lia|].
        apply Z.div_lt_upper_bound; lia.
Qed.

Lemma log2_fuel (n : Z) :
  0 <= n -> 0 <= n < 2 ^ Z.of_nat (S (Z.to_nat (Z.log2 n))).
Proof.
  intros Hn. split; [exact Hn|].
  rewrite Nat2Z.inj_succ, Z2Nat.id by apply Z.log2_nonneg.
  destruct (Z.eq_dec n 0) as [->|Hne]; [reflexivity|].
  apply Z.log2_spec. lia.
Qed.

Lemma parse_digits_of (n : Z) (rest : string) :
  0 <= n ->
  parse_digits (digits_of 10 n +++ rest) 0 = parse_digits rest n.
Proof.
  intros Hn. unfold digits_of. rewrite <- digits_fuel_app.
  apply parse_digits_fuel, log2_fuel, Hn.
Qed.

Lemma digits_fuel_head (fuel : nat) :
  forall n acc,
    0 <= n ->
    exists d rest,
      0 <= d < 10 /\ digits_fuel 10 (S fuel) n acc = String (digit_char d) rest.
Proof.
  induction fuel as [|fuel IH]; intros n acc Hn.
  - exists (n mod 10). cbn [digits_fuel].
    assert (0 <= n mod 10 < 10) by (apply Z.mod_pos_bound; lia).
    destruct (n <? 10); eexists; split; try eassumption; reflexivity.
  - cbn [digits_fuel].
    assert (0 <= n mod 10 < 10) by (apply Z.mod_pos_bound; lia).
    destruct (n <? 10).
    + exists (n mod 10). eexists. split; [assumption | reflexivity].
    + apply (IH (n / 10)). apply Z.div_pos; lia.
Qed.

Lemma digits_of_head (n : Z) :
  0 <= n ->
  exists d rest, 0 <= d < 10 /\ digits_of 10 n = String (digit_char d) rest.
Proof. intros Hn. apply digits_fuel_head, Hn. Qed.

Lemma all_decimal_digits_fuel (fuel : nat) :
  forall n acc,
    0 <= n ->
    all_decimal_digits acc = true ->
    all_decimal_digits (digits_fuel 10 fuel n acc) = true.
Proof.
  induction fuel as [|fuel IH]; intros n acc Hn Hacc; [exact Hacc|].
  cbn [digits_fuel].
  assert (Hmod : 0 <= n mod 10 < 10) by (apply Z.mod_pos_bound; lia).
  assert (Hacc' : all_decimal_digits (String (digit_char (n mod 10)) acc) = true).
  { cbn [all_decimal_digits]. now rewrite decimal_digit_char. }
  destruct (n <? 10); [exact Hacc'|].
  apply IH; [apply Z.div_pos; lia | exact Hacc'].
Qed.

Lemma strtoll_on_digit (c : ascii) (rest : string) :
  starts_with_digit (String c rest) = true ->
  strtoll (String c rest)
  = (clamp LLONG_MIN LLONG_MAX (fst (parse_digits (String c rest) 0)),
     snd (parse_digits (String c rest) 0))
  /\ strtoll (String "-" (String c rest))
     = (clamp LLONG_MIN LLONG_MAX (- fst (parse_digits (String c rest) 0)),
        snd (parse_digits (String c rest) 0))
  /\ integer_of_decimal (String c rest) = fst (parse_digits (String c rest) 0)
  /\ is_decimal_string (String c rest) = all_decimal_digits (String c rest).
Proof.
  intros H. unfold strtoll, integer_of_decimal, is_decimal_string.
  assert (Hs : is_space c = false).
  { destruct c as [[] [] [] [] [] [] [] []]; vm_compute in H;
      try discriminate H; reflexivity. }
  cbn [skip_spaces]. change (is_space "-") with false. rewrite Hs.
  cbv beta iota.
  remember (parse_digits (String c rest) 0) as P eqn:HP.
  remember (all_decimal_digits (String c rest)) as A eqn:HA.
  remember (starts_with_digit (String c rest)) as S eqn:HS.
  destruct c as [[] [] [] [] [] [] [] []]; vm_compute in HS; subst S;
    try discriminate H; cbv beta iota;
    change (starts_with_digit (String _ rest)) with true; cbv beta iota;
    rewrite <- ?HP, <- ?HA; destruct P; repeat split.
Qed.

Lemma append_empty (s : string) : s +++ "" = s.
Proof. induction s as [|a s IHs]; [reflexivity | cbn; now rewrite IHs]. Qed.

Lemma parse_digits_of_alone (n : Z) :
  0 <= n -> parse_digits (digits_of 10 n) 0 = (n, "").
Proof.
  intros Hn. pose proof (parse_digits_of n "" Hn) as H.
  now rewrite append_empty in H.
Qed.

Lemma strtoll_digits (n : Z) :
  0 <= n ->
  strtoll (digits_of 10 n) = (clamp LLONG_MIN LLONG_MAX n, "")
  /\ strtoll (String "-" (digits_of 10 n)) = (clamp LLONG_MIN LLONG_MAX (- n), "")
  /\ integer_of_decimal (digits_of 10 n) = n
  /\ is_decimal_string (digits_of 10 n) = true
  /\ is_decimal_string (String "-" (digits_of 10 n)) = true.
Proof.
  intros Hn.
  pose proof (parse_digits_of_alone n Hn) as Hparse.
  assert (Hall : all_decimal_digits (digits_of 10 n) = true)
    by (apply all_decimal_digits_fuel; [exact Hn | reflexivity]).
  destruct (digits_of_head n Hn) as [d [rest [Hd Heq]]].
  revert Hparse Hall. rewrite Heq. intros Hparse Hall.
  assert (Hstart : starts_with_digit (String (digit_char d) rest) = true).
  { cbn [starts_with_digit]. now rewrite decimal_digit_char. }
  destruct (strtoll_on_digit _ rest Hstart) as [H1 [H2 [H3 H4]]].
  rewrite H1, H2, H3, H4, Hparse. cbn [fst snd]. repeat split.
  - exact Hall.
  - cbn [is_decimal_string]. now rewrite Hstart, Hall.
Qed.

(** What [%lld] prints is read back by [strtoll] up to saturation, and
    exactly by an arbitrary-precision reader. *)
Lemma fmt_signed_reads_back (v : Z) :
  strtoll (fmt_signed v) = (clamp LLONG_MIN LLONG_MAX v, "")
  /\ integer_of_decimal (fmt_signed v) = v
  /\ is_decimal_string (fmt_signed v) = true.
Proof.
  unfold fmt_signed. destruct (v <? 0) eqn:Hneg.
  - apply Z.ltb_lt in Hneg.
    destruct (strtoll_digits (- v) ltac:(lia)) as [_ [H2 [_ [_ H5]]]].
    rewrite H2, H5, Z.opp_involutive. repeat split.
    cbn [integer_of_decimal].
    rewrite parse_digits_of_alone by lia. cbn [fst]. lia.
  - apply Z.ltb_ge in Hneg.
    destruct (strtoll_digits v Hneg) as [H1 [_ [H3 [H4 _]]]].
    now rewrite H1, H3, H4.
Qed.

(** ** Hugeint cells *)

Lemma hugeint_row_path (res : duckdb_result) (col row : nat) (v : Z) :
  duckdb_value_varchar res col row = Some (fmt_signed v) ->
  hugeint_to_elixir_integer_via_varchar res col row
  = if (LLONG_MIN <? v) && (v <? LLONG_MAX) then TInt v
    else TBinary (fmt_signed v).
Proof.
  intros Hstr. unfold hugeint_to_elixir_integer_via_varchar. rewrite Hstr.
  destruct (fmt_signed_reads_back v) as [Hll _]. rewrite Hll.
  cbn [String.eqb andb]. unfold clamp, LLONG_MIN, LLONG_MAX.
  destruct (v <? -9223372036854775808) eqn:H1.
  - apply Z.ltb_lt in H1.
    replace (-9223372036854775808 <? v) with false
      by (symmetry; apply Z.ltb_ge; lia).
    reflexivity.
  - apply Z.ltb_ge in H1.
    destruct (9223372036854775807 <? v) eqn:H2.
    + apply Z.ltb_lt in H2.
      replace (v <? 9223372036854775807) with false
        by (symmetry; apply Z.ltb_ge; lia).
      now rewrite andb_false_r.
    + apply Z.ltb_ge in H2.
      destruct (v =? 9223372036854775807) eqn:H3.
      * apply Z.eqb_eq in H3. subst v. reflexivity.
      * apply Z.eqb_neq in H3.
        replace (v <? 9223372036854775807) with true
          by (symmetry; apply Z.ltb_lt; lia).
        destruct (v =? -9223372036854775808) eqn:H4.
        -- apply Z.eqb_eq in H4. subst v. reflexivity.
        -- apply Z.eqb_neq in H4.
           replace (-9223372036854775808 <? v) with true
             by (symmetry; apply Z.ltb_lt; lia).
           reflexivity.
Qed.

Lemma hugeint_chunk_path (d : list Z) (row_idx : nat) :
  hugeint_case d row_idx
  = let h := read_hugeint d row_idx in
    if (LLONG_MIN <=? hugeint_value h) && (hugeint_value h <=? LLONG_MAX)
    then TInt (hugeint_value h)
    else TBinary ("hugeint:" +++ fmt_signed (upper h) +++ ":"
                  +++ fmt_unsigned (lower h)).
Proof.
  unfold hugeint_case. cbv zeta.
  destruct (read_hugeint_range d row_idx) as [Hlo Hup].
  set (h := read_hugeint d row_idx) in *.
  unfold hugeint_value, two_p, LLONG_MIN, LLONG_MAX.
  change (2 ^ 64) with 18446744073709551616.
  destruct (to_signed_64_cases _ Hlo) as [[H1 Hs]|[H1 Hs]]; rewrite Hs.
  - destruct (upper h =? 0) eqn:Hu0.
    + apply Z.eqb_eq in Hu0. rewrite Hu0.
      replace (lower h <=? 9223372036854775807) with true
        by (symmetry; apply Z.leb_le; lia).
      cbn [andb].
      replace (-9223372036854775808 <=? 0 * 18446744073709551616 + lower h)
        with true by (symmetry; apply Z.leb_le; lia).
      replace (0 * 18446744073709551616 + lower h <=? 9223372036854775807)
        with true by (symmetry; apply Z.leb_le; lia).
      cbn [andb]. unfold enif_make_int64. f_equal; lia.
    + apply Z.eqb_neq in Hu0. cbn [andb].
      replace (lower h >=? 9223372036854775808) with false
        by (symmetry; rewrite Z.geb_leb; apply Z.leb_gt; lia).
      rewrite andb_false_r.
      replace ((-9223372036854775808 <=? upper h * 18446744073709551616 + lower h)
               && (upper h * 18446744073709551616 + lower h <=? 9223372036854775807))
        with false; [reflexivity|].
      symmetry. apply andb_false_iff.
      destruct (Z_lt_ge_dec (upper h) 0).
      * left. apply Z.leb_gt. lia.
      * right. apply Z.leb_gt. lia.
  - replace (lower h <=? 9223372036854775807) with false
      by (symmetry; apply Z.leb_gt; lia).
    rewrite andb_false_r.
    replace (lower h >=? 9223372036854775808) with true
      by (symmetry; rewrite Z.geb_leb; apply Z.leb_le; lia).
    rewrite andb_true_r.
    destruct (upper h =? -1) eqn:Hu.
    + apply Z.eqb_eq in Hu. rewrite Hu.
      replace (-9223372036854775808 <=? -1 * 18446744073709551616 + lower h)
        with true by (symmetry; apply Z.leb_le; lia).
      replace (-1 * 18446744073709551616 + lower h <=? 9223372036854775807)
        with true by (symmetry; apply Z.leb_le; lia).
      cbn [andb]. unfold enif_make_int64. f_equal; lia.
    + apply Z.eqb_neq in Hu.
      replace ((-9223372036854775808 <=? upper h * 18446744073709551616 + lower h)
               && (upper h * 18446744073709551616 + lower h <=? 9223372036854775807))
        with false; [reflexivity|].
      symmetry. apply andb_false_iff.
      destruct (Z_lt_ge_dec (upper h) (-1)).
      * left. apply Z.leb_gt. lia.
      * right. apply Z.leb_gt. lia.
Qed.

Lemma colon_stops_digits (n : Z) (rest : string) :
  parse_digits (String ":" rest) n = (n, String ":" rest).
Proof. reflexivity. Qed.

Lemma split_sign_digit (s : string) :
  starts_with_digit s = true -> split_sign s = (false, s).
Proof.
  destruct s as [|c s]; [discriminate|].
  intros H. destruct c as [[] [] [] [] [] [] [] []]; vm_compute in H;
    try discriminate H; reflexivity.
Qed.

Lemma hugeint_words_text_reads_back (u l : Z) :
  0 <= l ->
  hugeint_of_words_text
    ("hugeint:" +++ fmt_signed u +++ ":" +++ fmt_unsigned l)
  = Some (u * two_p 64 + l).
Proof.
  intros Hl. cbn [String.append hugeint_of_words_text].
  unfold fmt_signed, fmt_unsigned.
  destruct (u <? 0) eqn:Hneg.
  - apply Z.ltb_lt in Hneg. cbn [String.append split_sign].
    rewrite parse_digits_of by lia. rewrite colon_stops_digits.
    rewrite parse_digits_of_alone by exact Hl.
    now rewrite Z.opp_involutive.
  - apply Z.ltb_ge in Hneg.
    rewrite split_sign_digit.
    + rewrite parse_digits_of by lia. rewrite colon_stops_digits.
      now rewrite parse_digits_of_alone by exact Hl.
    + destruct (digits_of_head u Hneg) as [dg [rest [Hd Heq]]].
      rewrite Heq. cbn [String.append starts_with_digit].
      now rewrite decimal_digit_char.
Qed.

(** C1 (as stated) fails on both paths.  Row path: 2^63-1 fits the
    signed 64-bit range, yet it comes back as a string, not as a native
    integer.  Vector path: 2^63 comes back as the text
    [hugeint:0:9223372036854775808], which is no decimal-digit string. *)
Lemma hugeint_claim_fails :
  hugeint_to_elixir_integer_via_varchar
    (hugeint_result ["9223372036854775807"]) 0 0
  = TBinary "9223372036854775807"
  /\ extract_vector_value sample_externals
       (hugeint_vector [9223372036854775808]) (LT_plain DUCKDB_TYPE_HUGEINT) 0
     = TBinary "hugeint:0:9223372036854775808"
  /\ is_decimal_string "hugeint:0:9223372036854775808" = false.
Proof. repeat split; vm_compute; reflexivity. Qed.

(** C1 (amended).  Row path: for a hugeint [v] that the engine renders
    in decimal, a value strictly between -2^63 and 2^63-1 is returned as
    a native integer, and a value below -2^63 or above 2^63-1 as its
    decimal-digit string, which reads back to [v] exactly (the two
    bounds themselves are left open here; [hugeint_row_path] gives them).
    Vector path: a value within [-2^63, 2^63-1] is
    returned as a native integer, and any other value as the text
    [hugeint:<upper>:<lower>] of its two 64-bit words in decimal, from
    which [v] is recovered exactly.  No floating point on either
    path. *)
Theorem hugeint_extraction (X : externals) :
  (forall (res : duckdb_result) (col row : nat) (v : Z),
     duckdb_value_varchar res col row = Some (fmt_signed v) ->
     (LLONG_MIN < v < LLONG_MAX ->
      hugeint_to_elixir_integer_via_varchar res col row = TInt v)
     /\ (v < LLONG_MIN \/ LLONG_MAX < v ->
         hugeint_to_elixir_integer_via_varchar res col row
         = TBinary (fmt_signed v)
         /\ is_decimal_string (fmt_signed v) = true
         /\ integer_of_decimal (fmt_signed v) = v))
  /\ (forall (vector : duckdb_vector) (row_idx : nat),
        cell_is_nil vector DUCKDB_TYPE_HUGEINT row_idx = false ->
        let h := read_hugeint (data_bytes vector) row_idx in
        (LLONG_MIN <= hugeint_value h <= LLONG_MAX ->
         extract_vector_value X vector (LT_plain DUCKDB_TYPE_HUGEINT) row_idx
         = TInt (hugeint_value h))
        /\ (hugeint_value h < LLONG_MIN \/ LLONG_MAX < hugeint_value h ->
            extract_vector_value X vector (LT_plain DUCKDB_TYPE_HUGEINT) row_idx
            = TBinary ("hugeint:" +++ fmt_signed (upper h) +++ ":"
                       +++ fmt_unsigned (lower h))
            /\ hugeint_of_words_text
                 ("hugeint:" +++ fmt_signed (upper h) +++ ":"
                  +++ fmt_unsigned (lower h))
               = Some (hugeint_value h))).
Proof.
  split.
  - intros res col row v Hstr. rewrite (hugeint_row_path res col row v Hstr).
    split.
    + intros [H1 H2].
      replace (LLONG_MIN <? v) with true by (symmetry; apply Z.ltb_lt; exact H1).
      replace (v <? LLONG_MAX) with true by (symmetry; apply Z.ltb_lt; exact H2).
      reflexivity.
    + intros Hout. destruct (fmt_signed_reads_back v) as [_ [Hback Hdec]].
      split; [|split; assumption].
      replace ((LLONG_MIN <? v) && (v <? LLONG_MAX)) with false; [reflexivity|].
      symmetry. apply andb_false_iff.
      destruct Hout; [left | right]; apply Z.ltb_ge; lia.
  - intros vector row_idx Hcell h.
    assert (Hex : extract_vector_value X vector
                    (LT_plain DUCKDB_TYPE_HUGEINT) row_idx
                  = hugeint_case (data_bytes vector) row_idx).
    { cbn [extract_vector_value duckdb_get_type_id]. now rewrite Hcell. }
    rewrite Hex, hugeint_chunk_path. cbv zeta. fold h. split.
    + intros [H1 H2].
      replace (LLONG_MIN <=? hugeint_value h) with true
        by (symmetry; apply Z.leb_le; exact H1).
      replace (hugeint_value h <=? LLONG_MAX) with true
        by (symmetry; apply Z.leb_le; exact H2).
      reflexivity.
    + intros Hout. split.
      * replace ((LLONG_MIN <=? hugeint_value h)
                 && (hugeint_value h <=? LLONG_MAX)) with false; [reflexivity|].
        symmetry. apply andb_false_iff.
        destruct Hout; [left | right]; apply Z.leb_gt; assumption.
      * apply hugeint_words_text_reads_back.
        apply (read_hugeint_range (data_bytes vector) row_idx).
Qed.

Lemma hugeint_extraction_witness :
  hugeint_to_elixir_integer_via_varchar (hugeint_result ["-42"]) 0 0 = TInt (-42)
  /\ extract_vector_value sample_externals
       (hugeint_vector [-9223372036854775808]) (LT_plain DUCKDB_TYPE_HUGEINT) 0
     = TInt (-9223372036854775808)
  /\ hugeint_of_words_text "hugeint:-1:5" = Some (5 - two_p 64).
Proof.
  destruct (hugeint_extraction sample_externals) as [Hrow Hvec].
  split; [|split].
  - destruct (Hrow (hugeint_result ["-42"]) 0%nat 0%nat (-42) eq_refl) as [H _].
    apply H. unfold LLONG_MIN, LLONG_MAX. lia.
  - destruct (Hvec (hugeint_vector [-9223372036854775808]) 0%nat eq_refl)
      as [H _].
    exact (H ltac:(vm_compute; split; discriminate)).
  - reflexivity.
Defined.

(** ** Floating-point cells *)

(** The row path turns the special values into the three sentinel
    atoms. *)
Lemma row_path_float_sentinels
  (X : externals) (res : duckdb_result) (c r : nat) (s : string) :
  duckdb_value_is_null res c r = false ->
  duckdb_value_varchar res c r = Some s ->
  (duckdb_column_type res c = DUCKDB_TYPE_FLOAT ->
   (strtof X s = S754_nan -> result_rows_cell X res c r = TAtom "nan")
   /\ (strtof X s = S754_infinity false ->
       result_rows_cell X res c r = TAtom "infinity")
   /\ (strtof X s = S754_infinity true ->
       result_rows_cell X res c r = TAtom "negative_infinity"))
  /\ (duckdb_column_type res c = DUCKDB_TYPE_DOUBLE ->
      (strtod X s = S754_nan -> result_rows_cell X res c r = TAtom "nan")
      /\ (strtod X s = S754_infinity false ->
          result_rows_cell X res c r = TAtom "infinity")
      /\ (strtod X s = S754_infinity true ->
          result_rows_cell X res c r = TAtom "negative_infinity")).
Proof.
  intros Hnn Hstr. unfold result_rows_cell. rewrite Hnn, Hstr.
  split; intros ->; cbn [is_uuid_type]; repeat split; intros ->; reflexivity.
Qed.

(** The vector path has no such case: a NaN or an infinity goes to
    [enif_make_double] as it is, which answers with [badarg]. *)
Lemma vector_path_nonfinite_badarg
  (X : externals) (vector : duckdb_vector) (row_idx : nat) :
  (cell_is_nil vector DUCKDB_TYPE_FLOAT row_idx = false ->
   is_finite_double (read_float (data_bytes vector) row_idx) = false ->
   extract_vector_value X vector (LT_plain DUCKDB_TYPE_FLOAT) row_idx
   = enif_make_badarg)
  /\ (cell_is_nil vector DUCKDB_TYPE_DOUBLE row_idx = false ->
      is_finite_double (read_double (data_bytes vector) row_idx) = false ->
      extract_vector_value X vector (LT_plain DUCKDB_TYPE_DOUBLE) row_idx
      = enif_make_badarg).
Proof.
  split; intros Hcell Hnf; cbn [extract_vector_value duckdb_get_type_id];
    rewrite Hcell; cbn [extract_plain]; unfold enif_make_double.
  - destruct (read_float (data_bytes vector) row_idx);
      try discriminate Hnf; reflexivity.
  - now rewrite Hnf.
Qed.

(** C3, at the failing inputs: a float or double vector cell holding
    NaN, +infinity or -infinity extracts to the [badarg] exception, not
    to a sentinel atom, whereas the row path gives the atoms [nan],
    [infinity] and [negative_infinity] for the same values. *)
Theorem vector_path_drops_float_sentinels :
  extract_vector_value sample_externals
    (float_vector [float_nan_bits; float_pinf_bits; float_ninf_bits])
    (LT_plain DUCKDB_TYPE_FLOAT) 0 = TBadarg
  /\ extract_vector_value sample_externals
       (float_vector [float_nan_bits; float_pinf_bits; float_ninf_bits])
       (LT_plain DUCKDB_TYPE_FLOAT) 1 = TBadarg
  /\ extract_vector_value sample_externals
       (float_vector [float_nan_bits; float_pinf_bits; float_ninf_bits])
       (LT_plain DUCKDB_TYPE_FLOAT) 2 = TBadarg
  /\ extract_vector_value sample_externals
       (double_vector [double_nan_bits; double_pinf_bits; double_ninf_bits])
       (LT_plain DUCKDB_TYPE_DOUBLE) 0 = TBadarg
  /\ extract_vector_value sample_externals
       (double_vector [double_nan_bits; double_pinf_bits; double_ninf_bits])
       (LT_plain DUCKDB_TYPE_DOUBLE) 1 = TBadarg
  /\ extract_vector_value sample_externals
       (double_vector [double_nan_bits; double_pinf_bits; double_ninf_bits])
       (LT_plain DUCKDB_TYPE_DOUBLE) 2 = TBadarg
  /\ result_rows sample_externals
       (text_result DUCKDB_TYPE_DOUBLE ["nan"; "inf"; "-inf"])
     = TList [TTuple [TAtom "nan"]; TTuple [TAtom "infinity"];
              TTuple [TAtom "negative_infinity"]]
  /\ result_rows sample_externals
       (text_result DUCKDB_TYPE_FLOAT ["nan"; "inf"; "-inf"])
     = TList [TTuple [TAtom "nan"]; TTuple [TAtom "infinity"];
              TTuple [TAtom "negative_infinity"]].
Proof. repeat split; vm_compute; reflexivity. Qed.

(** ** Decimal cells *)

Lemma decimal_divisor_exact (n : nat) :
  (n <= 22)%nat ->
  decimal_divisor (Z.of_nat n) = double_of_int (10 ^ Z.of_nat n).
Proof.
  intros Hn.
  do 23 (destruct n as [|n]; [vm_compute; reflexivity|]).
  lia.
Qed.

(** C4 (as stated) fails for the 128-bit storage width: a decimal(38,0)
    cell stored as a hugeint and holding 5 extracts to the text "5", not
    to the integer 5. *)
Lemma decimal_hugeint_is_text :
  extract_vector_value sample_externals (hugeint_vector [5])
    (LT_decimal 38 0 DUCKDB_TYPE_HUGEINT) 0 = TBinary "5"
  /\ TBinary "5" <> TInt 5.
Proof. split; [vm_compute; reflexivity | discriminate]. Qed.

(** C4 (amended): for a non-null decimal cell stored at 16, 32 or 64
    bits, a scale of 0 gives the raw stored integer as an exact integer,
    and a scale above 0 gives the double obtained by dividing the raw
    integer, converted to double, by the double divisor built by
    multiplying 1.0 by 10.0 scale times, which up to scale 22 is exactly
    10^scale.  For a cell stored at 128 bits the result is instead the
    text [%.10g] prints for the engine's double conversion of the
    value. *)
Theorem decimal_extraction
  (X : externals) (vector : duckdb_vector) (width scale : Z)
  (internal_type : duckdb_type) (row_idx : nat)
  (Hcell : cell_is_nil vector DUCKDB_TYPE_DECIMAL row_idx = false) :
  (forall raw,
     decimal_raw_value internal_type (data_bytes vector) row_idx = Some raw ->
     (scale = 0 ->
      extract_vector_value X vector (LT_decimal width scale internal_type)
        row_idx = TInt raw)
     /\ (0 < scale ->
         extract_vector_value X vector (LT_decimal width scale internal_type)
           row_idx
         = enif_make_double
             (double_div (double_of_int raw) (decimal_divisor scale)))
     /\ (0 < scale <= 22 ->
         decimal_divisor scale = double_of_int (10 ^ scale)))
  /\ (internal_type = DUCKDB_TYPE_HUGEINT ->
      extract_vector_value X vector (LT_decimal width scale internal_type)
        row_idx
      = TBinary
          (fmt_g10 X
             (duckdb_decimal_to_double X width scale
                (lower (read_hugeint (data_bytes vector) row_idx),
                 upper (read_hugeint (data_bytes vector) row_idx))))).
Proof.
  assert (Hex : extract_vector_value X vector
                  (LT_decimal width scale internal_type) row_idx
                = decimal_case X (data_bytes vector) width scale internal_type
                    row_idx).
  { cbn [extract_vector_value duckdb_get_type_id]. now rewrite Hcell. }
  rewrite Hex. split.
  - intros raw Hraw.
    assert (Hcase : decimal_case X (data_bytes vector) width scale
                      internal_type row_idx
                    = if scale =? 0 then enif_make_long raw
                      else enif_make_double
                             (double_div (double_of_int raw)
                                (decimal_divisor scale))).
    { unfold decimal_case, decimal_raw_value in *.
      destruct internal_type; try discriminate Hraw;
        injection Hraw as <-; reflexivity. }
    rewrite Hcase. split; [|split].
    + intros ->. reflexivity.
    + intros Hpos.
      replace (scale =? 0) with false by (symmetry; apply Z.eqb_neq; lia).
      reflexivity.
    + intros [Hpos Hle].
      rewrite <- (Z2Nat.id scale) by lia.
      apply decimal_divisor_exact. lia.
  - intros ->. reflexivity.
Qed.

Lemma decimal_extraction_witness :
  cell_is_nil (int32_vector [12345; -7]) DUCKDB_TYPE_DECIMAL 0 = false
  /\ extract_vector_value sample_externals (int32_vector [12345; -7])
       (LT_decimal 9 0 DUCKDB_TYPE_INTEGER) 1 = TInt (-7)
  /\ extract_vector_value sample_externals (int32_vector [12345; -7])
       (LT_decimal 9 2 DUCKDB_TYPE_INTEGER) 0
     = enif_make_double (double_div (double_of_int 12345) (double_of_int 100)).
Proof.
  split; [reflexivity|].
  destruct (decimal_extraction sample_externals (int32_vector [12345; -7])
              9 0 DUCKDB_TYPE_INTEGER 1 eq_refl) as [H0 _].
  destruct (decimal_extraction sample_externals (int32_vector [12345; -7])
              9 2 DUCKDB_TYPE_INTEGER 0 eq_refl) as [H2 _].
  split.
  - destruct (H0 (-7) ltac:(vm_compute; reflexivity)) as [H _].
    exact (H eq_refl).
  - destruct (H2 12345 ltac:(vm_compute; reflexivity)) as [_ [Hd Hexact]].
    rewrite (Hd ltac:(lia)), (Hexact ltac:(lia)). reflexivity.
Defined.

(** ** Map cells *)


Lemma spec_float_eqb_eq (a b : spec_float) :
  spec_float_eqb a b = true <-> a = b.
Proof.
  split.
  - destruct a, b; cbn; try discriminate; intros H.
    + apply Bool.eqb_prop in H. now subst.
    + apply Bool.eqb_prop in H. now subst.
    + reflexivity.
    + apply andb_true_iff in H. destruct H as [H He].
      apply andb_true_iff in H. destruct H as [Hs Hm].
      apply Bool.eqb_prop in Hs. apply Pos.eqb_eq in Hm. apply Z.eqb_eq in He.
      now subst.
  - intros <-. destruct a; cbn; rewrite ?Bool.eqb_reflx, ?Pos.eqb_refl,
      ?Z.eqb_refl; reflexivity.
Qed.

Lemma resource_type_eqb_eq (a b : resource_type) :
  resource_type_eqb a b = true <-> a = b.
Proof. split; [destruct a, b; (discriminate || reflexivity) | intros <-; now destruct a]. Qed.

Lemma term_eqb_refl : forall a, term_eqb a a = true.
Proof.
  induction a as [name|z|d|bin|l IH|l IH|pairs IH|ty id|] using term_nested_ind;
    cbn [term_eqb].
  - apply String.eqb_refl.
  - apply Z.eqb_refl.
  - now apply spec_float_eqb_eq.
  - apply String.eqb_refl.
  - induction IH as [|x xs Hx _ IHxs]; [reflexivity|]. now rewrite Hx, IHxs.
  - induction IH as [|x xs Hx _ IHxs]; [reflexivity|]. now rewrite Hx, IHxs.
  - rewrite Nat.eqb_refl. cbn [andb].
    enough (H : forall whole : list (term * term),
               (forall kv, In kv pairs -> In kv whole) ->
               (fix go (p : list (term * term)) {struct p} : bool :=
                  match p with
                  | [] => true
                  | (k1, v1) :: xs =>
                      (existsb (fun kv => term_eqb k1 (fst kv)
                                          && term_eqb v1 (snd kv)) whole
                       && go xs)%bool
                  end) pairs = true)
      by (apply H; intros kv Hkv; exact Hkv).
    induction IH as [|[k v] xs [Hk Hv] _ IHxs]; intros whole Hin;
      [reflexivity|].
    cbn [fst snd] in Hk, Hv.
    rewrite IHxs by (intros kv H; apply Hin; now right).
    rewrite andb_true_r. apply existsb_exists. exists (k, v).
    split; [apply Hin; now left|]. cbn [fst snd]. now rewrite Hk, Hv.
  - now rewrite (proj2 (resource_type_eqb_eq ty ty) eq_refl), Nat.eqb_refl.
  - reflexivity.
Qed.

Lemma pairwise_distinct_tail (k : term) (rest : list term) :
  pairwise_distinct (k :: rest) -> pairwise_distinct rest.
Proof.
  intros H i j a b Hij Ha Hb.
  apply (H (S i) (S j) a b); [lia | exact Ha | exact Hb].
Qed.

(** The duplicate test of the map constructor finds no duplicate among
    pairwise distinct keys, and finds one as soon as a key is equal to
    a later one. *)
Lemma has_duplicate_key_distinct (keys : list term) :
  pairwise_distinct keys -> has_duplicate_key keys = false.
Proof.
  induction keys as [|k rest IH]; intros Hd; cbn [has_duplicate_key];
    [reflexivity|].
  rewrite (IH (pairwise_distinct_tail k rest Hd)), orb_false_r.
  unfold term_mem. destruct (existsb (term_eqb k) rest) eqn:Hex; [|reflexivity].
  apply existsb_exists in Hex. destruct Hex as [x [Hin Heq]].
  apply In_nth_error in Hin. destruct Hin as [j Hj].
  rewrite (Hd 0%nat (S j) k x) in Heq; [discriminate Heq | lia | reflexivity
                                       | exact Hj].
Qed.

Lemma has_duplicate_key_found (keys : list term) :
  forall i j a b,
    (i < j)%nat -> nth_error keys i = Some a -> nth_error keys j = Some b ->
    term_eqb a b = true ->
    has_duplicate_key keys = true.
Proof.
  induction keys as [|k rest IH]; intros i j a b Hij Ha Hb Heq;
    [destruct i; discriminate Ha|].
  cbn [has_duplicate_key]. apply orb_true_iff.
  destruct j as [|j]; [lia|]. cbn in Hb.
  destruct i as [|i]; cbn in Ha.
  - injection Ha as ->. left. unfold term_mem. apply existsb_exists.
    exists b. split; [eapply nth_error_In; exact Hb | exact Heq].
  - right. apply (IH i j a b); [lia | exact Ha | exact Hb | exact Heq].
Qed.

(** In a map built from pairwise distinct keys, every key finds the
    value given with it. *)
Lemma map_get_combine (keys : list term) :
  forall (values : list term) (i : nat) (k v : term),
    pairwise_distinct keys ->
    nth_error keys i = Some k ->
    nth_error values i = Some v ->
    map_get k (combine keys values) = Some v.
Proof.
  induction keys as [|k0 rest IH]; intros values i k v Hd Hk Hv.
  - destruct i; discriminate Hk.
  - destruct values as [|v0 values]; [destruct i; discriminate Hv|].
    destruct i as [|i]; cbn in Hk, Hv; cbn [combine map_get].
    + injection Hk as ->. injection Hv as ->. now rewrite term_eqb_refl.
    + rewrite (Hd (S i) 0%nat k k0); [|lia | exact Hk | reflexivity].
      exact (IH values i k v (pairwise_distinct_tail k0 rest Hd) Hk Hv).
Qed.

Lemma map_fst_combine {A B : Type} (l : list A) :
  forall (l' : list B),
    List.length l = List.length l' -> map fst (combine l l') = l.
Proof.
  induction l as [|a l IH]; intros [|b l'] Hlen; try discriminate Hlen;
    [reflexivity|].
  cbn. f_equal. apply IH. now injection Hlen.
Qed.

Lemma map_cell_lengths
  (X : externals) (vector : duckdb_vector)
  (key_type value_type : duckdb_logical_type) (row_idx : nat) :
  List.length (map_cell_keys X vector key_type row_idx)
  = List.length (map_cell_values X vector value_type row_idx).
Proof.
  unfold map_cell_keys, map_cell_values.
  destruct (read_list_entry (data_bytes vector) row_idx) as [offset len].
  now rewrite !length_map.
Qed.

Lemma map_case_eq
  (X : externals) (vector : duckdb_vector)
  (key_type value_type : duckdb_logical_type) (row_idx : nat) :
  cell_is_nil vector DUCKDB_TYPE_MAP row_idx = false ->
  duckdb_vector_get_data vector <> None ->
  extract_vector_value X vector (LT_map key_type value_type) row_idx
  = match enif_make_map_from_arrays
            (map_cell_keys X vector key_type row_idx)
            (map_cell_values X vector value_type row_idx) with
    | Some result_map => result_map
    | None => TAtom "map_conversion_failed"
    end.
Proof.
  intros Hcell Hdata. cbn [extract_vector_value duckdb_get_type_id].
  rewrite Hcell. unfold map_cell_keys, map_cell_values, data_bytes.
  destruct (duckdb_vector_get_data vector) as [list_data|]; [|congruence].
  destruct (read_list_entry list_data row_idx) as [offset len].
  reflexivity.
Qed.

(** Map keys are compared as maps: two keys that hold the same entries
    in a different order are one key twice, and the construction
    fails. *)
Lemma map_keys_compared_as_maps (v1 v2 : term) :
  enif_make_map_from_arrays
    [TMap [(TInt 1, TInt 10); (TInt 2, TInt 20)];
     TMap [(TInt 2, TInt 20); (TInt 1, TInt 10)]] [v1; v2] = None.
Proof. reflexivity. Qed.

(** C6 (as stated) fails: a map cell with the entries 1 -> 10 and
    1 -> 20 extracts to the failure marker, not to a keyed value holding
    1 -> 20. *)
Lemma duplicate_key_map_fails :
  extract_vector_value sample_externals (int_map_vector [1; 1] [10; 20])
    int_map_type 0 = TAtom "map_conversion_failed"
  /\ map_cell_keys sample_externals (int_map_vector [1; 1] [10; 20])
       (LT_plain DUCKDB_TYPE_INTEGER) 0 = [TInt 1; TInt 1]
  /\ map_cell_values sample_externals (int_map_vector [1; 1] [10; 20])
       (LT_plain DUCKDB_TYPE_INTEGER) 0 = [TInt 10; TInt 20].
Proof. repeat split; vm_compute; reflexivity. Qed.

(** C6 (amended): take a non-null map cell whose extraction is defined
    (its list entry, and those of the cells of its entries, are read
    from a data buffer) and raises no exception.  When the
    extracted keys are pairwise distinct as terms (maps compared as
    maps, whatever the order of their entries), the result is the keyed
    value of the entries: it holds exactly the extracted keys, each
    once, and each key finds the value of its entry.  When a key is
    equal to a later one, the extraction returns the failure marker
    [map_conversion_failed] instead of a keyed value. *)
Theorem map_cell_extraction
  (X : externals) (vector : duckdb_vector)
  (key_type value_type : duckdb_logical_type) (row_idx : nat)
  (Hcell : cell_is_nil vector DUCKDB_TYPE_MAP row_idx = false)
  (Hdef : extract_vector_defined X vector (LT_map key_type value_type) row_idx
          = true)
  (Hquiet : extract_vector_raises X vector (LT_map key_type value_type) row_idx
            = false) :
  (pairwise_distinct (map_cell_keys X vector key_type row_idx) ->
   extract_vector_value X vector (LT_map key_type value_type) row_idx
   = TMap (combine (map_cell_keys X vector key_type row_idx)
                   (map_cell_values X vector value_type row_idx))
   /\ map fst (combine (map_cell_keys X vector key_type row_idx)
                       (map_cell_values X vector value_type row_idx))
      = map_cell_keys X vector key_type row_idx
   /\ forall i k v,
        nth_error (map_cell_keys X vector key_type row_idx) i = Some k ->
        nth_error (map_cell_values X vector value_type row_idx) i = Some v ->
        map_get k (combine (map_cell_keys X vector key_type row_idx)
                           (map_cell_values X vector value_type row_idx))
        = Some v)
  /\ (forall i j a b,
        (i < j)%nat ->
        nth_error (map_cell_keys X vector key_type row_idx) i = Some a ->
        nth_error (map_cell_keys X vector key_type row_idx) j = Some b ->
        term_eqb a b = true ->
        extract_vector_value X vector (LT_map key_type value_type) row_idx
        = TAtom "map_conversion_failed").
Proof.
  assert (Hdata : duckdb_vector_get_data vector <> None).
  { revert Hdef. cbn [extract_vector_defined duckdb_get_type_id].
    rewrite Hcell. now destruct (duckdb_vector_get_data vector). }
  rewrite (map_case_eq X vector key_type value_type row_idx Hcell Hdata).
  unfold enif_make_map_from_arrays. split.
  - intros Hd.
    rewrite (has_duplicate_key_distinct _ Hd). split; [reflexivity|].
    split.
    + apply map_fst_combine, map_cell_lengths.
    + intros i k v Hk Hv. exact (map_get_combine _ _ i k v Hd Hk Hv).
  - intros i j a b Hij Ha Hb Heq.
    now rewrite (has_duplicate_key_found _ i j a b Hij Ha Hb Heq).
Qed.

Lemma int_keys_distinct (keys : list Z) :
  NoDup keys -> pairwise_distinct (map TInt keys).
Proof.
  intros Hnd i j a b Hij Ha Hb.
  rewrite nth_error_map in Ha, Hb.
  destruct (nth_error keys i) as [x|] eqn:Hx; [|discriminate Ha].
  destruct (nth_error keys j) as [y|] eqn:Hy; [|discriminate Hb].
  injection Ha as <-. injection Hb as <-. cbn [term_eqb].
  apply Z.eqb_neq. intros ->.
  apply Hij. exact (proj1 (NoDup_nth_error keys) Hnd i j
                      ltac:(apply nth_error_Some; congruence)
                      ltac:(congruence)).
Qed.

Lemma map_cell_extraction_witness :
  cell_is_nil (int_map_vector [1; 2] [10; 20]) DUCKDB_TYPE_MAP 0 = false
  /\ extract_vector_defined sample_externals (int_map_vector [1; 2] [10; 20])
       int_map_type 0 = true
  /\ extract_vector_raises sample_externals (int_map_vector [1; 2] [10; 20])
       int_map_type 0 = false
  /\ extract_vector_value sample_externals (int_map_vector [1; 2] [10; 20])
       int_map_type 0
     = TMap [(TInt 1, TInt 10); (TInt 2, TInt 20)].
Proof.
  split; [reflexivity|]. split; [reflexivity|]. split; [reflexivity|].
  destruct (map_cell_extraction sample_externals
              (int_map_vector [1; 2] [10; 20])
              (LT_plain DUCKDB_TYPE_INTEGER) (LT_plain DUCKDB_TYPE_INTEGER)
              0 eq_refl eq_refl eq_refl) as [H _].
  assert (Hd : pairwise_distinct
                 (map_cell_keys sample_externals
                    (int_map_vector [1; 2] [10; 20])
                    (LT_plain DUCKDB_TYPE_INTEGER) 0)).
  { change (pairwise_distinct (map TInt [1; 2])).
    apply int_keys_distinct. repeat constructor; cbn; lia. }
  destruct (H Hd) as [Hex _]. unfold int_map_type. rewrite Hex.
  vm_compute. reflexivity.
Defined.

(** ** UUID cells *)

Lemma hex_digit_cases (d : Z) :
  0 <= d < 16 ->
  d = 0 \/ d = 1 \/ d = 2 \/ d = 3 \/ d = 4 \/ d = 5 \/ d = 6 \/ d = 7
  \/ d = 8 \/ d = 9 \/ d = 10 \/ d = 11 \/ d = 12 \/ d = 13 \/ d = 14
  \/ d = 15.
Proof. lia. Qed.

Lemma hex_digit_value_char (d : Z) :
  0 <= d < 16 -> hex_digit_value (digit_char d) = Some d.
Proof.
  intros H.
  destruct (hex_digit_cases d H) as
    [->|[->|[->|[->|[->|[->|[->|[->|[->|[->|[->|[->|[->|[->|[->| ->]]]]]]]]]]]]]]];
    reflexivity.
Qed.

Lemma zeros_shift (n : nat) (s : string) :
  zeros n (String "0" s) = String "0" (zeros n s).
Proof. induction n as [|n IH]; [reflexivity | cbn; now rewrite IH]. Qed.

Lemma hex_fixed_zero (n : nat) : forall s, hex_fixed n 0 s = zeros n s.
Proof.
  induction n as [|n IH]; intros s; [reflexivity|].
  cbn [hex_fixed zeros]. change (0 / 16) with 0. change (digit_char (0 mod 16)) with "0"%char.
  rewrite IH. apply zeros_shift.
Qed.

Lemma hex_fixed_app (n : nat) :
  forall v a c, hex_fixed n v (a +++ c) = hex_fixed n v a +++ c.
Proof.
  induction n as [|n IH]; intros v a c; [reflexivity|].
  cbn [hex_fixed]. exact (IH (v / 16) (String (digit_char (v mod 16)) a) c).
Qed.

Lemma zeros_app (n : nat) (a c : string) : zeros n (a +++ c) = zeros n a +++ c.
Proof. induction n as [|n IH]; [reflexivity | cbn; now rewrite IH]. Qed.

Lemma length_zeros (n : nat) (s : string) :
  String.length (zeros n s) = (n + String.length s)%nat.
Proof. induction n as [|n IH]; [reflexivity | cbn; now rewrite IH]. Qed.

(** Within the width, zero padding gives the fixed-width digits. *)
Lemma digits_fuel_fixed (k : nat) :
  forall fuel v acc,
    0 <= v < 16 ^ Z.of_nat (S k) ->
    v < 2 ^ Z.of_nat (S fuel) ->
    exists j,
      (j <= k)%nat
      /\ hex_fixed (S k) v acc = zeros j (digits_fuel 16 (S fuel) v acc)
      /\ String.length (digits_fuel 16 (S fuel) v acc)
         = (S k - j + String.length acc)%nat.
Proof.
  induction k as [|k IH]; intros fuel v acc Hv Hfuel.
  - exists 0%nat. change (16 ^ Z.of_nat 1) with 16 in Hv.
    cbn [hex_fixed digits_fuel zeros].
    replace (v <? 16) with true by (symmetry; apply Z.ltb_lt; lia).
    repeat split; lia.
  - cbn [digits_fuel]. destruct (v <? 16) eqn:Hlt.
    + apply Z.ltb_lt in Hlt. exists (S k).
      change (hex_fixed (S (S k)) v acc)
        with (hex_fixed (S k) (v / 16) (String (digit_char (v mod 16)) acc)).
      rewrite Z.div_small by lia. rewrite hex_fixed_zero.
      split; [lia|]. split; [reflexivity|]. cbn [String.length]. lia.
    + apply Z.ltb_ge in Hlt.
      assert (Hdiv : 0 <= v / 16 < 16 ^ Z.of_nat (S k)).
      { split; [apply Z.div_pos; lia|].
        apply Z.div_lt_upper_bound; [lia|].
        rewrite (Nat2Z.inj_succ (S k)), Z.pow_succ_r in Hv by lia. lia. }
      destruct fuel as [|fuel].
      { change (2 ^ Z.of_nat 1) with 2 in Hfuel. lia. }
      assert (Hf : v / 16 < 2 ^ Z.of_nat (S fuel)).
      { apply Z.div_lt_upper_bound; [lia|].
        rewrite (Nat2Z.inj_succ (S fuel)), Z.pow_succ_r in Hfuel by lia.
        pose proof (two_p_nat_pos (S fuel)). lia. }
      destruct (IH fuel (v / 16) (String (digit_char (v mod 16)) acc) Hdiv Hf)
        as [j [Hj [Heq Hlen]]].
      exists j. split; [lia|]. split.
      * exact Heq.
      * rewrite Hlen. cbn [String.length]. lia.
Qed.

Lemma fmt_hex_pad_fixed (n : nat) (v : Z) :
  (0 < n)%nat -> 0 <= v < 16 ^ Z.of_nat n ->
  fmt_hex_pad n v = hex_fixed n v "".
Proof.
  intros Hn Hv. destruct n as [|k]; [lia|].
  unfold fmt_hex_pad, pad_zero, digits_of.
  destruct (digits_fuel_fixed k (Z.to_nat (Z.log2 v)) v "" Hv
              (proj2 (log2_fuel v (proj1 Hv)))) as [j [Hj [Heq Hlen]]].
  rewrite Heq, Hlen. cbn [String.length].
  replace (S k - (S k - j + 0))%nat with j by lia. reflexivity.
Qed.

Lemma parse_hex_fixed (n : nat) :
  forall (m : nat) (v : Z) (s : string) (a : Z),
    0 <= v < 16 ^ Z.of_nat n ->
    parse_hex (n + m) (hex_fixed n v s) a
    = parse_hex m s (a * 16 ^ Z.of_nat n + v).
Proof.
  induction n as [|n IH]; intros m v s a Hv.
  - cbn in Hv. assert (v = 0) by lia. subst v. cbn [hex_fixed Nat.add].
    f_equal. cbn. lia.
  - cbn [hex_fixed].
    assert (Hmod : 0 <= v mod 16 < 16) by (apply Z.mod_pos_bound; lia).
    assert (Hdiv : 0 <= v / 16 < 16 ^ Z.of_nat n).
    { split; [apply Z.div_pos; lia|].
      apply Z.div_lt_upper_bound; [lia|].
      rewrite Nat2Z.inj_succ, Z.pow_succ_r in Hv by lia. lia. }
    replace (S n + m)%nat with (n + S m)%nat by lia.
    rewrite IH by exact Hdiv.
    cbn [parse_hex]. rewrite hex_digit_value_char by exact Hmod.
    f_equal. rewrite Nat2Z.inj_succ, Z.pow_succ_r by lia.
    pose proof (Z.div_mod v 16 ltac:(lia)). lia.
Qed.

(** Reading back a zero-padded hexadecimal group. *)
Lemma parse_hex_fmt (n : nat) (v : Z) (rest : string) :
  (0 < n)%nat -> 0 <= v < 16 ^ Z.of_nat n ->
  parse_hex n (fmt_hex_pad n v +++ rest) 0 = Some (v, rest).
Proof.
  intros Hn Hv. rewrite fmt_hex_pad_fixed by assumption.
  rewrite <- hex_fixed_app. cbn [String.append].
  pose proof (parse_hex_fixed n 0 v rest 0 Hv) as H.
  rewrite Nat.add_0_r in H. rewrite H. cbn [parse_hex]. f_equal.
Qed.

Lemma length_hex_fixed (n : nat) :
  forall v s, String.length (hex_fixed n v s) = (n + String.length s)%nat.
Proof.
  induction n as [|n IH]; intros v s; [reflexivity|].
  cbn [hex_fixed]. rewrite IH. cbn [String.length]. lia.
Qed.

Lemma length_append (a b : string) :
  String.length (a +++ b) = (String.length a + String.length b)%nat.
Proof. induction a as [|c a IH]; [reflexivity | cbn; now rewrite IH]. Qed.

Lemma land_ones_range (z : Z) (n : nat) (m : Z) :
  m = 2 ^ Z.of_nat (4 * n) - 1 ->
  0 <= Z.land z m < 16 ^ Z.of_nat n.
Proof.
  intros ->.
  replace (2 ^ Z.of_nat (4 * n) - 1) with (Z.ones (Z.of_nat (4 * n)))
    by (rewrite Z.ones_equiv; lia).
  rewrite Z.land_ones by lia.
  replace (16 ^ Z.of_nat n) with (2 ^ Z.of_nat (4 * n)).
  - apply Z.mod_pos_bound. apply two_p_nat_pos.
  - rewrite Nat2Z.inj_mul. change (Z.of_nat 4) with 4.
    rewrite Z.pow_mul_r by lia. reflexivity.
Qed.

Lemma uuid_groups_reassemble (x : duckdb_hugeint) :
  hugeint_in_range x ->
  to_signed 64
    (Z.land (Z.shiftr (upper x) 32) 4294967295 * two_p 32
     + Z.land (Z.shiftr (upper x) 16) 65535 * two_p 16
     + Z.land (upper x) 65535) = upper x
  /\ Z.land (Z.shiftr (lower x) 48) 65535 * two_p 48
     + Z.land (lower x) 281474976710655 = lower x.
Proof.
  unfold hugeint_in_range, two_p. intros [Hlo Hup].
  change (2 ^ 64) with 18446744073709551616 in *.
  change (2 ^ 63) with 9223372036854775808 in *.
  change 4294967295 with (Z.ones 32). change 65535 with (Z.ones 16).
  change 281474976710655 with (Z.ones 48).
  rewrite !Z.land_ones, !Z.shiftr_div_pow2 by lia.
  change (2 ^ 32) with 4294967296. change (2 ^ 16) with 65536.
  change (2 ^ 48) with 281474976710656.
  split.
  - unfold to_signed, two_p.
    change (2 ^ (64 - 1)) with 9223372036854775808.
    change (2 ^ 64) with 18446744073709551616.
    Z.div_mod_to_equations. lia.
  - Z.div_mod_to_equations. lia.
Qed.

Lemma uuid_string_parses (x : duckdb_hugeint) :
  parse_uuid (uuid_string x)
  = Some {| lower := Z.land (Z.shiftr (lower x) 48) 65535 * two_p 48
                     + Z.land (lower x) 281474976710655;
            upper := to_signed 64
                       (Z.land (Z.shiftr (upper x) 32) 4294967295 * two_p 32
                        + Z.land (Z.shiftr (upper x) 16) 65535 * two_p 16
                        + Z.land (upper x) 65535) |}.
Proof.
  unfold parse_uuid, uuid_string.
  rewrite parse_hex_fmt by (try lia; apply (land_ones_range _ 8); reflexivity).
  cbn [String.append expect_dash].
  rewrite parse_hex_fmt by (try lia; apply (land_ones_range _ 4); reflexivity).
  cbn [String.append expect_dash].
  rewrite parse_hex_fmt by (try lia; apply (land_ones_range _ 4); reflexivity).
  cbn [String.append expect_dash].
  rewrite parse_hex_fmt by (try lia; apply (land_ones_range _ 4); reflexivity).
  cbn [String.append expect_dash].
  rewrite <- (append_empty (fmt_hex_pad 12 _)).
  rewrite parse_hex_fmt by (try lia; apply (land_ones_range _ 12); reflexivity).
  reflexivity.
Qed.

Lemma length_fmt_hex_pad (n : nat) (v : Z) :
  (0 < n)%nat -> 0 <= v < 16 ^ Z.of_nat n ->
  String.length (fmt_hex_pad n v) = n.
Proof.
  intros Hn Hv. rewrite fmt_hex_pad_fixed by assumption.
  rewrite length_hex_fixed. cbn. lia.
Qed.

Lemma length_uuid_string (x : duckdb_hugeint) :
  String.length (uuid_string x) = 36%nat.
Proof.
  unfold uuid_string. rewrite !length_append.
  rewrite (length_fmt_hex_pad 8), (length_fmt_hex_pad 12), !(length_fmt_hex_pad 4);
    try lia; try reflexivity;
    first [ apply (land_ones_range _ 4); reflexivity
          | apply (land_ones_range _ 8); reflexivity
          | apply (land_ones_range _ 12); reflexivity ].
Qed.

(** C5: the UUID text of a 128-bit value is the 8-4-4-4-12 grouping of
    36 characters whose first group prints the upper 32 bits of the high
    word, and the parser of that grouping gives the value back:
    [parse_uuid (uuid_string x) = Some x] for every [x], the all-zero
    and the all-F UUID included; the vector path returns exactly this
    text for a non-null UUID cell. *)
Theorem uuid_round_trip (X : externals) :
  (forall x,
     hugeint_in_range x ->
     parse_uuid (uuid_string x) = Some x
     /\ String.length (uuid_string x) = 36%nat
     /\ exists rest,
          uuid_string x
          = fmt_hex_pad 8 ((upper x mod two_p 64) / two_p 32) +++ "-" +++ rest)
  /\ (forall vector row_idx,
        cell_is_nil vector DUCKDB_TYPE_UUID row_idx = false ->
        hugeint_in_range (read_hugeint (data_bytes vector) row_idx)
        /\ extract_vector_value X vector (LT_plain DUCKDB_TYPE_UUID) row_idx
           = TBinary (uuid_string (read_hugeint (data_bytes vector) row_idx)))
  /\ uuid_string {| lower := 0; upper := 0 |}
     = "00000000-0000-0000-0000-000000000000"
  /\ uuid_string {| lower := 18446744073709551615; upper := -1 |}
     = "ffffffff-ffff-ffff-ffff-ffffffffffff".
Proof.
  split; [|split; [|split; vm_compute; reflexivity]].
  - intros x Hx. split; [|split].
    + rewrite uuid_string_parses.
      destruct (uuid_groups_reassemble x Hx) as [-> ->].
      now destruct x.
    + apply length_uuid_string.
    + eexists. unfold uuid_string. f_equal. f_equal.
      destruct Hx as [_ Hup]. unfold two_p in *.
      change (2 ^ 63) with 9223372036854775808 in Hup.
      change 4294967295 with (Z.ones 32).
      rewrite Z.land_ones, Z.shiftr_div_pow2 by lia.
      change (2 ^ 32) with 4294967296.
      change (2 ^ 64) with 18446744073709551616.
      Z.div_mod_to_equations. lia.
  - intros vector row_idx Hcell. split.
    + destruct (read_hugeint_range (data_bytes vector) row_idx) as [Hlo Hup].
      split; [exact Hlo | exact Hup].
    + cbn [extract_vector_value duckdb_get_type_id]. now rewrite Hcell.
Qed.

Lemma uuid_round_trip_witness :
  hugeint_in_range {| lower := 11936128518282651045; upper := 81985529216486895 |}
  /\ uuid_string {| lower := 11936128518282651045; upper := 81985529216486895 |}
     = "01234567-89ab-cdef-a5a5-a5a5a5a5a5a5"
  /\ parse_uuid "01234567-89ab-cdef-a5a5-a5a5a5a5a5a5"
     = Some {| lower := 11936128518282651045; upper := 81985529216486895 |}.
Proof.
  assert (Hr : hugeint_in_range
                 {| lower := 11936128518282651045; upper := 81985529216486895 |}).
  { unfold hugeint_in_range, two_p. cbn [lower upper]. lia. }
  split; [exact Hr|].
  assert (Hs : uuid_string
                 {| lower := 11936128518282651045; upper := 81985529216486895 |}
               = "01234567-89ab-cdef-a5a5-a5a5a5a5a5a5")
    by (vm_compute; reflexivity).
  split; [exact Hs|].
  rewrite <- Hs.
  destruct (uuid_round_trip sample_externals) as [H _].
  exact (proj1 (H _ Hr)).
Defined.

(** ** NULL cells, lists, arrays and structs of a vector *)

(** A row whose validity bit is clear extracts to [nil] whatever the
    logical type, nested types included; so does any row of a primitive
    vector whose data pointer is [NULL]. *)
Theorem null_cell_is_nil
  (X : externals) (vector : duckdb_vector) (logical_type : duckdb_logical_type)
  (row_idx : nat) :
  (forall validity,
     duckdb_vector_get_validity vector = Some validity ->
     duckdb_validity_row_is_valid validity row_idx = false ->
     extract_vector_value X vector logical_type row_idx = atom_nil)
  /\ (duckdb_vector_get_data vector = None ->
      is_complex_type (duckdb_get_type_id logical_type) = false ->
      extract_vector_value X vector logical_type row_idx = atom_nil).
Proof.
  assert (Hnil : cell_is_nil vector (duckdb_get_type_id logical_type) row_idx
                 = true ->
                 extract_vector_value X vector logical_type row_idx = atom_nil).
  { intros H. destruct logical_type; cbn [extract_vector_value];
      rewrite H; reflexivity. }
  split.
  - intros validity Hv Hbit. apply Hnil. unfold cell_is_nil.
    rewrite Hv, Hbit. apply orb_true_r.
  - intros Hd Hprim. apply Hnil. unfold cell_is_nil. rewrite Hd, Hprim.
    reflexivity.
Qed.

Lemma null_cell_is_nil_witness :
  extract_vector_value sample_externals
    (Vector (Some [7; 0; 0; 0; 9; 0; 0; 0]) (Some [1]) [] [])
    (LT_plain DUCKDB_TYPE_INTEGER) 1 = atom_nil
  /\ extract_vector_value sample_externals
       (Vector (Some [7; 0; 0; 0; 9; 0; 0; 0]) (Some [1]) [] [])
       (LT_plain DUCKDB_TYPE_INTEGER) 0 = TInt 7.
Proof.
  split; [|reflexivity].
  destruct (null_cell_is_nil sample_externals
              (Vector (Some [7; 0; 0; 0; 9; 0; 0; 0]) (Some [1]) [] [])
              (LT_plain DUCKDB_TYPE_INTEGER) 1) as [H _].
  exact (H [1] eq_refl eq_refl).
Defined.

Lemma nth_error_map_seq {A : Type} (f : nat -> A) (n : nat) :
  forall s i, (i < n)%nat -> nth_error (map f (seq s n)) i = Some (f (s + i)%nat).
Proof.
  induction n as [|n IH]; intros s i Hi; [lia|].
  destruct i as [|i]; cbn.
  - now rewrite Nat.add_0_r.
  - rewrite IH by lia. f_equal. f_equal. lia.
Qed.

(** A non-null list cell of a vector with a data buffer extracts to
    the empty list when its entry has length 0 or the vector has no
    child.  Otherwise it extracts to [nil] when the array for its
    elements cannot be allocated, and else to a list of exactly
    [length] elements, the i-th being the child vector's cell at
    [offset + i]. *)
Theorem list_cell_elements
  (X : externals) (vector : duckdb_vector) (child_type : duckdb_logical_type)
  (row_idx : nat) (list_data : list Z)
  (Hcell : cell_is_nil vector DUCKDB_TYPE_LIST row_idx = false)
  (Hdata : duckdb_vector_get_data vector = Some list_data) :
  (snd (read_list_entry list_data row_idx) = 0%nat ->
   extract_vector_value X vector (LT_list child_type) row_idx = TList [])
  /\ (duckdb_list_vector_get_child vector = None ->
      extract_vector_value X vector (LT_list child_type) row_idx = TList [])
  /\ forall child_vector,
       snd (read_list_entry list_data row_idx) <> 0%nat ->
       duckdb_list_vector_get_child vector = Some child_vector ->
       (enif_alloc_succeeds X
          (sizeof_ERL_NIF_TERM
           * Z.of_nat (snd (read_list_entry list_data row_idx))) = false ->
        extract_vector_value X vector (LT_list child_type) row_idx = atom_nil)
       /\ (enif_alloc_succeeds X
             (sizeof_ERL_NIF_TERM
              * Z.of_nat (snd (read_list_entry list_data row_idx))) = true ->
           exists elems,
             extract_vector_value X vector (LT_list child_type) row_idx
             = TList elems
             /\ List.length elems = snd (read_list_entry list_data row_idx)
             /\ forall i,
                  (i < snd (read_list_entry list_data row_idx))%nat ->
                  nth_error elems i
                  = Some (extract_vector_value X child_vector child_type
                            (fst (read_list_entry list_data row_idx) + i))).
Proof.
  cbn [extract_vector_value duckdb_get_type_id]. rewrite Hcell, Hdata.
  destruct (read_list_entry list_data row_idx) as [offset len].
  cbn [fst snd]. unfold enif_make_list_from_array.
  split; [|split].
  - intros ->. reflexivity.
  - intros ->. now destruct (Nat.eqb len 0).
  - intros child_vector Hlen ->. apply Nat.eqb_neq in Hlen. rewrite Hlen.
    split; intros ->; cbn [negb]; [reflexivity|].
    eexists. split; [reflexivity|]. split.
    + now rewrite length_map, length_seq.
    + intros i Hi. now rewrite nth_error_map_seq.
Qed.

Lemma list_cell_elements_witness :
  cell_is_nil
    (Vector (Some (le_bytes 8 1 ++ le_bytes 8 2)) None []
            [int32_vector [5; 6; 7]]) DUCKDB_TYPE_LIST 0 = false
  /\ extract_vector_value sample_externals
       (Vector (Some (le_bytes 8 1 ++ le_bytes 8 2)) None []
               [int32_vector [5; 6; 7]])
       (LT_list (LT_plain DUCKDB_TYPE_INTEGER)) 0
     = TList [TInt 6; TInt 7]
  /\ extract_vector_value out_of_memory_externals
       (Vector (Some (le_bytes 8 1 ++ le_bytes 8 2)) None []
               [int32_vector [5; 6; 7]])
       (LT_list (LT_plain DUCKDB_TYPE_INTEGER)) 0
     = atom_nil.
Proof.
  split; [reflexivity|].
  destruct (list_cell_elements sample_externals
              (Vector (Some (le_bytes 8 1 ++ le_bytes 8 2)) None []
                      [int32_vector [5; 6; 7]])
              (LT_plain DUCKDB_TYPE_INTEGER) 0
              (le_bytes 8 1 ++ le_bytes 8 2) eq_refl eq_refl)
    as [_ [_ Hok]].
  destruct (list_cell_elements out_of_memory_externals
              (Vector (Some (le_bytes 8 1 ++ le_bytes 8 2)) None []
                      [int32_vector [5; 6; 7]])
              (LT_plain DUCKDB_TYPE_INTEGER) 0
              (le_bytes 8 1 ++ le_bytes 8 2) eq_refl eq_refl)
    as [_ [_ Hoom]].
  split.
  - destruct (proj2 (Hok (int32_vector [5; 6; 7])
                       ltac:(vm_compute; discriminate) eq_refl) eq_refl)
      as [elems [Hex _]].
    rewrite Hex. revert Hex. vm_compute. intros H. exact (eq_sym H).
  - exact (proj1 (Hoom (int32_vector [5; 6; 7])
                    ltac:(vm_compute; discriminate) eq_refl) eq_refl).
Defined.

(** A non-null array cell extracts to the empty list when the size is
    0 or the vector has no child.  Otherwise it extracts to [nil] when
    the array for its elements cannot be allocated, and else to a list
    of exactly [array_size] elements, the i-th being the child vector's
    cell at [row_idx * array_size + i]. *)
Theorem array_cell_elements
  (X : externals) (vector : duckdb_vector) (child_type : duckdb_logical_type)
  (array_size row_idx : nat)
  (Hcell : cell_is_nil vector DUCKDB_TYPE_ARRAY row_idx = false) :
  (array_size = 0%nat ->
   extract_vector_value X vector (LT_array child_type array_size) row_idx
   = TList [])
  /\ (duckdb_list_vector_get_child vector = None ->
      extract_vector_value X vector (LT_array child_type array_size) row_idx
      = TList [])
  /\ forall child_vector,
       array_size <> 0%nat ->
       duckdb_list_vector_get_child vector = Some child_vector ->
       (enif_alloc_succeeds X (sizeof_ERL_NIF_TERM * Z.of_nat array_size)
        = false ->
        extract_vector_value X vector (LT_array child_type array_size) row_idx
        = atom_nil)
       /\ (enif_alloc_succeeds X (sizeof_ERL_NIF_TERM * Z.of_nat array_size)
           = true ->
           exists elems,
             extract_vector_value X vector (LT_array child_type array_size)
               row_idx
             = TList elems
             /\ List.length elems = array_size
             /\ forall i,
                  (i < array_size)%nat ->
                  nth_error elems i
                  = Some (extract_vector_value X child_vector child_type
                            (row_idx * array_size + i))).
Proof.
  cbn [extract_vector_value duckdb_get_type_id]. rewrite Hcell.
  unfold enif_make_list_from_array.
  split; [|split].
  - intros ->. reflexivity.
  - intros ->. now destruct (Nat.eqb array_size 0).
  - intros child_vector Hsz ->. apply Nat.eqb_neq in Hsz. rewrite Hsz.
    split; intros ->; cbn [negb]; [reflexivity|].
    eexists. split; [reflexivity|]. split.
    + now rewrite length_map, length_seq.
    + intros i Hi. now rewrite nth_error_map_seq.
Qed.

Lemma array_cell_elements_witness :
  cell_is_nil (Vector None None [] [int32_vector [5; 6; 7; 8]])
    DUCKDB_TYPE_ARRAY 1 = false
  /\ extract_vector_value sample_externals
       (Vector None None [] [int32_vector [5; 6; 7; 8]])
       (LT_array (LT_plain DUCKDB_TYPE_INTEGER) 2) 1
     = TList [TInt 7; TInt 8]
  /\ extract_vector_value out_of_memory_externals
       (Vector None None [] [int32_vector [5; 6; 7; 8]])
       (LT_array (LT_plain DUCKDB_TYPE_INTEGER) 2) 1
     = atom_nil.
Proof.
  split; [reflexivity|].
  destruct (array_cell_elements sample_externals
              (Vector None None [] [int32_vector [5; 6; 7; 8]])
              (LT_plain DUCKDB_TYPE_INTEGER) 2 1 eq_refl)
    as [_ [_ Hok]].
  destruct (array_cell_elements out_of_memory_externals
              (Vector None None [] [int32_vector [5; 6; 7; 8]])
              (LT_plain DUCKDB_TYPE_INTEGER) 2 1 eq_refl)
    as [_ [_ Hoom]].
  split.
  - destruct (proj2 (Hok (int32_vector [5; 6; 7; 8])
                       ltac:(discriminate) eq_refl) eq_refl)
      as [elems [Hex _]].
    rewrite Hex. revert Hex. vm_compute. intros H. exact (eq_sym H).
  - exact (proj1 (Hoom (int32_vector [5; 6; 7; 8])
                    ltac:(discriminate) eq_refl) eq_refl).
Defined.

(** ** Struct cells *)

Lemma struct_entries_eq
  (X : externals) (vector : duckdb_vector) (row_idx : nat)
  (children : list (option string * duckdb_logical_type)) :
  forall i,
    (fix go (cs : list (option string * duckdb_logical_type)) (i : nat)
       {struct cs} : option (list (term * term)) :=
       match cs with
       | [] => Some []
       | (None, _) :: _ => None
       | (Some child_name, child_type) :: cs' =>
           let key := enif_make_binary child_name in
           let value :=
             extract_vector_value X (duckdb_struct_vector_get_child vector i)
               child_type row_idx in
           match go cs' (S i) with
           | Some rest => Some ((key, value) :: rest)
           | None => None
           end
       end) children i
    = struct_cell_entries X vector children i row_idx.
Proof.
  induction children as [|[[name|] ty] cs IH]; intros i; try reflexivity.
  cbn [struct_cell_entries]. now rewrite IH.
Qed.

Lemma struct_case_eq
  (X : externals) (vector : duckdb_vector)
  (children : list (option string * duckdb_logical_type)) (row_idx : nat) :
  cell_is_nil vector DUCKDB_TYPE_STRUCT row_idx = false ->
  children <> [] ->
  extract_vector_value X vector (LT_struct children) row_idx
  = if enif_alloc_succeeds X
         (sizeof_ERL_NIF_TERM * Z.of_nat (List.length children))
    then
      match struct_cell_entries X vector children 0 row_idx with
      | None => atom_nil
      | Some entries =>
          match enif_make_map_from_arrays (map fst entries) (map snd entries)
          with
          | Some result_map => result_map
          | None => TAtom "struct_conversion_failed"
          end
      end
    else atom_nil.
Proof.
  intros Hcell Hne. cbn [extract_vector_value duckdb_get_type_id].
  rewrite Hcell. destruct children as [|c cs]; [contradiction|].
  rewrite struct_entries_eq.
  now destruct (enif_alloc_succeeds X
                  (sizeof_ERL_NIF_TERM * Z.of_nat (List.length (c :: cs)))).
Qed.

(** The loop stops at a field without a name; with every field named
    it collects the names with the cells of the fields. *)
Lemma struct_entries_unnamed
  (X : externals) (vector : duckdb_vector) (row_idx : nat)
  (children : list (option string * duckdb_logical_type)) :
  forall i,
    In None (map fst children) ->
    struct_cell_entries X vector children i row_idx = None.
Proof.
  induction children as [|[[name|] ty] cs IH]; intros i Hin.
  - destruct Hin.
  - cbn [struct_cell_entries]. rewrite IH; [reflexivity|].
    destruct Hin as [Hin|Hin]; [discriminate Hin | exact Hin].
  - reflexivity.
Qed.

Lemma struct_entries_named
  (X : externals) (vector : duckdb_vector) (row_idx : nat)
  (children : list (option string * duckdb_logical_type)) :
  forall (names : list string) i,
    map fst children = map Some names ->
    struct_cell_entries X vector children i row_idx
    = Some (combine (map enif_make_binary names)
                    (struct_cell_values X vector children i row_idx))
    /\ List.length (struct_cell_values X vector children i row_idx)
       = List.length names.
Proof.
  induction children as [|[[name|] ty] cs IH]; intros [|n names] i Hn;
    try discriminate Hn.
  - split; reflexivity.
  - cbn in Hn. injection Hn as <- Hn.
    cbn [struct_cell_entries struct_cell_values].
    destruct (IH names (S i) Hn) as [-> Hlen]. split; [reflexivity|].
    cbn. now rewrite Hlen.
Qed.

Lemma struct_cell_values_nth
  (X : externals) (vector : duckdb_vector) (row_idx : nat)
  (children : list (option string * duckdb_logical_type)) :
  forall i k name child_type,
    nth_error children k = Some (name, child_type) ->
    nth_error (struct_cell_values X vector children i row_idx) k
    = Some (extract_vector_value X
              (duckdb_struct_vector_get_child vector (i + k))
              child_type row_idx).
Proof.
  induction children as [|[n0 t0] cs IH]; intros i k name child_type Hk.
  - destruct k; discriminate Hk.
  - destruct k as [|k]; cbn in Hk |- *.
    + injection Hk as -> ->. now rewrite Nat.add_0_r.
    + rewrite (IH (S i) k name child_type Hk). do 3 f_equal. lia.
Qed.

Lemma map_snd_combine {A B : Type} (l : list A) :
  forall (l' : list B),
    List.length l = List.length l' -> map snd (combine l l') = l'.
Proof.
  induction l as [|a l IH]; intros [|b l'] Hlen; try discriminate Hlen;
    [reflexivity|].
  cbn. f_equal. apply IH. now injection Hlen.
Qed.

Lemma binary_keys_distinct (names : list string) :
  NoDup names -> pairwise_distinct (map enif_make_binary names).
Proof.
  intros Hnd i j a b Hij Ha Hb.
  rewrite nth_error_map in Ha, Hb.
  destruct (nth_error names i) as [x|] eqn:Hx; [|discriminate Ha].
  destruct (nth_error names j) as [y|] eqn:Hy; [|discriminate Hb].
  injection Ha as <-. injection Hb as <-. cbn [enif_make_binary term_eqb].
  apply String.eqb_neq. intros ->.
  apply Hij. exact (proj1 (NoDup_nth_error names) Hnd i j
                      ltac:(apply nth_error_Some; congruence)
                      ltac:(congruence)).
Qed.

Lemma repeated_name_found (names : list string) :
  ~ NoDup names ->
  exists i j a,
    (i < j)%nat /\ nth_error names i = Some a /\ nth_error names j = Some a.
Proof.
  induction names as [|a l IH]; intros Hdup; [elim Hdup; constructor|].
  destruct (in_dec string_dec a l) as [Hin|Hnotin].
  - apply In_nth_error in Hin. destruct Hin as [j Hj].
    exists 0%nat, (S j), a. repeat split; [lia | exact Hj].
  - destruct IH as [i [j [b [Hij [Hi Hj]]]]].
    + intros Hnd. apply Hdup. now constructor.
    + exists (S i), (S j), b. repeat split; [lia | exact Hi | exact Hj].
Qed.

(** A non-null struct cell with no field extracts to the empty map.
    With fields it extracts to [nil] when the arrays for its keys and
    values cannot be allocated, or when the engine gives no name for
    one of the fields.  Otherwise, with pairwise distinct names, it
    extracts to the map that holds, under each field name, the cell of
    that field's child vector at the same row; and when two fields
    share a name, to the atom [struct_conversion_failed]. *)
Theorem struct_cell_fields
  (X : externals) (vector : duckdb_vector)
  (children : list (option string * duckdb_logical_type)) (row_idx : nat)
  (Hcell : cell_is_nil vector DUCKDB_TYPE_STRUCT row_idx = false) :
  (children = [] ->
   extract_vector_value X vector (LT_struct children) row_idx = TMap [])
  /\ (children <> [] ->
      enif_alloc_succeeds X
        (sizeof_ERL_NIF_TERM * Z.of_nat (List.length children)) = false ->
      extract_vector_value X vector (LT_struct children) row_idx = atom_nil)
  /\ (In None (map fst children) ->
      extract_vector_value X vector (LT_struct children) row_idx = atom_nil)
  /\ (forall names,
      children <> [] ->
      enif_alloc_succeeds X
        (sizeof_ERL_NIF_TERM * Z.of_nat (List.length children)) = true ->
      map fst children = map Some names ->
      (NoDup names ->
       exists pairs,
         extract_vector_value X vector (LT_struct children) row_idx = TMap pairs
         /\ map fst pairs = map TBinary names
         /\ forall k name child_type,
              nth_error children k = Some (Some name, child_type) ->
              map_get (TBinary name) pairs
              = Some (extract_vector_value X
                        (duckdb_struct_vector_get_child vector k)
                        child_type row_idx))
      /\ (~ NoDup names ->
          extract_vector_value X vector (LT_struct children) row_idx
          = TAtom "struct_conversion_failed")).
Proof.
  split; [|split; [|split]].
  - intros ->. cbn [extract_vector_value duckdb_get_type_id].
    now rewrite Hcell.
  - intros Hne Hal. now rewrite struct_case_eq, Hal by assumption.
  - intros Hin.
    assert (Hne : children <> []) by (intros ->; destruct Hin).
    rewrite struct_case_eq by assumption.
    rewrite (struct_entries_unnamed X vector row_idx children 0 Hin).
    now destruct (enif_alloc_succeeds X _).
  - intros names Hne Hal Hnames.
    rewrite struct_case_eq, Hal by assumption.
    destruct (struct_entries_named X vector row_idx children names 0 Hnames)
      as [-> Hlen].
    assert (Hkv : List.length (map enif_make_binary names)
                  = List.length (struct_cell_values X vector children 0 row_idx))
      by now rewrite length_map, Hlen.
    rewrite (map_fst_combine _ _ Hkv), (map_snd_combine _ _ Hkv).
    unfold enif_make_map_from_arrays. split.
    + intros Hnd.
      pose proof (binary_keys_distinct names Hnd) as Hd.
      rewrite (has_duplicate_key_distinct _ Hd).
      eexists. split; [reflexivity|]. split.
      * exact (map_fst_combine _ _ Hkv).
      * intros k name ty Hk.
        apply (map_get_combine _ _ k); [exact Hd | |].
        -- rewrite nth_error_map.
           assert (Hn : nth_error (map fst children) k = Some (Some name))
             by now rewrite nth_error_map, Hk.
           rewrite Hnames, nth_error_map in Hn.
           destruct (nth_error names k); [|discriminate Hn].
           now injection Hn as ->.
        -- exact (struct_cell_values_nth X vector row_idx children 0 k
                    (Some name) ty Hk).
    + intros Hdup.
      destruct (repeated_name_found names Hdup) as [i [j [a [Hij [Hi Hj]]]]].
      rewrite (has_duplicate_key_found _ i j (TBinary a) (TBinary a) Hij);
        [reflexivity | | | apply term_eqb_refl];
        now rewrite nth_error_map, ?Hi, ?Hj.
Qed.

Lemma struct_cell_fields_witness :
  cell_is_nil (Vector None None [] [int32_vector [5]; int32_vector [9]])
    DUCKDB_TYPE_STRUCT 0 = false
  /\ extract_vector_value sample_externals
       (Vector None None [] [int32_vector [5]; int32_vector [9]])
       (LT_struct [(Some "a", LT_plain DUCKDB_TYPE_INTEGER);
                   (Some "b", LT_plain DUCKDB_TYPE_INTEGER)]) 0
     = TMap [(TBinary "a", TInt 5); (TBinary "b", TInt 9)]
  /\ extract_vector_value sample_externals
       (Vector None None [] [int32_vector [5]; int32_vector [9]])
       (LT_struct [(Some "a", LT_plain DUCKDB_TYPE_INTEGER);
                   (Some "a", LT_plain DUCKDB_TYPE_INTEGER)]) 0
     = TAtom "struct_conversion_failed"
  /\ extract_vector_value sample_externals
       (Vector None None [] [int32_vector [5]; int32_vector [9]])
       (LT_struct [(Some "a", LT_plain DUCKDB_TYPE_INTEGER);
                   (None, LT_plain DUCKDB_TYPE_INTEGER)]) 0
     = atom_nil
  /\ extract_vector_value out_of_memory_externals
       (Vector None None [] [int32_vector [5]; int32_vector [9]])
       (LT_struct [(Some "a", LT_plain DUCKDB_TYPE_INTEGER);
                   (Some "b", LT_plain DUCKDB_TYPE_INTEGER)]) 0
     = atom_nil.
Proof.
  split; [reflexivity|]. split; [reflexivity|].
  split; [|split].
  - destruct (struct_cell_fields sample_externals
                (Vector None None [] [int32_vector [5]; int32_vector [9]])
                [(Some "a", LT_plain DUCKDB_TYPE_INTEGER);
                 (Some "a", LT_plain DUCKDB_TYPE_INTEGER)] 0 eq_refl)
      as [_ [_ [_ H]]].
    apply (H ["a"; "a"]); [discriminate | reflexivity | reflexivity|].
    intros Hnd. inversion Hnd as [|x l Hnotin _]. apply Hnotin. now left.
  - destruct (struct_cell_fields sample_externals
                (Vector None None [] [int32_vector [5]; int32_vector [9]])
                [(Some "a", LT_plain DUCKDB_TYPE_INTEGER);
                 (None, LT_plain DUCKDB_TYPE_INTEGER)] 0 eq_refl)
      as [_ [_ [H _]]].
    apply H. right. now left.
  - destruct (struct_cell_fields out_of_memory_externals
                (Vector None None [] [int32_vector [5]; int32_vector [9]])
                [(Some "a", LT_plain DUCKDB_TYPE_INTEGER);
                 (Some "b", LT_plain DUCKDB_TYPE_INTEGER)] 0 eq_refl)
      as [_ [H _]].
    apply H; [discriminate | reflexivity].
Defined.

(** ** Chunk materializer *)

Lemma chunk_raises_cell (X : externals) (chunk : duckdb_data_chunk) :
  chunk_raises X chunk = true
  <-> exists r c vector logical_type,
        (r < duckdb_data_chunk_get_size chunk)%nat
        /\ nth_error (chunk_columns chunk) c = Some (vector, logical_type)
        /\ extract_vector_raises X vector logical_type r = true.
Proof.
  unfold chunk_raises. rewrite existsb_exists. split.
  - intros [r [Hr Hex]]. apply in_seq in Hr.
    apply existsb_exists in Hex. destruct Hex as [[vector ty] [Hin Hraise]].
    apply In_nth_error in Hin. destruct Hin as [c Hc].
    exists r, c, vector, ty. repeat split; [lia | exact Hc | exact Hraise].
  - intros [r [c [vector [ty [Hr [Hc Hraise]]]]]].
    exists r. split; [apply in_seq; lia|].
    apply existsb_exists. exists (vector, ty).
    split; [eapply nth_error_In; exact Hc | exact Hraise].
Qed.

(** Take a chunk the extraction of whose cells is defined.  The chunk
    NIF raises [badarg] as soon as the extraction of one of the cells
    reaches [enif_make_badarg], as it does for a FLOAT or DOUBLE cell
    that holds a NaN or an infinity.  When no cell does, a chunk of no
    rows materializes to the empty list, and any other to one tuple per
    row of the chunk, in row order, each with one value per column, in
    column order: the value at row r and column c is what the extractor
    returns for column c's vector at row r. *)
Theorem chunk_rows_and_columns (X : externals) (chunk : duckdb_data_chunk)
  (Hdef : chunk_defined X chunk = true) :
  (forall r c vector logical_type,
     (r < duckdb_data_chunk_get_size chunk)%nat ->
     nth_error (chunk_columns chunk) c = Some (vector, logical_type) ->
     extract_vector_raises X vector logical_type r = true ->
     data_chunk_get_data X chunk = enif_make_badarg)
  /\ (forall r c vector type_id,
        (r < duckdb_data_chunk_get_size chunk)%nat ->
        nth_error (chunk_columns chunk) c = Some (vector, LT_plain type_id) ->
        extract_vector_value X vector (LT_plain type_id) r = enif_make_badarg ->
        data_chunk_get_data X chunk = enif_make_badarg)
  /\ ((forall r c vector logical_type,
         (r < duckdb_data_chunk_get_size chunk)%nat ->
         nth_error (chunk_columns chunk) c = Some (vector, logical_type) ->
         extract_vector_raises X vector logical_type r = false) ->
      exists rows,
        data_chunk_get_data X chunk = TList rows
        /\ List.length rows = duckdb_data_chunk_get_size chunk
        /\ forall r,
             (r < duckdb_data_chunk_get_size chunk)%nat ->
             exists cells,
               nth_error rows r = Some (TTuple cells)
               /\ List.length cells = List.length (chunk_columns chunk)
               /\ forall c vector logical_type,
                    nth_error (chunk_columns chunk) c
                    = Some (vector, logical_type) ->
                    nth_error cells c
                    = Some (extract_vector_value X vector logical_type r)).
Proof.
  assert (Hraise : forall r c vector logical_type,
             (r < duckdb_data_chunk_get_size chunk)%nat ->
             nth_error (chunk_columns chunk) c = Some (vector, logical_type) ->
             extract_vector_raises X vector logical_type r = true ->
             data_chunk_get_data X chunk = enif_make_badarg).
  { intros r c vector ty Hr Hc Hx. unfold data_chunk_get_data.
    replace (Nat.eqb (duckdb_data_chunk_get_size chunk) 0) with false
      by (symmetry; apply Nat.eqb_neq; lia).
    cbv zeta.
    now rewrite (proj2 (chunk_raises_cell X chunk)
                   (ex_intro _ r (ex_intro _ c (ex_intro _ vector
                      (ex_intro _ ty (conj Hr (conj Hc Hx))))))). }
  split; [exact Hraise|]. split.
  - intros r c vector type_id Hr Hc Hv.
    apply (Hraise r c vector (LT_plain type_id) Hr Hc).
    revert Hv. cbn [extract_vector_value extract_vector_raises
                      duckdb_get_type_id].
    destruct (cell_is_nil vector type_id r); [discriminate|].
    now intros ->.
  - intros Hquiet.
    assert (Hno : chunk_raises X chunk = false).
    { destruct (chunk_raises X chunk) eqn:Hx; [|reflexivity].
      apply chunk_raises_cell in Hx.
      destruct Hx as [r [c [vector [ty [Hr [Hc Hx]]]]]].
      rewrite (Hquiet r c vector ty Hr Hc) in Hx. discriminate Hx. }
    unfold data_chunk_get_data, enif_make_list_from_array,
      enif_make_tuple_from_array.
    rewrite Hno.
    destruct (Nat.eqb (duckdb_data_chunk_get_size chunk) 0) eqn:Hsz.
    + apply Nat.eqb_eq in Hsz. exists []. rewrite Hsz.
      repeat split. intros r Hr. lia.
    + eexists. split; [reflexivity|]. split.
      * now rewrite length_map, length_seq.
      * intros r Hr. eexists. split.
        -- rewrite nth_error_map_seq by exact Hr. reflexivity.
        -- split; [now rewrite length_map|].
           intros c vector logical_type Hc.
           rewrite nth_error_map, Hc. reflexivity.
Qed.

Lemma chunk_rows_and_columns_witness :
  chunk_defined sample_externals
    {| duckdb_data_chunk_get_size := 2;
       chunk_columns :=
         [(int32_vector [1; 2], LT_plain DUCKDB_TYPE_INTEGER);
          (double_bits_vector [9221120237041090560; 0],
           LT_plain DUCKDB_TYPE_DOUBLE)] |} = true
  /\ data_chunk_get_data sample_externals
       {| duckdb_data_chunk_get_size := 2;
          chunk_columns :=
            [(int32_vector [1; 2], LT_plain DUCKDB_TYPE_INTEGER);
             (double_bits_vector [9221120237041090560; 0],
              LT_plain DUCKDB_TYPE_DOUBLE)] |}
     = enif_make_badarg
  /\ data_chunk_get_data sample_externals
       {| duckdb_data_chunk_get_size := 2;
          chunk_columns :=
            [(int32_vector [1; 2], LT_plain DUCKDB_TYPE_INTEGER)] |}
     = TList [TTuple [TInt 1]; TTuple [TInt 2]].
Proof.
  split; [reflexivity|]. split.
  - exact (proj1 (proj2 (chunk_rows_and_columns sample_externals
            {| duckdb_data_chunk_get_size := 2;
               chunk_columns :=
                 [(int32_vector [1; 2], LT_plain DUCKDB_TYPE_INTEGER);
                  (double_bits_vector [9221120237041090560; 0],
                   LT_plain DUCKDB_TYPE_DOUBLE)] |} eq_refl))
            0%nat 1%nat (double_bits_vector [9221120237041090560; 0])
            DUCKDB_TYPE_DOUBLE ltac:(cbn; lia) eq_refl
            ltac:(vm_compute; reflexivity)).
  - destruct (proj2 (proj2 (chunk_rows_and_columns sample_externals
            {| duckdb_data_chunk_get_size := 2;
               chunk_columns :=
                 [(int32_vector [1; 2], LT_plain DUCKDB_TYPE_INTEGER)] |}
            eq_refl)))
      as [rows [Hrows _]].
    + intros r c vector ty Hr Hc. cbn in Hr.
      destruct c as [|[|c]]; cbn in Hc; try discriminate Hc.
      injection Hc as <- <-.
      destruct r as [|[|r]]; [reflexivity | reflexivity | lia].
    + rewrite Hrows. revert Hrows. vm_compute. intros H. exact (eq_sym H).
Defined.

(** ** Row materializer: shape, NULLs and integers *)

(** The row materializer returns one tuple per row, in row order, each
    with one value per column; and a cell the engine reports as NULL is
    always [nil], whatever the column type. *)
Theorem result_rows_shape (X : externals) (res : duckdb_result) :
  exists rows,
    result_rows X res = TList rows
    /\ List.length rows = duckdb_row_count res
    /\ forall r,
         (r < duckdb_row_count res)%nat ->
         exists cells,
           nth_error rows r = Some (TTuple cells)
           /\ List.length cells = duckdb_column_count res
           /\ forall c,
                (c < duckdb_column_count res)%nat ->
                duckdb_value_is_null res c r = true ->
                nth_error cells c = Some atom_nil.
Proof.
  unfold result_rows, enif_make_list_from_array.
  eexists. split; [reflexivity|]. split.
  - now rewrite length_map, length_seq.
  - intros r Hr. rewrite nth_error_map_seq by exact Hr. cbn [Nat.add].
    unfold result_rows_row, enif_make_tuple_from_array.
    eexists. split; [reflexivity|].
    destruct (has_uuid res && Nat.ltb 1 (duckdb_column_count res))%bool.
    + split; [now rewrite length_map, length_seq|].
      intros c Hc _. now rewrite nth_error_map_seq.
    + split; [now rewrite length_map, length_seq|].
      intros c Hc Hnull. rewrite nth_error_map_seq by exact Hc.
      cbn [Nat.add]. unfold result_rows_cell. now rewrite Hnull.
Qed.

Lemma strtoull_on_digit (c : ascii) (rest : string) :
  starts_with_digit (String c rest) = true ->
  strtoull (String c rest)
  = (if ULLONG_MAX <? fst (parse_digits (String c rest) 0) then ULLONG_MAX
     else fst (parse_digits (String c rest) 0),
     snd (parse_digits (String c rest) 0)).
Proof.
  intros H. unfold strtoull.
  assert (Hs : is_space c = false).
  { destruct c as [[] [] [] [] [] [] [] []]; vm_compute in H;
      try discriminate H; reflexivity. }
  cbn [skip_spaces]. rewrite Hs. cbv beta iota.
  remember (parse_digits (String c rest) 0) as P eqn:HP.
  remember (starts_with_digit (String c rest)) as S eqn:HS.
  destruct c as [[] [] [] [] [] [] [] []]; vm_compute in HS; subst S;
    try discriminate H; cbv beta iota;
    change (starts_with_digit (String _ rest)) with true; cbv beta iota;
    rewrite <- ?HP; destruct P as [v r]; cbn [fst snd];
    destruct (ULLONG_MAX <? v); reflexivity.
Qed.

Lemma strtoull_digits (n : Z) :
  0 <= n <= ULLONG_MAX -> strtoull (digits_of 10 n) = (n, "").
Proof.
  intros Hn.
  pose proof (parse_digits_of_alone n (proj1 Hn)) as Hparse.
  destruct (digits_of_head n (proj1 Hn)) as [d [rest [Hd Heq]]].
  revert Hparse. rewrite Heq. intros Hparse.
  rewrite strtoull_on_digit
    by (cbn [starts_with_digit]; now rewrite decimal_digit_char).
  rewrite Hparse. cbn [fst snd].
  replace (ULLONG_MAX <? n) with false by (symmetry; apply Z.ltb_ge; lia).
  reflexivity.
Qed.

Lemma to_signed_id (w z : Z) :
  0 < w -> - 2 ^ (w - 1) <= z < 2 ^ (w - 1) -> to_signed w z = z.
Proof.
  intros Hw Hz. unfold to_signed, two_p.
  assert (H2 : 2 ^ w = 2 * 2 ^ (w - 1)).
  { rewrite <- Z.pow_succ_r by lia. f_equal. lia. }
  rewrite Z.mod_small by lia. lia.
Qed.

Lemma to_signed_range (w z : Z) :
  0 < w -> - 2 ^ (w - 1) <= to_signed w z < 2 ^ (w - 1).
Proof.
  intros Hw. unfold to_signed, two_p.
  assert (H2 : 2 ^ w = 2 * 2 ^ (w - 1)).
  { rewrite <- Z.pow_succ_r by lia. f_equal. lia. }
  assert (Hp : 0 < 2 ^ w) by (apply Z.pow_pos_nonneg; lia).
  pose proof (Z.mod_pos_bound (z + 2 ^ (w - 1)) (2 ^ w) Hp). lia.
Qed.

(** The row path reads integers back from the engine's text without
    loss: for each of the eight integer column types and each value of
    that type's range, a non-null cell the engine renders in decimal
    comes out as exactly that integer. *)
Theorem row_integer_cells
  (X : externals) (res : duckdb_result) (c r : nat) (v lo hi : Z)
  (Hnn : duckdb_value_is_null res c r = false)
  (Hty : int_column_range (duckdb_column_type res c) = Some (lo, hi))
  (Hv : lo <= v <= hi)
  (Hstr : duckdb_value_varchar res c r = Some (fmt_signed v)) :
  result_rows_cell X res c r = TInt v.
Proof.
  unfold result_rows_cell. rewrite Hnn, Hstr.
  destruct (fmt_signed_reads_back v) as [Hll _].
  assert (Hull : 0 <= v <= ULLONG_MAX -> strtoull (fmt_signed v) = (v, "")).
  { intros H. unfold fmt_signed.
    replace (v <? 0) with false by (symmetry; apply Z.ltb_ge; lia).
    now apply strtoull_digits. }
  assert (Hclamp : LLONG_MIN <= v <= LLONG_MAX ->
                   clamp LLONG_MIN LLONG_MAX v = v).
  { intros H. unfold clamp.
    replace (v <? LLONG_MIN) with false by (symmetry; apply Z.ltb_ge; lia).
    replace (LLONG_MAX <? v) with false by (symmetry; apply Z.ltb_ge; lia).
    reflexivity. }
  unfold strtol, strtoul.
  destruct (duckdb_column_type res c); try discriminate Hty;
    cbn [is_uuid_type]; injection Hty as <- <-;
    unfold INT_MIN, INT_MAX, LLONG_MIN, LLONG_MAX, ULLONG_MAX in *;
    rewrite ?Hll, ?Hull by lia; cbn [fst];
    rewrite ?Hclamp by lia;
    unfold enif_make_int, enif_make_long, enif_make_uint, enif_make_uint64;
    f_equal.
  - apply to_signed_id; [lia|]. change (2 ^ (8 - 1)) with 128. lia.
  - apply to_signed_id; [lia|]. change (2 ^ (16 - 1)) with 32768. lia.
  - apply to_signed_id; [lia|]. change (2 ^ (32 - 1)) with 2147483648. lia.
  - unfold to_unsigned, two_p. change (2 ^ 8) with 256.
    apply Z.mod_small. lia.
  - unfold to_unsigned, two_p. change (2 ^ 16) with 65536.
    apply Z.mod_small. lia.
  - unfold to_unsigned, two_p. change (2 ^ 32) with 4294967296.
    apply Z.mod_small. lia.
Qed.

Lemma row_integer_cells_witness :
  result_rows_cell sample_externals
    (text_result DUCKDB_TYPE_TINYINT ["-128"]) 0 0 = TInt (-128)
  /\ result_rows_cell sample_externals
       (text_result DUCKDB_TYPE_UBIGINT ["18446744073709551615"]) 0 0
     = TInt 18446744073709551615.
Proof.
  split.
  - exact (row_integer_cells sample_externals
             (text_result DUCKDB_TYPE_TINYINT ["-128"]) 0 0 (-128) (-128) 127
             eq_refl eq_refl ltac:(lia) eq_refl).
  - exact (row_integer_cells sample_externals
             (text_result DUCKDB_TYPE_UBIGINT ["18446744073709551615"]) 0 0
             18446744073709551615 0 ULLONG_MAX
             eq_refl eq_refl ltac:(unfold ULLONG_MAX; lia) eq_refl).
Defined.

(** ** Integers, tick timestamps and unsigned hugeints of a vector *)

Lemma read_signed_range (size : nat) (d : list Z) (idx : nat) :
  (0 < size)%nat ->
  - 2 ^ (8 * Z.of_nat size - 1) <= read_signed size d idx
  < 2 ^ (8 * Z.of_nat size - 1).
Proof. intros H. unfold read_signed. apply to_signed_range. lia. Qed.

Lemma read_unsigned_range (size : nat) (d : list Z) (idx : nat) :
  0 <= read_unsigned size d idx < 256 ^ Z.of_nat size.
Proof. apply load_le_range. Qed.

(** Whatever bytes the data buffer holds, a non-null cell of an integer
    type extracts to an integer within the range of that type. *)
Theorem vector_integer_in_range
  (X : externals) (vector : duckdb_vector) (type_id : duckdb_type)
  (row_idx : nat) (lo hi : Z)
  (Hty : int_column_range type_id = Some (lo, hi))
  (Hcell : cell_is_nil vector type_id row_idx = false) :
  exists z,
    extract_vector_value X vector (LT_plain type_id) row_idx = TInt z
    /\ lo <= z <= hi.
Proof.
  cbn [extract_vector_value duckdb_get_type_id]. rewrite Hcell.
  destruct type_id; try discriminate Hty; injection Hty as <- <-;
    cbn [extract_plain]; eexists; (split; [reflexivity|]);
    unfold INT_MIN, INT_MAX, LLONG_MIN, LLONG_MAX, ULLONG_MAX.
  - pose proof (read_signed_range 1 (data_bytes vector) row_idx ltac:(lia)) as H.
    change (2 ^ (8 * Z.of_nat 1 - 1)) with 128 in H. lia.
  - pose proof (read_signed_range 2 (data_bytes vector) row_idx ltac:(lia)) as H.
    change (2 ^ (8 * Z.of_nat 2 - 1)) with 32768 in H. lia.
  - pose proof (read_signed_range 4 (data_bytes vector) row_idx ltac:(lia)) as H.
    change (2 ^ (8 * Z.of_nat 4 - 1)) with 2147483648 in H. lia.
  - pose proof (read_signed_range 8 (data_bytes vector) row_idx ltac:(lia)) as H.
    change (2 ^ (8 * Z.of_nat 8 - 1)) with 9223372036854775808 in H. lia.
  - pose proof (read_unsigned_range 1 (data_bytes vector) row_idx) as H.
    change (256 ^ Z.of_nat 1) with 256 in H. lia.
  - pose proof (read_unsigned_range 2 (data_bytes vector) row_idx) as H.
    change (256 ^ Z.of_nat 2) with 65536 in H. lia.
  - pose proof (read_unsigned_range 4 (data_bytes vector) row_idx) as H.
    change (256 ^ Z.of_nat 4) with 4294967296 in H. lia.
  - pose proof (read_unsigned_range 8 (data_bytes vector) row_idx) as H.
    change (256 ^ Z.of_nat 8) with 18446744073709551616 in H. lia.
Qed.

Lemma vector_integer_in_range_witness :
  cell_is_nil (Vector (Some [255; 128]) None [] []) DUCKDB_TYPE_TINYINT 1
  = false
  /\ extract_vector_value sample_externals (Vector (Some [255; 128]) None [] [])
       (LT_plain DUCKDB_TYPE_TINYINT) 1 = TInt (-128).
Proof.
  split; [reflexivity|].
  destruct (vector_integer_in_range sample_externals
              (Vector (Some [255; 128]) None [] []) DUCKDB_TYPE_TINYINT 1
              (-128) 127 eq_refl eq_refl) as [z [Hz _]].
  rewrite Hz. revert Hz. vm_compute. intros H. exact (eq_sym H).
Defined.

(** A non-null cell of a second, millisecond or nanosecond timestamp
    extracts to the decimal text of its signed 64-bit tick count, which
    reads back to that count exactly. *)
Theorem tick_timestamp_text
  (X : externals) (vector : duckdb_vector) (type_id : duckdb_type)
  (row_idx : nat)
  (Hty : is_tick_timestamp type_id = true)
  (Hcell : cell_is_nil vector type_id row_idx = false) :
  extract_vector_value X vector (LT_plain type_id) row_idx
  = TBinary (fmt_signed (read_signed 8 (data_bytes vector) row_idx))
  /\ is_decimal_string (fmt_signed (read_signed 8 (data_bytes vector) row_idx))
     = true
  /\ integer_of_decimal (fmt_signed (read_signed 8 (data_bytes vector) row_idx))
     = read_signed 8 (data_bytes vector) row_idx
  /\ LLONG_MIN <= read_signed 8 (data_bytes vector) row_idx <= LLONG_MAX.
Proof.
  destruct (fmt_signed_reads_back (read_signed 8 (data_bytes vector) row_idx))
    as [_ [Hback Hdec]].
  split; [|split; [exact Hdec | split; [exact Hback|]]].
  - cbn [extract_vector_value duckdb_get_type_id]. rewrite Hcell.
    destruct type_id; try discriminate Hty; reflexivity.
  - pose proof (read_signed_range 8 (data_bytes vector) row_idx ltac:(lia)) as H.
    change (2 ^ (8 * Z.of_nat 8 - 1)) with 9223372036854775808 in H.
    unfold LLONG_MIN, LLONG_MAX. lia.
Qed.

Lemma tick_timestamp_text_witness :
  is_tick_timestamp DUCKDB_TYPE_TIMESTAMP_MS = true
  /\ extract_vector_value sample_externals
       (Vector (Some (le_bytes 8 (-1500 mod two_p 64))) None [] [])
       (LT_plain DUCKDB_TYPE_TIMESTAMP_MS) 0 = TBinary "-1500".
Proof.
  split; [reflexivity|].
  destruct (tick_timestamp_text sample_externals
              (Vector (Some (le_bytes 8 (-1500 mod two_p 64))) None [] [])
              DUCKDB_TYPE_TIMESTAMP_MS 0 eq_refl eq_refl) as [H _].
  rewrite H. vm_compute. reflexivity.
Defined.

(** A non-null unsigned hugeint whose high word is 0 extracts to the
    decimal text of its value, which reads back exactly.  With a nonzero
    high word the text is the high word in decimal followed by the low
    word in 16 hexadecimal digits; this encoding is not injective:
    10^16 and 2^64 extract to the same text. *)
Theorem uhugeint_text
  (X : externals) (vector : duckdb_vector) (row_idx : nat)
  (Hcell : cell_is_nil vector DUCKDB_TYPE_UHUGEINT row_idx = false) :
  (upper (read_uhugeint (data_bytes vector) row_idx) = 0 ->
   extract_vector_value X vector (LT_plain DUCKDB_TYPE_UHUGEINT) row_idx
   = TBinary (fmt_unsigned
                (uhugeint_value (read_uhugeint (data_bytes vector) row_idx)))
   /\ integer_of_decimal
        (fmt_unsigned
           (uhugeint_value (read_uhugeint (data_bytes vector) row_idx)))
      = uhugeint_value (read_uhugeint (data_bytes vector) row_idx))
  /\ (upper (read_uhugeint (data_bytes vector) row_idx) <> 0 ->
      extract_vector_value X vector (LT_plain DUCKDB_TYPE_UHUGEINT) row_idx
      = TBinary
          (fmt_unsigned (upper (read_uhugeint (data_bytes vector) row_idx))
           +++ hex_fixed 16
                 (lower (read_uhugeint (data_bytes vector) row_idx)) ""))
  /\ extract_vector_value X
       (uhugeint_vector [10000000000000000; 18446744073709551616])
       (LT_plain DUCKDB_TYPE_UHUGEINT) 0
     = extract_vector_value X
         (uhugeint_vector [10000000000000000; 18446744073709551616])
         (LT_plain DUCKDB_TYPE_UHUGEINT) 1.
Proof.
  assert (Hex : extract_vector_value X vector (LT_plain DUCKDB_TYPE_UHUGEINT)
                  row_idx = uhugeint_case (data_bytes vector) row_idx).
  { cbn [extract_vector_value duckdb_get_type_id]. now rewrite Hcell. }
  rewrite Hex. unfold uhugeint_case.
  assert (Hlo : 0 <= lower (read_uhugeint (data_bytes vector) row_idx)
                < 16 ^ Z.of_nat 16).
  { unfold read_uhugeint. cbn [lower].
    exact (load_le_range (data_bytes vector) 8 (row_idx * 16)). }
  split; [|split].
  - intros Hup. rewrite Hup. cbn [Z.eqb]. unfold uhugeint_value. rewrite Hup.
    cbn [Z.mul Z.add]. split; [reflexivity|].
    unfold fmt_unsigned.
    exact (proj1 (proj2 (proj2 (strtoll_digits _ (proj1 Hlo))))).
  - intros Hup. apply Z.eqb_neq in Hup. rewrite Hup.
    rewrite fmt_hex_pad_fixed by (try lia; exact Hlo). reflexivity.
  - vm_compute. reflexivity.
Qed.

Lemma uhugeint_text_witness :
  cell_is_nil (uhugeint_vector [340282366920938463463374607431768211455])
    DUCKDB_TYPE_UHUGEINT 0 = false
  /\ extract_vector_value sample_externals
       (uhugeint_vector [340282366920938463463374607431768211455])
       (LT_plain DUCKDB_TYPE_UHUGEINT) 0
     = TBinary "18446744073709551615ffffffffffffffff".
Proof.
  split; [reflexivity|].
  destruct (uhugeint_text sample_externals
              (uhugeint_vector [340282366920938463463374607431768211455])
              0 eq_refl) as [_ [H _]].
  rewrite H; [vm_compute; reflexivity | vm_compute; discriminate].
Defined.

(** ** Parameter binding *)

Lemma bind_parameter_eq
  (E : engine) (s : duckdb_prepared_statement) (i : Z) (p : term) (w : world) :
  bind_parameter E s i p w
  = match bind_call s i p with
    | Some c =>
        if bind_buffer E p w then engine_invoke E c w else (DuckDBError, w)
    | None => (DuckDBError, w)
    end.
Proof.
  destruct p as [name|z|d|bin|l|l|pairs|ty id|];
    unfold bind_parameter, bind_call, bind_buffer;
    cbn [is_atom enif_get_long enif_get_double enif_inspect_binary].
  - destruct (String.eqb name "nil"); [reflexivity|].
    destruct (String.eqb name "true"); [reflexivity|].
    destruct (String.eqb name "false"); reflexivity.
  - destruct ((LLONG_MIN <=? z) && (z <=? LLONG_MAX)); reflexivity.
  - reflexivity.
  - unfold bind, enif_alloc.
    now destruct (allocator E (engine_log w) (Z.of_nat (String.length bin) + 1)).
  - destruct (enif_get_string (TList l) 1024) as [n buf]. cbn [fst snd].
    destruct (0 <? n); reflexivity.
  - reflexivity.
  - reflexivity.
  - reflexivity.
  - reflexivity.
Qed.

Lemma c_string_no_nul (s : string) : no_nul s = true -> c_string s = s.
Proof.
  induction s as [|c s IH]; [reflexivity|].
  cbn [no_nul c_string]. intros H. apply andb_true_iff in H.
  destruct H as [Hc Hs]. destruct (Ascii.eqb c zero); [discriminate Hc|].
  now rewrite IH.
Qed.

Lemma c_string_cut (a rest : string) :
  no_nul a = true -> c_string (a +++ String zero rest) = a.
Proof.
  induction a as [|c a IH]; [reflexivity|].
  cbn [no_nul c_string String.append]. intros H. apply andb_true_iff in H.
  destruct H as [Hc Hs]. destruct (Ascii.eqb c zero); [discriminate Hc|].
  now rewrite IH.
Qed.

(** How a parameter reaches the engine.  An integer within the signed
    64-bit range is bound as that same integer; an integer beyond it is
    refused locally, without an engine call.  A binary is copied into a
    buffer of its size and one byte more: when that buffer cannot be
    allocated the binary is refused locally; when it can, the binary is
    bound as text, unchanged when it holds no NUL byte and cut at its
    first NUL byte otherwise.  Tuples and maps are refused locally. *)
Theorem bind_parameter_values
  (E : engine) (s : duckdb_prepared_statement) (i : Z) (w : world) :
  (forall z,
     LLONG_MIN <= z <= LLONG_MAX ->
     bind_parameter E s i (TInt z) w
     = engine_invoke E (duckdb_bind_int64 (stmt_handle s) i z) w)
  /\ (forall z,
        z < LLONG_MIN \/ LLONG_MAX < z ->
        bind_parameter E s i (TInt z) w = (DuckDBError, w))
  /\ (forall b,
        allocator E (engine_log w) (Z.of_nat (String.length b) + 1) = false ->
        bind_parameter E s i (TBinary b) w = (DuckDBError, w))
  /\ (forall b,
        allocator E (engine_log w) (Z.of_nat (String.length b) + 1) = true ->
        no_nul b = true ->
        bind_parameter E s i (TBinary b) w
        = engine_invoke E (duckdb_bind_varchar (stmt_handle s) i b) w)
  /\ (forall a rest,
        allocator E (engine_log w)
          (Z.of_nat (String.length (a +++ String zero rest)) + 1) = true ->
        no_nul a = true ->
        bind_parameter E s i (TBinary (a +++ String zero rest)) w
        = engine_invoke E (duckdb_bind_varchar (stmt_handle s) i a) w)
  /\ (forall l, bind_parameter E s i (TTuple l) w = (DuckDBError, w))
  /\ (forall m, bind_parameter E s i (TMap m) w = (DuckDBError, w)).
Proof.
  split; [|split; [|split; [|split; [|split; [|split]]]]].
  - intros z Hz. rewrite bind_parameter_eq. unfold bind_call, bind_buffer.
    cbn [is_atom enif_get_long].
    replace ((LLONG_MIN <=? z) && (z <=? LLONG_MAX)) with true
      by (symmetry; apply andb_true_iff; split; apply Z.leb_le; lia).
    rewrite to_signed_id; [reflexivity | lia |].
    change (2 ^ (64 - 1)) with 9223372036854775808.
    unfold LLONG_MIN, LLONG_MAX in Hz. lia.
  - intros z Hz. rewrite bind_parameter_eq. unfold bind_call.
    cbn [is_atom enif_get_long].
    replace ((LLONG_MIN <=? z) && (z <=? LLONG_MAX)) with false;
      [reflexivity|].
    symmetry. apply andb_false_iff.
    destruct Hz; [left | right]; apply Z.leb_gt; assumption.
  - intros b Hb. rewrite bind_parameter_eq. unfold bind_call, bind_buffer.
    cbn [is_atom enif_get_long enif_get_double enif_inspect_binary].
    now rewrite Hb.
  - intros b Hal Hb. rewrite bind_parameter_eq. unfold bind_call, bind_buffer.
    cbn [is_atom enif_get_long enif_get_double enif_inspect_binary].
    now rewrite Hal, c_string_no_nul.
  - intros a rest Hal Ha. rewrite bind_parameter_eq.
    unfold bind_call, bind_buffer.
    cbn [is_atom enif_get_long enif_get_double enif_inspect_binary].
    now rewrite Hal, c_string_cut.
  - reflexivity.
  - reflexivity.
Qed.

Lemma bind_parameter_values_witness :
  bind_parameter reference_engine {| stmt_handle := 3; duckdb_nparams := 2 |}
    1 (TInt 42) sample_world
  = (DuckDBSuccess, log_call (duckdb_bind_int64 3 1 42) sample_world)
  /\ bind_parameter reference_engine {| stmt_handle := 3; duckdb_nparams := 2 |}
       1 (TInt 9223372036854775808) sample_world
     = (DuckDBError, sample_world)
  /\ bind_parameter out_of_memory_engine
       {| stmt_handle := 3; duckdb_nparams := 2 |}
       1 (TBinary "ab") sample_world
     = (DuckDBError, sample_world)
  /\ bind_parameter reference_engine {| stmt_handle := 3; duckdb_nparams := 2 |}
       1 (TBinary ("ab" +++ String zero "cd")) sample_world
     = (DuckDBSuccess, log_call (duckdb_bind_varchar 3 1 "ab") sample_world).
Proof.
  pose proof (bind_parameter_values reference_engine
                {| stmt_handle := 3; duckdb_nparams := 2 |} 1 sample_world)
    as [H1 [H2 [_ [_ [H5 _]]]]].
  pose proof (bind_parameter_values out_of_memory_engine
                {| stmt_handle := 3; duckdb_nparams := 2 |} 1 sample_world)
    as [_ [_ [H3 _]]].
  split; [|split; [|split]].
  - exact (H1 42 ltac:(vm_compute; split; discriminate)).
  - exact (H2 9223372036854775808 ltac:(right; reflexivity)).
  - exact (H3 "ab" eq_refl).
  - exact (H5 "ab" "cd" eq_refl eq_refl).
Defined.

(** The binding loop binds the parameters in list order with 1-based
    indexes: when it runs to its end over [n] parameters, the engine has
    received exactly [n] bind calls, the k-th (from 0) being the call
    for the k-th parameter at index [k + 1]. *)
Theorem bind_parameters_in_order
  (E : engine) (s : duckdb_prepared_statement) (l : list term) :
  forall (n : nat) (i : Z) (w : world),
    List.length l = n ->
    fst (bind_parameters E s n i l w) = None ->
    exists calls,
      engine_log (snd (bind_parameters E s n i l w))
      = rev calls ++ engine_log w
      /\ List.length calls = n
      /\ forall k p,
           nth_error l k = Some p ->
           bind_call s (i + Z.of_nat k + 1) p = nth_error calls k
           /\ nth_error calls k <> None.
Proof.
  induction l as [|head tail IH]; intros n i w Hlen Hnone.
  - subst n. exists []. split; [reflexivity|]. split; [reflexivity|].
    intros k p Hk. destruct k; discriminate Hk.
  - subst n. cbn [List.length bind_parameters] in *.
    unfold bind in *. rewrite bind_parameter_eq in *.
    destruct (bind_call s (i + 1) head) as [c|] eqn:Hc;
      [destruct (bind_buffer E head w); [|discriminate Hnone]|].
    + rewrite engine_invoke_eq in *.
      destruct (respond E (engine_log w) c); [|discriminate Hnone].
      destruct (IH (List.length tail) (i + 1) (log_call c w) eq_refl Hnone)
        as [calls [Hlog [Hn Hk]]].
      exists (c :: calls). split; [|split].
      * rewrite Hlog. cbn [rev log_call engine_log].
        now rewrite <- app_assoc.
      * cbn. now rewrite Hn.
      * intros k p Hp. destruct k as [|k]; cbn in Hp |- *.
        -- injection Hp as <-. rewrite Z.add_0_r, Hc. split; [reflexivity|discriminate].
        -- destruct (Hk k p Hp) as [H1 H2]. split; [|exact H2].
           rewrite <- H1. f_equal. lia.
    + discriminate Hnone.
Qed.

Lemma bind_parameters_in_order_witness :
  engine_log
    (snd (bind_parameters reference_engine
            {| stmt_handle := 3; duckdb_nparams := 2 |} 2 0
            [TAtom "nil"; TInt 9] sample_world))
  = [duckdb_bind_int64 3 2 9; duckdb_bind_null 3 1].
Proof.
  destruct (bind_parameters_in_order reference_engine
              {| stmt_handle := 3; duckdb_nparams := 2 |}
              [TAtom "nil"; TInt 9] 2 0 sample_world eq_refl eq_refl)
    as [calls [Hlog _]].
  rewrite Hlog. revert Hlog. vm_compute. intros H. exact (eq_sym H).
Defined.

(** When the binding loop stops early over a list of the declared
    length, it is at a parameter whose binding failed, and the error it
    returns names that parameter by its 1-based index. *)
Theorem bind_failure_names_index
  (E : engine) (s : duckdb_prepared_statement) (l : list term) :
  forall (n : nat) (i : Z) (w : world) (t : term),
    List.length l = n ->
    fst (bind_parameters E s n i l w) = Some t ->
    exists k,
      (k < n)%nat
      /\ t = make_error ("Failed to bind parameter "
                         +++ fmt_unsigned (i + Z.of_nat k + 1))
      /\ (List.length (engine_log (snd (bind_parameters E s n i l w)))
          <= List.length (engine_log w) + S k)%nat.
Proof.
  induction l as [|head tail IH]; intros n i w t Hlen Hsome.
  - subst n. discriminate Hsome.
  - subst n. cbn [List.length bind_parameters] in *.
    unfold bind in *. rewrite bind_parameter_eq in *.
    destruct (bind_call s (i + 1) head) as [c|] eqn:Hc;
      [destruct (bind_buffer E head w)|].
    + rewrite engine_invoke_eq in *.
      destruct (respond E (engine_log w) c).
      * destruct (IH (List.length tail) (i + 1) (log_call c w) t eq_refl Hsome)
          as [k [Hk [Ht Hlog]]].
        exists (S k). split; [lia|]. split.
        -- rewrite Ht. do 3 f_equal. lia.
        -- cbn [log_call engine_log List.length] in Hlog. lia.
      * exists 0%nat. cbn in Hsome |- *. injection Hsome as <-.
        split; [lia|]. split; [now rewrite Z.add_0_r | lia].
    + exists 0%nat. cbn in Hsome |- *. injection Hsome as <-.
      split; [lia|]. split; [now rewrite Z.add_0_r | lia].
    + exists 0%nat. cbn in Hsome |- *. injection Hsome as <-.
      split; [lia|]. split; [now rewrite Z.add_0_r | lia].
Qed.

Lemma bind_failure_names_index_witness :
  fst (bind_parameters reference_engine
         {| stmt_handle := 3; duckdb_nparams := 2 |} 2 0
         [TInt 1; TTuple []] sample_world)
  = Some (make_error "Failed to bind parameter 2")
  /\ exists k,
       (k < 2)%nat
       /\ make_error "Failed to bind parameter 2"
          = make_error ("Failed to bind parameter "
                        +++ fmt_unsigned (0 + Z.of_nat k + 1))
       /\ (List.length
             (engine_log
                (snd (bind_parameters reference_engine
                        {| stmt_handle := 3; duckdb_nparams := 2 |} 2 0
                        [TInt 1; TTuple []] sample_world)))
           <= List.length (engine_log sample_world) + S k)%nat.
Proof.
  split; [reflexivity|].
  exact (bind_failure_names_index reference_engine
           {| stmt_handle := 3; duckdb_nparams := 2 |}
           [TInt 1; TTuple []] 2 0 sample_world
           (make_error "Failed to bind parameter 2") eq_refl eq_refl).
Defined.

(** ** Type tags and column descriptors *)

(** The type tag mapper gives every type the source lists a tag of its
    own: two types with the same tag are the same type, unless the tag
    is [unknown], which is what every other identifier maps to. *)
Theorem type_tags_distinct (a b : duckdb_type) :
  (has_own_tag a = false -> duckdb_type_to_atom a = TAtom "unknown")
  /\ (has_own_tag a = true -> duckdb_type_to_atom a <> TAtom "unknown")
  /\ (has_own_tag a = true ->
      duckdb_type_to_atom a = duckdb_type_to_atom b -> a = b).
Proof.
  split; [|split].
  - destruct a; try discriminate; reflexivity.
  - destruct a; try discriminate; intros _; discriminate.
  - destruct a; try discriminate; intros _;
      destruct b; try discriminate; reflexivity.
Qed.

Lemma type_tags_distinct_witness :
  has_own_tag DUCKDB_TYPE_TIME = true
  /\ duckdb_type_to_atom DUCKDB_TYPE_TIME = TAtom "time"
  /\ duckdb_type_to_atom DUCKDB_TYPE_TIME
     <> duckdb_type_to_atom DUCKDB_TYPE_TIME_TZ.
Proof.
  split; [reflexivity|]. split; [reflexivity|].
  destruct (type_tags_distinct DUCKDB_TYPE_TIME DUCKDB_TYPE_TIME_TZ)
    as [_ [_ H]].
  intros Heq. specialize (H eq_refl Heq). discriminate H.
Defined.

(** The column descriptors come one per column, in column order; the
    k-th is a map giving the k-th column's name under [name] and the tag
    of its type under [type]. *)
Theorem result_columns_descriptors
  (names : nat -> string) (res : duckdb_result) :
  exists columns,
    result_columns names res = TList columns
    /\ List.length columns = duckdb_column_count res
    /\ forall k,
         (k < duckdb_column_count res)%nat ->
         exists pairs,
           nth_error columns k = Some (TMap pairs)
           /\ map_get (TAtom "name") pairs = Some (TBinary (names k))
           /\ map_get (TAtom "type") pairs
              = Some (duckdb_type_to_atom (duckdb_column_type res k)).
Proof.
  unfold result_columns, enif_make_list_from_array.
  eexists. split; [reflexivity|]. split.
  - now rewrite length_map, length_seq.
  - intros k Hk. rewrite nth_error_map_seq by exact Hk. cbn [Nat.add].
    eexists. split; [reflexivity|]. split; reflexivity.
Qed.

(** ** Chunk retrieval *)



Lemma result_rows_tuples (X : externals) (res : duckdb_result) :
  exists rows,
    result_rows X res = TList rows
    /\ List.length rows = duckdb_row_count res
    /\ forall r,
         (r < duckdb_row_count res)%nat ->
         exists cells,
           nth_error rows r = Some (TTuple cells)
           /\ List.length cells = duckdb_column_count res.
Proof.
  unfold result_rows, enif_make_list_from_array.
  eexists. split; [reflexivity|]. split.
  - now rewrite length_map, length_seq.
  - intros r Hr. rewrite nth_error_map_seq by exact Hr. cbn [Nat.add].
    unfold result_rows_row, enif_make_tuple_from_array.
    eexists. split; [reflexivity|].
    destruct (has_uuid res && Nat.ltb 1 (duckdb_column_count res))%bool;
      now rewrite length_map, length_seq.
Qed.

(** The count NIFs agree with what the row materializer returns: the
    row count is the number of tuples in the row list, and the column
    count is the width of each of them. *)
Theorem result_counts_agree
  (X : externals) (results : nat -> option duckdb_result) (id : nat)
  (res : duckdb_result)
  (Hres : results id = Some res) :
  exists rows,
    result_rows_nif X results [TResource result_resource_type id] = TList rows
    /\ result_row_count_nif results [TResource result_resource_type id]
       = TInt (Z.of_nat (List.length rows))
    /\ forall row,
         In row rows ->
         exists cells,
           row = TTuple cells
           /\ result_column_count_nif results [TResource result_resource_type id]
              = TInt (Z.of_nat (List.length cells)).
Proof.
  unfold result_rows_nif, result_row_count_nif, result_column_count_nif.
  rewrite Hres.
  destruct (result_rows_tuples X res) as [rows [Hrows [Hlen Hcells]]].
  exists rows. split; [exact Hrows|]. split.
  - now rewrite Hlen.
  - intros row Hin. apply In_nth_error in Hin. destruct Hin as [r Hr].
    assert (Hlt : (r < duckdb_row_count res)%nat).
    { rewrite <- Hlen. apply nth_error_Some. rewrite Hr. discriminate. }
    destruct (Hcells r Hlt) as [cells [Hnth Hw]].
    exists cells. rewrite Hr in Hnth. injection Hnth as ->.
    split; [reflexivity | now rewrite Hw].
Qed.

Lemma result_counts_agree_witness :
  result_row_count_nif (fun _ => Some sample_mixed_result)
    [TResource result_resource_type 0] = TInt 1
  /\ result_column_count_nif (fun _ => Some sample_mixed_result)
       [TResource result_resource_type 0] = TInt 3.
Proof.
  destruct (result_counts_agree sample_externals
              (fun _ => Some sample_mixed_result) 0 sample_mixed_result eq_refl)
    as [rows [Hrows [Hcount Hcols]]].
  split; [reflexivity|].
  assert (Hin : In (TTuple [atom_nil; atom_nil; atom_nil]) rows).
  { revert Hrows. vm_compute. intros H. injection H as <-. now left. }
  destruct (Hcols _ Hin) as [cells [Hc Hn]].
  injection Hc as <-. exact Hn.
Defined.

(** ** Appending integers *)

Lemma to_unsigned_id (w z : Z) :
  0 <= z < 2 ^ w -> to_unsigned w z = z.
Proof. intros H. unfold to_unsigned, two_p. now apply Z.mod_small. Qed.

Ltac decide_bools :=
  repeat match goal with
         | |- context [?a <=? ?b] =>
             first [ replace (a <=? b) with true
                       by (symmetry; apply Z.leb_le; lia)
                   | replace (a <=? b) with false
                       by (symmetry; apply Z.leb_gt; lia) ]
         | |- context [?a <? ?b] =>
             first [ replace (a <? b) with true
                       by (symmetry; apply Z.ltb_lt; lia)
                   | replace (a <? b) with false
                       by (symmetry; apply Z.ltb_ge; lia) ]
         | |- context [?a >? ?b] =>
             first [ replace (a >? b) with true
                       by (symmetry; rewrite Z.gtb_ltb; apply Z.ltb_lt; lia)
                   | replace (a >? b) with false
                       by (symmetry; rewrite Z.gtb_ltb; apply Z.ltb_ge; lia) ]
         end.

Ltac settle_bools :=
  repeat (progress (decide_bools; cbn [andb orb]; cbv beta iota)).

(** Every integer append NIF forwards exactly the supplied integer when
    it lies within the range of the target type, and otherwise fails
    locally, leaving the session untouched: with [badarg] when the
    integer does not fit the C type it is read into, and with the
    out-of-range error of the type when it does. *)
Theorem integer_appends_checked
  (k : int_append) (E : api_engine) (ss : session) (id : nat)
  (res : AppenderResource) (z : Z)
  (Hres : appender_resources (base ss) id = Some res) :
  (fst (int_append_range k) <= z <= snd (int_append_range k) ->
   int_append_nif k E [TResource appender_resource_type id; TInt z] ss
   = finish_append E (appender res) (int_append_call k (appender res) z) ss)
  /\ (z < fst (int_append_read_range k) \/ snd (int_append_read_range k) < z ->
      int_append_nif k E [TResource appender_resource_type id; TInt z] ss
      = (enif_make_badarg, ss))
  /\ (fst (int_append_read_range k) <= z <= snd (int_append_read_range k) ->
      z < fst (int_append_range k) \/ snd (int_append_range k) < z ->
      int_append_nif k E [TResource appender_resource_type id; TInt z] ss
      = (make_error (int_append_error k), ss)).
Proof.
  destruct k; cbn [int_append_nif int_append_call int_append_range
                     int_append_read_range int_append_error fst snd];
    unfold appender_append_int16_nif, appender_append_int32_nif,
      appender_append_int64_nif, appender_append_uint8_nif,
      appender_append_uint16_nif, appender_append_uint32_nif,
      appender_append_uint64_nif, get_appender_resource,
      enif_get_int64, enif_get_int, enif_get_long, enif_get_uint,
      enif_get_uint64, INT_MIN, INT_MAX, LLONG_MIN, LLONG_MAX, ULLONG_MAX;
    rewrite Hres; (split; [|split]); intros H1; try intros H2;
    try lia;
    repeat match goal with H : _ \/ _ |- _ => destruct H end;
    settle_bools; rewrite ?andb_false_r, ?orb_true_r; try reflexivity.
  - rewrite to_signed_id; [reflexivity | lia |].
    change (2 ^ (16 - 1)) with 32768. lia.
  - rewrite to_signed_id; [reflexivity | lia |].
    change (2 ^ (32 - 1)) with 2147483648. lia.
  - rewrite to_signed_id; [reflexivity | lia |].
    change (2 ^ (64 - 1)) with 9223372036854775808. lia.
  - rewrite to_unsigned_id; [reflexivity|]. change (2 ^ 8) with 256. lia.
  - rewrite to_unsigned_id; [reflexivity|]. change (2 ^ 16) with 65536. lia.
  - rewrite to_unsigned_id; [reflexivity|].
    change (2 ^ 32) with 4294967296. lia.
  - rewrite to_unsigned_id; [reflexivity|].
    change (2 ^ 64) with 18446744073709551616. lia.
Qed.

Lemma integer_appends_checked_witness :
  appender_resources (base sample_session) 0 = Some {| appender := Some 7%nat |}
  /\ int_append_nif UInt8 accepting_engine [sample_appender; TInt 255]
       sample_session
     = (atom_ok, log_api (duckdb_append_uint8 (Some 7%nat) 255) sample_session)
  /\ int_append_nif UInt8 accepting_engine [sample_appender; TInt (-1)]
       sample_session
     = (enif_make_badarg, sample_session)
  /\ int_append_nif UInt8 accepting_engine [sample_appender; TInt 256]
       sample_session
     = (make_error "Value out of range for uint8", sample_session).
Proof.
  split; [reflexivity|].
  split; [|split].
  - exact (proj1 (integer_appends_checked UInt8 accepting_engine
                    sample_session 0 {| appender := Some 7%nat |} 255
                    eq_refl)
             ltac:(cbn; lia)).
  - exact (proj1 (proj2 (integer_appends_checked UInt8 accepting_engine
                           sample_session 0 {| appender := Some 7%nat |}
                           (-1) eq_refl))
             ltac:(cbn; lia)).
  - exact (proj2 (proj2 (integer_appends_checked UInt8 accepting_engine
                           sample_session 0 {| appender := Some 7%nat |}
                           256 eq_refl))
             ltac:(cbn; lia) ltac:(cbn; lia)).
Defined.

Lemma finish_append_eq (E : api_engine) (a : duckdb_appender)
  (c : api_call) (ss : session) :
  finish_append E a c ss = (append_outcome E a c ss, log_api c ss).
Proof.
  unfold finish_append, append_outcome, api_invoke.
  cbn [log_api api_log].
  now destruct (api_respond E (api_log ss) c).
Qed.

(** An append NIF either fails before the engine is reached, with
    [badarg] or an error tuple and the session as it was, or hands the
    engine exactly one call, an append to the appender of the resource
    in the first argument, and returns [ok] or the engine's error
    according to the engine's answer to that call. *)
Theorem append_reaches_engine_once
  (e : append_entry) (E : api_engine) (argv : list term) (ss : session) :
  (snd (append_entry_nif e E argv ss) = ss
   /\ (fst (append_entry_nif e E argv ss) = enif_make_badarg
       \/ exists m, fst (append_entry_nif e E argv ss) = make_error m))
  \/ (exists c id res,
         nth_error argv 0 = Some (TResource appender_resource_type id)
         /\ appender_resources (base ss) id = Some res
         /\ api_call_appender c = Some (appender res)
         /\ append_entry_nif e E argv ss
            = (append_outcome E (appender res) c ss, log_api c ss)).
Proof.
  assert (Hbad : forall r : term * session,
             r = (enif_make_badarg, ss) ->
             (snd r = ss
              /\ (fst r = enif_make_badarg \/ exists m, fst r = make_error m))
             \/ (exists c id res,
                    nth_error argv 0 = Some (TResource appender_resource_type id)
                    /\ appender_resources (base ss) id = Some res
                    /\ api_call_appender c = Some (appender res)
                    /\ r = (append_outcome E (appender res) c ss,
                            log_api c ss))).
  { intros r ->. left. split; [reflexivity|]. now left. }
  assert (Herr : forall (r : term * session) m,
             r = (make_error m, ss) ->
             (snd r = ss
              /\ (fst r = enif_make_badarg \/ exists m, fst r = make_error m))
             \/ (exists c id res,
                    nth_error argv 0 = Some (TResource appender_resource_type id)
                    /\ appender_resources (base ss) id = Some res
                    /\ api_call_appender c = Some (appender res)
                    /\ r = (append_outcome E (appender res) c ss,
                            log_api c ss))).
  { intros r m ->. left. split; [reflexivity|]. right. now exists m. }
  destruct argv as [|a0 [|a1 [|a2 rest]]];
    try (apply Hbad; destruct e as [|[]| | | | |]; reflexivity).
  - (* one argument: only the null append goes on *)
    destruct e as [|[]| | | | |]; try (apply Hbad; reflexivity).
    cbn [append_entry_nif]. unfold appender_append_null_nif.
    destruct a0 as [| | | | | | |ty id|]; try (apply Hbad; reflexivity).
    destruct ty; try (apply Hbad; reflexivity).
    cbn [get_appender_resource].
    destruct (appender_resources (base ss) id) as [res|] eqn:Hres;
      [|apply Hbad; reflexivity].
    right. exists (duckdb_append_null (appender res)), id, res.
    repeat split; try assumption. apply finish_append_eq.
  - (* two arguments *)
    destruct (get_appender_resource a0 (base ss)) as [[i res]|] eqn:Hget.
    2:{ apply Hbad.
        destruct e as [|[]| | | | |]; cbn [append_entry_nif int_append_nif];
          unfold appender_append_bool_nif, appender_append_int16_nif,
            appender_append_int32_nif, appender_append_int64_nif,
            appender_append_uint8_nif, appender_append_uint16_nif,
            appender_append_uint32_nif, appender_append_uint64_nif,
            appender_append_float_nif, appender_append_double_nif,
            appender_append_varchar_nif, appender_append_blob_nif,
            appender_append_null_nif; rewrite ?Hget; reflexivity. }
    assert (Hid : a0 = TResource appender_resource_type i
                  /\ appender_resources (base ss) i = Some res).
    { destruct a0 as [| | | | | | |ty id|]; try discriminate.
      destruct ty; try discriminate. cbn [get_appender_resource] in Hget.
      destruct (appender_resources (base ss) id) eqn:Hres; [|discriminate].
      injection Hget as <- <-. now split. }
    destruct Hid as [Ha0 Hres].
    assert (Hgo : forall (r : term * session) c,
               api_call_appender c = Some (appender res) ->
               r = finish_append E (appender res) c ss ->
               (snd r = ss
                /\ (fst r = enif_make_badarg
                    \/ exists m, fst r = make_error m))
               \/ (exists c id res,
                      nth_error [a0; a1] 0
                      = Some (TResource appender_resource_type id)
                      /\ appender_resources (base ss) id = Some res
                      /\ api_call_appender c = Some (appender res)
                      /\ r = (append_outcome E (appender res) c ss,
                              log_api c ss))).
    { intros r c Hc ->. right. exists c, i, res. rewrite Ha0.
      repeat split; try assumption. apply finish_append_eq. }
    destruct e as [|[]| | | | |]; cbn [append_entry_nif int_append_nif];
      unfold appender_append_bool_nif, appender_append_int16_nif,
        appender_append_int32_nif, appender_append_int64_nif,
        appender_append_uint8_nif, appender_append_uint16_nif,
        appender_append_uint32_nif, appender_append_uint64_nif,
        appender_append_float_nif, appender_append_double_nif,
        appender_append_varchar_nif, appender_append_blob_nif,
        appender_append_null_nif; rewrite ?Hget;
      repeat match goal with
        | |- context [match ?x with _ => _ end] =>
            lazymatch x with
            | finish_append _ _ _ _ => fail
            | _ => destruct x eqn:?
            end
        end;
      first [ apply Hbad; reflexivity
            | eapply Herr; reflexivity
            | eapply Hgo; [|reflexivity]; reflexivity ].
Qed.

(** ** Appending text *)

Lemma c_string_prefix (n : nat) (s : string) :
  c_string (string_prefix n s) = string_prefix n (c_string s).
Proof.
  revert s. induction n as [|n IH]; intros [|c s]; cbn [string_prefix c_string];
    try reflexivity.
  destruct (Ascii.eqb c zero); [reflexivity|]. now rewrite IH.
Qed.

Lemma string_prefix_all (n : nat) (s : string) :
  (String.length s <= n)%nat -> string_prefix n s = s.
Proof.
  revert s. induction n as [|n IH]; intros [|c s]; cbn [string_prefix String.length];
    intros H; try reflexivity; try lia.
  rewrite IH; [reflexivity | lia].
Qed.

Lemma c_string_length (s : string) :
  (String.length (c_string s) <= String.length s)%nat.
Proof.
  induction s as [|c s IH]; cbn [c_string String.length]; [lia|].
  destruct (Ascii.eqb c zero); cbn [String.length]; lia.
Qed.

Lemma string_prefix_length (n : nat) (s : string) :
  (String.length (string_prefix n s) <= n)%nat.
Proof.
  revert s. induction n as [|n IH]; intros [|c s];
    cbn [string_prefix String.length]; try lia.
  specialize (IH s). lia.
Qed.

(** The varchar append NIF takes a binary only when it is shorter than
    its 8192-byte buffer and answers [badarg] otherwise; it forwards a
    binary free of NUL bytes unchanged, and of a binary with a NUL byte
    only the part before the first one, where the blob append NIF
    forwards every byte.  A charlist is never refused for its length:
    the text is cut at its first NUL and to at most 8191 characters,
    and appended. *)
Theorem varchar_append_text
  (E : api_engine) (ss : session) (id : nat) (res : AppenderResource)
  (Hres : appender_resources (base ss) id = Some res) :
  (forall b, 8192 <= Z.of_nat (String.length b) ->
     appender_append_varchar_nif E
       [TResource appender_resource_type id; TBinary b] ss
     = (enif_make_badarg, ss))
  /\ (forall b, Z.of_nat (String.length b) < 8192 -> no_nul b = true ->
      appender_append_varchar_nif E
        [TResource appender_resource_type id; TBinary b] ss
      = finish_append E (appender res)
          (duckdb_append_varchar (appender res) b) ss)
  /\ (forall p r,
      Z.of_nat (String.length (p +++ String zero r)) < 8192 ->
      no_nul p = true ->
      appender_append_varchar_nif E
        [TResource appender_resource_type id; TBinary (p +++ String zero r)] ss
      = finish_append E (appender res)
          (duckdb_append_varchar (appender res) p) ss
      /\ appender_append_blob_nif E
           [TResource appender_resource_type id;
            TBinary (p +++ String zero r)] ss
         = finish_append E (appender res)
             (duckdb_append_blob (appender res) (p +++ String zero r)) ss)
  /\ (forall l s, latin1_chars l = Some s ->
      appender_append_varchar_nif E
        [TResource appender_resource_type id; TList l] ss
      = finish_append E (appender res)
          (duckdb_append_varchar (appender res)
             (string_prefix (Z.to_nat 8191) (c_string s))) ss
      /\ Z.of_nat (String.length (string_prefix (Z.to_nat 8191) (c_string s)))
         <= 8191).
Proof.
  unfold appender_append_varchar_nif, appender_append_blob_nif.
  cbn [get_appender_resource]. rewrite Hres.
  cbn [enif_get_string_buf enif_inspect_binary Z.eqb].
  split; [|split; [|split]].
  - intros b Hb.
    now replace (8192 <=? Z.of_nat (String.length b)) with true
      by (symmetry; apply Z.leb_le; lia).
  - intros b Hb Hn.
    replace (8192 <=? Z.of_nat (String.length b)) with false
      by (symmetry; apply Z.leb_gt; lia).
    now rewrite c_string_no_nul.
  - intros p r Hb Hn.
    replace (8192 <=? Z.of_nat (String.length (p +++ String zero r)))
      with false by (symmetry; apply Z.leb_gt; lia).
    now rewrite c_string_cut.
  - intros l s Hl. rewrite Hl. split.
    + cbv zeta.
      destruct (Z.of_nat (String.length s) + 1 <=? 8192) eqn:Hfit.
      * apply Z.leb_le in Hfit.
        replace (Z.of_nat (String.length s) + 1 =? 0) with false
          by (symmetry; apply Z.eqb_neq; lia).
        rewrite string_prefix_all; [reflexivity|].
        pose proof (c_string_length s). lia.
      * change (- (8192) =? 0) with false. cbv beta iota.
        change (8192 - 1) with 8191. now rewrite c_string_prefix.
    + pose proof (string_prefix_length (Z.to_nat 8191) (c_string s)). lia.
Qed.

Lemma varchar_append_text_witness :
  appender_resources (base sample_session) 0 = Some {| appender := Some 7%nat |}
  /\ appender_append_varchar_nif accepting_engine
       [sample_appender; TBinary (replicate_char (Z.to_nat 8192) "a")]
       sample_session
     = (enif_make_badarg, sample_session)
  /\ appender_append_varchar_nif accepting_engine
       [sample_appender; TBinary ("ab" +++ String zero "cd")] sample_session
     = (atom_ok,
        log_api (duckdb_append_varchar (Some 7%nat) "ab") sample_session)
  /\ appender_append_blob_nif accepting_engine
       [sample_appender; TBinary ("ab" +++ String zero "cd")] sample_session
     = (atom_ok,
        log_api (duckdb_append_blob (Some 7%nat) ("ab" +++ String zero "cd"))
          sample_session)
  /\ appender_append_varchar_nif accepting_engine
       [sample_appender; TList [TInt 104; TInt 105]] sample_session
     = (atom_ok,
        log_api (duckdb_append_varchar (Some 7%nat) "hi") sample_session).
Proof.
  pose proof (varchar_append_text accepting_engine sample_session 0
                {| appender := Some 7%nat |} eq_refl) as [H1 [_ [H3 H4]]].
  split; [reflexivity|].
  split; [|split; [|split]].
  - exact (H1 (replicate_char (Z.to_nat 8192) "a")
             ltac:(vm_compute; discriminate)).
  - exact (proj1 (H3 "ab" "cd" ltac:(vm_compute; reflexivity) eq_refl)).
  - exact (proj2 (H3 "ab" "cd" ltac:(vm_compute; reflexivity) eq_refl)).
  - exact (proj1 (H4 [TInt 104; TInt 105] "hi" eq_refl)).
Defined.

(** ** Opening a database *)

Lemma enif_get_string_fits (l : list term) (s : string) (size : Z) :
  latin1_chars l = Some s ->
  Z.of_nat (String.length s) < size ->
  enif_get_string (TList l) size = (Z.of_nat (String.length s) + 1, s).
Proof.
  intros Hl Hs. cbn [enif_get_string]. rewrite Hl. cbv zeta.
  now replace (Z.of_nat (String.length s) + 1 <=? size) with true
    by (symmetry; apply Z.leb_le; lia).
Qed.

Lemma enif_get_string_overflow (l : list term) (s : string) (size : Z) :
  latin1_chars l = Some s ->
  size <= Z.of_nat (String.length s) ->
  enif_get_string (TList l) size = (- size, EmptyString).
Proof.
  intros Hl Hs. cbn [enif_get_string]. rewrite Hl. cbv zeta.
  now replace (Z.of_nat (String.length s) + 1 <=? size) with false
    by (symmetry; apply Z.leb_gt; lia).
Qed.

(** A path that does not fit the 4096-byte buffer never reaches the
    engine: a binary of 4096 bytes or more gives the error
    [Path too long], a charlist of 4096 characters or more gives
    [badarg], and so does any term that is neither [nil], a binary nor
    a latin-1 charlist; the session is left as it was. *)
Theorem database_open_path_limits (E : api_engine) (ss : session) :
  (forall b, 4096 <= Z.of_nat (String.length b) ->
     database_open_nif E [TBinary b] ss = (make_error "Path too long", ss))
  /\ (forall l s, latin1_chars l = Some s ->
      4096 <= Z.of_nat (String.length s) ->
      database_open_nif E [TList l] ss = (enif_make_badarg, ss))
  /\ (forall a0, is_atom "nil" a0 = false ->
      enif_inspect_binary a0 = None ->
      (forall l, a0 = TList l -> latin1_chars l = None) ->
      database_open_nif E [a0] ss = (enif_make_badarg, ss)).
Proof.
  split; [|split].
  - intros b Hb. unfold database_open_nif.
    cbn [is_atom enif_inspect_binary].
    now replace (4096 <=? Z.of_nat (String.length b)) with true
      by (symmetry; apply Z.leb_le; lia).
  - intros l s Hl Hs. unfold database_open_nif.
    cbn [is_atom enif_inspect_binary].
    now rewrite (enif_get_string_overflow l s 4096 Hl Hs).
  - intros a0 Hnil Hbin Hlist. unfold database_open_nif.
    rewrite Hnil, Hbin.
    destruct a0 as [| | | |l| | | |]; try reflexivity.
    cbn [enif_get_string]. now rewrite (Hlist l eq_refl).
Qed.

Lemma database_open_path_limits_witness :
  database_open_nif accepting_engine
    [TBinary (replicate_char (Z.to_nat 4096) "a")] sample_session
  = (make_error "Path too long", sample_session)
  /\ database_open_nif accepting_engine
       [TList (List.repeat (TInt 97) (Z.to_nat 4096))] sample_session
     = (enif_make_badarg, sample_session)
  /\ database_open_nif accepting_engine [TInt 5] sample_session
     = (enif_make_badarg, sample_session).
Proof.
  pose proof (database_open_path_limits accepting_engine sample_session)
    as [H1 [H2 H3]].
  split; [|split].
  - exact (H1 (replicate_char (Z.to_nat 4096) "a")
             ltac:(vm_compute; discriminate)).
  - exact (H2 (List.repeat (TInt 97) (Z.to_nat 4096))
             (replicate_char (Z.to_nat 4096) "a")
             ltac:(vm_compute; reflexivity)
             ltac:(vm_compute; discriminate)).
  - exact (H3 (TInt 5) eq_refl eq_refl ltac:(discriminate)).
Defined.

(** With an accepted path the engine is asked once to open it.  When
    the engine succeeds the NIF returns a new database resource that
    holds the handle the engine wrote, and every resource handed out
    before is as it was.  When the engine fails the NIF returns the
    error [Failed to open database], hands out no resource, and closes
    the handle if the engine left one behind. *)
Theorem database_open_outcomes
  (E : api_engine) (ss : session) (a0 : term) (path : option string)
  (Hpath : path_argument a0 path) :
  (api_respond E (api_log ss) (duckdb_open path) = DuckDBSuccess ->
   fst (database_open_nif E [a0] ss)
   = make_ok (TResource database_resource_type (next_resource ss))
   /\ database_resources (snd (database_open_nif E [a0] ss)) (next_resource ss)
      = Some (api_database E (duckdb_open path :: api_log ss))
   /\ (forall i, i <> next_resource ss ->
       database_resources (snd (database_open_nif E [a0] ss)) i
       = database_resources ss i)
   /\ next_resource (snd (database_open_nif E [a0] ss)) = S (next_resource ss)
   /\ api_log (snd (database_open_nif E [a0] ss))
      = duckdb_open path :: api_log ss)
  /\ (api_respond E (api_log ss) (duckdb_open path) = DuckDBError ->
      fst (database_open_nif E [a0] ss) = make_error "Failed to open database"
      /\ database_resources (snd (database_open_nif E [a0] ss))
         = database_resources ss
      /\ next_resource (snd (database_open_nif E [a0] ss)) = next_resource ss
      /\ api_log (snd (database_open_nif E [a0] ss))
         = match api_database E (duckdb_open path :: api_log ss) with
           | Some h => [duckdb_close h; duckdb_open path]
           | None => [duckdb_open path]
           end ++ api_log ss).
Proof.
  assert (Hopen :
    database_open_nif E [a0] ss
    = match api_respond E (api_log ss) (duckdb_open path) with
      | DuckDBError =>
          (make_error "Failed to open database",
           match api_database E (duckdb_open path :: api_log ss) with
           | Some h => log_api (duckdb_close h) (log_api (duckdb_open path) ss)
           | None => log_api (duckdb_open path) ss
           end)
      | DuckDBSuccess =>
          (make_ok (TResource database_resource_type (next_resource ss)),
           snd (add_database (api_database E (duckdb_open path :: api_log ss))
                  (log_api (duckdb_open path) ss)))
      end).
  { unfold database_open_nif, api_invoke.
    destruct Hpath as [|b Hb|l s Hl Hs].
    - cbn [is_atom atom_nil String.eqb Ascii.eqb Bool.eqb andb].
      cbn [log_api api_log].
      now destruct (api_respond E (api_log ss) (duckdb_open None)).
    - cbn [is_atom enif_inspect_binary].
      replace (4096 <=? Z.of_nat (String.length b)) with false
        by (symmetry; apply Z.leb_gt; lia).
      cbn [log_api api_log].
      now destruct (api_respond E (api_log ss) (duckdb_open _)).
    - cbn [is_atom enif_inspect_binary].
      rewrite (enif_get_string_fits l s 4096 Hl Hs).
      replace (Z.of_nat (String.length s) + 1 <=? 0) with false
        by (symmetry; apply Z.leb_gt; lia).
      cbn [log_api api_log].
      now destruct (api_respond E (api_log ss) (duckdb_open _)). }
  rewrite Hopen. split; intros ->.
  - cbn [fst snd add_database log_api database_resources next_resource api_log].
    rewrite Nat.eqb_refl. repeat split.
    intros i Hi. now apply Nat.eqb_neq in Hi as ->.
  - cbn [fst snd].
    destruct (api_database E (duckdb_open path :: api_log ss));
      now repeat split.
Qed.

Lemma database_open_outcomes_witness :
  path_argument atom_nil None
  /\ database_open_nif accepting_engine [atom_nil] sample_session
     = (make_ok (TResource database_resource_type 2),
        snd (add_database (Some 11%nat)
               (log_api (duckdb_open None) sample_session)))
  /\ database_resources
       (snd (database_open_nif accepting_engine [atom_nil] sample_session)) 2
     = Some (Some 11%nat)
  /\ fst (database_open_nif refusing_engine [TBinary "/tmp/x.db"] sample_session)
     = make_error "Failed to open database".
Proof.
  split; [constructor|].
  split; [reflexivity|].
  split.
  - exact (proj1 (proj2
      (proj1 (database_open_outcomes accepting_engine sample_session
                atom_nil None path_nil) eq_refl))).
  - exact (proj1
      (proj2 (database_open_outcomes refusing_engine sample_session
                (TBinary "/tmp/x.db") (Some "/tmp/x.db")
                (path_binary "/tmp/x.db" ltac:(vm_compute; reflexivity)))
         eq_refl)).
Defined.

(** ** Setting a configuration option *)

(** The option name is checked before the value: a binary name of 256
    bytes or more gives [Configuration name too long] whatever the
    value is, and only then a binary value of 1024 bytes or more gives
    [Configuration value too long]; neither reaches the engine.  Within
    the limits the engine is asked exactly once, with both texts cut at
    their first NUL, and its answer decides between [ok] and the error
    [Failed to set configuration option]. *)
Theorem config_set_limits
  (E : api_engine) (ss : session) (id : nat) (config : option nat)
  (Hcfg : config_resources ss id = Some config) :
  (forall name value, 256 <= Z.of_nat (String.length name) ->
     config_set_nif E
       [TResource config_resource_type id; TBinary name; value] ss
     = (make_error "Configuration name too long", ss))
  /\ (forall name value, Z.of_nat (String.length name) < 256 ->
      1024 <= Z.of_nat (String.length value) ->
      config_set_nif E
        [TResource config_resource_type id; TBinary name; TBinary value] ss
      = (make_error "Configuration value too long", ss))
  /\ (forall name value, Z.of_nat (String.length name) < 256 ->
      Z.of_nat (String.length value) < 1024 ->
      config_set_nif E
        [TResource config_resource_type id; TBinary name; TBinary value] ss
      = (match api_respond E (api_log ss)
                 (duckdb_set_config config (c_string name) (c_string value))
         with
         | DuckDBSuccess => atom_ok
         | DuckDBError => make_error "Failed to set configuration option"
         end,
         log_api (duckdb_set_config config (c_string name) (c_string value))
           ss)).
Proof.
  unfold config_set_nif. cbn [get_config_resource]. rewrite Hcfg.
  cbn [enif_inspect_binary].
  split; [|split].
  - intros name value Hn.
    now replace (256 <=? Z.of_nat (String.length name)) with true
      by (symmetry; apply Z.leb_le; lia).
  - intros name value Hn Hv.
    replace (256 <=? Z.of_nat (String.length name)) with false
      by (symmetry; apply Z.leb_gt; lia).
    now replace (1024 <=? Z.of_nat (String.length value)) with true
      by (symmetry; apply Z.leb_le; lia).
  - intros name value Hn Hv.
    replace (256 <=? Z.of_nat (String.length name)) with false
      by (symmetry; apply Z.leb_gt; lia).
    replace (1024 <=? Z.of_nat (String.length value)) with false
      by (symmetry; apply Z.leb_gt; lia).
    unfold api_invoke.
    now destruct (api_respond E (api_log ss)
                    (duckdb_set_config config (c_string name)
                       (c_string value))).
Qed.

Lemma config_set_limits_witness :
  config_resources sample_session 0 = Some (Some 2%nat)
  /\ config_set_nif accepting_engine
       [TResource config_resource_type 0;
        TBinary (replicate_char (Z.to_nat 256) "a");
        TBinary (replicate_char (Z.to_nat 1024) "b")] sample_session
     = (make_error "Configuration name too long", sample_session)
  /\ config_set_nif accepting_engine
       [TResource config_resource_type 0; TBinary "threads";
        TBinary (replicate_char (Z.to_nat 1024) "b")] sample_session
     = (make_error "Configuration value too long", sample_session)
  /\ config_set_nif accepting_engine
       [TResource config_resource_type 0; TBinary "threads"; TBinary "4"]
       sample_session
     = (atom_ok,
        log_api (duckdb_set_config (Some 2%nat) "threads" "4") sample_session).
Proof.
  pose proof (config_set_limits accepting_engine sample_session 0
                (Some 2%nat) eq_refl) as [H1 [H2 H3]].
  split; [reflexivity|].
  split; [|split].
  - exact (H1 (replicate_char (Z.to_nat 256) "a")
             (TBinary (replicate_char (Z.to_nat 1024) "b"))
             ltac:(vm_compute; discriminate)).
  - exact (H2 "threads" (replicate_char (Z.to_nat 1024) "b")
             ltac:(vm_compute; reflexivity)
             ltac:(vm_compute; discriminate)).
  - exact (H3 "threads" "4" ltac:(vm_compute; reflexivity)
             ltac:(vm_compute; reflexivity)).
Defined.

(** ** Running a query *)

(** A query given as a binary is copied into a buffer of its size and
    one byte more.  When that buffer cannot be allocated the NIF
    returns the error [Failed to allocate memory for SQL string] and
    the engine is not reached.  When it can, the query reaches the
    engine whatever its length, cut at its first NUL: if the engine
    succeeds the NIF returns a new result resource, and reading the
    rows of that resource gives the rows of the result the engine
    produced, the results handed out before being as they were; if the
    engine fails the NIF returns the engine's message, or
    [Query failed] when there is none, hands out no resource, and
    destroys the failed result twice. *)
Theorem query_outcomes
  (X : externals) (E : api_engine) (ss : session) (id : nat)
  (conn : option nat) (sql : string)
  (Hconn : connection_resources ss id = Some conn) :
  (api_allocator E (api_log ss) (Z.of_nat (String.length sql) + 1) = false ->
   connection_query_nif E
     [TResource connection_resource_type id; TBinary sql] ss
   = (make_error "Failed to allocate memory for SQL string", ss))
  /\ (api_allocator E (api_log ss) (Z.of_nat (String.length sql) + 1) = true ->
      api_respond E (api_log ss) (duckdb_query conn (c_string sql))
      = DuckDBSuccess ->
      fst (connection_query_nif E
             [TResource connection_resource_type id; TBinary sql] ss)
      = make_ok (TResource result_resource_type (next_resource ss))
      /\ result_rows_nif X
           (result_resources
              (snd (connection_query_nif E
                      [TResource connection_resource_type id; TBinary sql] ss)))
           [TResource result_resource_type (next_resource ss)]
         = result_rows X
             (api_result E (duckdb_query conn (c_string sql) :: api_log ss))
      /\ (forall i, i <> next_resource ss ->
          result_resources
            (snd (connection_query_nif E
                    [TResource connection_resource_type id; TBinary sql] ss)) i
          = result_resources ss i)
      /\ api_log (snd (connection_query_nif E
                         [TResource connection_resource_type id; TBinary sql]
                         ss))
         = duckdb_query conn (c_string sql) :: api_log ss)
  /\ (api_allocator E (api_log ss) (Z.of_nat (String.length sql) + 1) = true ->
      api_respond E (api_log ss) (duckdb_query conn (c_string sql))
      = DuckDBError ->
      fst (connection_query_nif E
             [TResource connection_resource_type id; TBinary sql] ss)
      = make_error
          (match api_result_error E
                   (duckdb_query conn (c_string sql) :: api_log ss) with
           | Some m => m
           | None => "Query failed"
           end)
      /\ result_resources
           (snd (connection_query_nif E
                   [TResource connection_resource_type id; TBinary sql] ss))
         = result_resources ss
      /\ next_resource
           (snd (connection_query_nif E
                   [TResource connection_resource_type id; TBinary sql] ss))
         = next_resource ss
      /\ api_log (snd (connection_query_nif E
                         [TResource connection_resource_type id; TBinary sql]
                         ss))
         = [duckdb_destroy_result (Some (next_resource ss));
            duckdb_destroy_result (Some (next_resource ss));
            duckdb_query conn (c_string sql)] ++ api_log ss).
Proof.
  unfold connection_query_nif. cbn [get_connection_resource]. rewrite Hconn.
  cbn [enif_inspect_binary]. unfold connection_query_run, api_invoke.
  split; [|split].
  - now intros ->.
  - intros -> ->.
    cbn [negb fst snd add_result log_api result_resources next_resource api_log
           result_rows_nif].
    rewrite Nat.eqb_refl. repeat split.
    intros i Hi. now apply Nat.eqb_neq in Hi as ->.
  - intros -> ->.
    cbn [negb fst snd log_api result_resources next_resource api_log app].
    now repeat split.
Qed.

Lemma query_outcomes_witness :
  connection_resources sample_session 1 = Some (Some 5%nat)
  /\ connection_query_nif out_of_memory_api_engine
       [TResource connection_resource_type 1; TBinary "SELECT id FROM t"]
       sample_session
     = (make_error "Failed to allocate memory for SQL string", sample_session)
  /\ result_rows_nif sample_externals
       (result_resources
          (snd (connection_query_nif accepting_engine
                  [TResource connection_resource_type 1;
                   TBinary "SELECT id FROM t"] sample_session)))
       [TResource result_resource_type 2]
     = result_rows sample_externals sample_uuid_result
  /\ fst (connection_query_nif refusing_engine
            [TResource connection_resource_type 1; TBinary "SELEC"]
            sample_session)
     = make_error "Parser Error: syntax error".
Proof.
  pose proof (query_outcomes sample_externals out_of_memory_api_engine
                sample_session 1 (Some 5%nat) "SELECT id FROM t" eq_refl)
    as [Hoom _].
  pose proof (query_outcomes sample_externals accepting_engine sample_session
                1 (Some 5%nat) "SELECT id FROM t" eq_refl) as [_ [Hok _]].
  pose proof (query_outcomes sample_externals refusing_engine sample_session
                1 (Some 5%nat) "SELEC" eq_refl) as [_ [_ Hfail]].
  split; [reflexivity|]. split; [|split].
  - exact (Hoom eq_refl).
  - exact (proj1 (proj2 (Hok eq_refl eq_refl))).
  - exact (proj1 (Hfail eq_refl eq_refl)).
Defined.

(** A query given as a charlist is limited by the 8192-byte buffer: a
    text of 8192 characters or more is refused with [badarg] and the
    engine is not reached.  A shorter one is run from the buffer, cut
    at its first NUL, with no allocation; so it is run exactly as the
    binary of the same characters is whenever that one finds the
    memory for its copy. *)
Theorem query_charlist_limit
  (E : api_engine) (ss : session) (id : nat) (conn : option nat)
  (l : list term) (s : string)
  (Hconn : connection_resources ss id = Some conn)
  (Hl : latin1_chars l = Some s) :
  (8192 <= Z.of_nat (String.length s) ->
   connection_query_nif E [TResource connection_resource_type id; TList l] ss
   = (enif_make_badarg, ss))
  /\ (Z.of_nat (String.length s) < 8192 ->
      connection_query_nif E [TResource connection_resource_type id; TList l] ss
      = connection_query_run E conn (c_string s) ss)
  /\ (Z.of_nat (String.length s) < 8192 ->
      api_allocator E (api_log ss) (Z.of_nat (String.length s) + 1) = true ->
      connection_query_nif E [TResource connection_resource_type id; TList l] ss
      = connection_query_nif E
          [TResource connection_resource_type id; TBinary s] ss).
Proof.
  unfold connection_query_nif. cbn [get_connection_resource]. rewrite Hconn.
  cbn [enif_inspect_binary]. split; [|split].
  - intros Hs. now rewrite (enif_get_string_overflow l s 8192 Hl Hs).
  - intros Hs. rewrite (enif_get_string_fits l s 8192 Hl Hs).
    now replace (Z.of_nat (String.length s) + 1 <=? 0) with false
      by (symmetry; apply Z.leb_gt; lia).
  - intros Hs ->. rewrite (enif_get_string_fits l s 8192 Hl Hs).
    now replace (Z.of_nat (String.length s) + 1 <=? 0) with false
      by (symmetry; apply Z.leb_gt; lia).
Qed.

Lemma query_charlist_limit_witness :
  connection_resources sample_session 1 = Some (Some 5%nat)
  /\ latin1_chars (List.repeat (TInt 97) (Z.to_nat 8192))
     = Some (replicate_char (Z.to_nat 8192) "a")
  /\ connection_query_nif accepting_engine
       [TResource connection_resource_type 1;
        TList (List.repeat (TInt 97) (Z.to_nat 8192))] sample_session
     = (enif_make_badarg, sample_session)
  /\ connection_query_nif out_of_memory_api_engine
       [TResource connection_resource_type 1;
        TList [TInt 104; TInt 105]] sample_session
     = connection_query_run out_of_memory_api_engine (Some 5%nat) "hi"
         sample_session.
Proof.
  split; [reflexivity|]. split; [vm_compute; reflexivity|]. split.
  - exact (proj1 (query_charlist_limit accepting_engine sample_session 1
                    (Some 5%nat) (List.repeat (TInt 97) (Z.to_nat 8192))
                    (replicate_char (Z.to_nat 8192) "a") eq_refl
                    ltac:(vm_compute; reflexivity))
             ltac:(vm_compute; discriminate)).
  - exact (proj1 (proj2 (query_charlist_limit out_of_memory_api_engine
                           sample_session 1 (Some 5%nat)
                           [TInt 104; TInt 105] "hi" eq_refl eq_refl))
             ltac:(vm_compute; reflexivity)).
Defined.

(** ** Transactions *)

Lemma latin1_chars_string_codes (s : string) :
  latin1_chars (string_codes s) = Some s.
Proof.
  induction s as [|c s IH]; cbn [string_codes latin1_chars]; [reflexivity|].
  pose proof (nat_ascii_bounded c) as Hc.
  replace ((0 <=? Z.of_nat (nat_of_ascii c))
           && (Z.of_nat (nat_of_ascii c) <=? 255)) with true
    by (symmetry; apply andb_true_iff; split; apply Z.leb_le; lia).
  now rewrite IH, Nat2Z.id, ascii_nat_embedding.
Qed.

(** Beginning, committing and rolling back a transaction each run one
    fixed statement on the connection and destroy the result once,
    whatever the engine answers, handing out no resource.  Success is
    the bare atom [ok].  A failure with a message is an error tuple
    whose second element is the message as a charlist, which reads back
    as the message, and not the binary that the other NIFs put in their
    error tuples. *)
Theorem transaction_outcomes
  (k : transaction_step) (E : api_engine) (ss : session) (id : nat)
  (conn : option nat)
  (Hconn : connection_resources ss id = Some conn) :
  (api_respond E (api_log ss) (duckdb_query conn (transaction_sql k))
   = DuckDBSuccess ->
   transaction_nif k E [TResource connection_resource_type id] ss
   = Some (atom_ok,
           log_api (duckdb_destroy_result None)
             (log_api (duckdb_query conn (transaction_sql k)) ss)))
  /\ (forall m,
      api_respond E (api_log ss) (duckdb_query conn (transaction_sql k))
      = DuckDBError ->
      api_result_error E (duckdb_query conn (transaction_sql k) :: api_log ss)
      = Some m ->
      exists l,
        transaction_nif k E [TResource connection_resource_type id] ss
        = Some (TTuple [atom_error; TList l],
                log_api (duckdb_destroy_result None)
                  (log_api (duckdb_query conn (transaction_sql k)) ss))
        /\ latin1_chars l = Some m
        /\ TTuple [atom_error; TList l] <> make_error m).
Proof.
  assert (Hbody : transaction_nif k E [TResource connection_resource_type id] ss
                  = transaction_statement_nif (transaction_sql k) E
                      [TResource connection_resource_type id] ss)
    by now destruct k.
  rewrite Hbody. unfold transaction_statement_nif, api_invoke.
  cbn [get_connection_resource]. rewrite Hconn.
  cbn [log_api api_log].
  split.
  - now intros ->.
  - intros m -> ->. exists (string_codes m).
    split; [reflexivity|]. split; [apply latin1_chars_string_codes|].
    discriminate.
Qed.

Lemma transaction_outcomes_witness :
  connection_resources sample_session 1 = Some (Some 5%nat)
  /\ transaction_nif Commit accepting_engine
       [TResource connection_resource_type 1] sample_session
     = Some (atom_ok,
             log_api (duckdb_destroy_result None)
               (log_api (duckdb_query (Some 5%nat) "COMMIT") sample_session))
  /\ exists l,
       transaction_nif Rollback refusing_engine
         [TResource connection_resource_type 1] sample_session
       = Some (TTuple [atom_error; TList l],
               log_api (duckdb_destroy_result None)
                 (log_api (duckdb_query (Some 5%nat) "ROLLBACK")
                    sample_session))
       /\ latin1_chars l = Some "Parser Error: syntax error".
Proof.
  split; [reflexivity|]. split.
  - exact (proj1 (transaction_outcomes Commit accepting_engine sample_session
                    1 (Some 5%nat) eq_refl) eq_refl).
  - destruct (proj2 (transaction_outcomes Rollback refusing_engine
                       sample_session 1 (Some 5%nat) eq_refl)
                "Parser Error: syntax error" eq_refl eq_refl)
      as [l [H1 [H2 _]]].
    exists l. now split.
Defined.

(** ** nil marks NULL *)

Lemma extract_plain_not_nil (X : externals) (d heap : list Z)
  (type_id : duckdb_type) (row_idx : nat) :
  extract_plain X d heap type_id row_idx <> atom_nil.
Proof.
  unfold extract_plain, hugeint_case, uhugeint_case, uuid_case,
    enif_make_double, enif_make_int, enif_make_uint, enif_make_long,
    enif_make_int64, enif_make_uint64, enif_make_binary, enif_make_atom,
    enif_make_tuple2, enif_make_tuple3, enif_make_badarg, atom_nil.
  destruct type_id;
    repeat match goal with
      | |- context [if ?c then _ else _] => destruct c
      end;
    cbn [String.append]; discriminate.
Qed.

(** For every type but LIST, ARRAY, STRUCT and MAP, the vector path
    returns [nil] for NULL cells only: the result is [nil] exactly when
    the data pointer is [NULL] or the validity bit of the row is
    clear, whatever bytes the cell holds. *)
Theorem nil_marks_null
  (X : externals) (vector : duckdb_vector) (logical_type : duckdb_logical_type)
  (row_idx : nat)
  (Hprim : is_complex_type (duckdb_get_type_id logical_type) = false) :
  extract_vector_value X vector logical_type row_idx = atom_nil
  <-> cell_is_nil vector (duckdb_get_type_id logical_type) row_idx = true.
Proof.
  split.
  - destruct (cell_is_nil vector (duckdb_get_type_id logical_type) row_idx)
      eqn:Hcell; [reflexivity|].
    intros Hnil. exfalso. revert Hnil.
    destruct logical_type as [type_id|width scale internal_type
                              |internal_type dictionary| | | |];
      try discriminate Hprim; cbn [extract_vector_value]; rewrite Hcell.
    + apply extract_plain_not_nil.
    + unfold decimal_case, enif_make_long, enif_make_double, enif_make_binary,
        enif_make_badarg, atom_nil.
      destruct internal_type;
        repeat match goal with
          | |- context [if ?c then _ else _] => destruct c
          end; discriminate.
    + unfold enum_case, enif_make_binary, enif_make_atom, atom_nil.
      destruct internal_type;
        repeat match goal with
          | |- context [if ?c then _ else _] => destruct c
          | |- context [match ?c with Some _ => _ | None => _ end] => destruct c
          end; discriminate.
  - intros Hcell.
    destruct logical_type; try discriminate Hprim;
      cbn [extract_vector_value]; now rewrite Hcell.
Qed.

Lemma nil_marks_null_witness :
  is_complex_type (duckdb_get_type_id (LT_plain DUCKDB_TYPE_INTEGER)) = false
  /\ cell_is_nil (int32_vector [0]) DUCKDB_TYPE_INTEGER 0 = false
  /\ extract_vector_value sample_externals (int32_vector [0])
       (LT_plain DUCKDB_TYPE_INTEGER) 0 <> atom_nil.
Proof.
  split; [reflexivity|]. split; [reflexivity|].
  intros Hnil.
  pose proof (proj1 (nil_marks_null sample_externals (int32_vector [0])
                       (LT_plain DUCKDB_TYPE_INTEGER) 0 eq_refl) Hnil) as H.
  discriminate H.
Defined.
